(** * Sipp: order management for an IT reseller

    A shallow embedding of the business rules of [SippApp]
    ([models.py], [forms.py], [views.py], [urls.py]): the computed
    properties of the models, the custom [save] of the order lines, the
    [clean] hooks of the forms, the listings and the other views.

    Conventions.
    - A Python [decimal.Decimal] is a signed coefficient and an exponent;
      arithmetic follows the default context (28 significant digits,
      round-half-even).  Signed zeros, NaN and infinities are left out.
    - The database is a record of tables, each a finite map from primary
      key to row.  A model instance is a primary key (absent before the
      first save) together with its field values.  A write goes through
      what Django and SQLite do to it: the values are prepared for
      their columns, the integers must fit 64 bits, and the row must
      pass the constraints of its table.
    - A raised exception is the [Raise] branch of [result]. *)

From Stdlib Require Import ZArith QArith Lia Ascii String DecimalString.
From stdpp Require Import gmap strings list fin_maps sorting.

Local Open Scope Z_scope.

(** ** Exceptions *)

(** [django.core.exceptions.ValidationError]: built from one message, or
    from a dict that maps field names to messages. *)
Inductive validation_error :=
  | VEMessage (msg : string)
  | VEDict (errors : list (string * string)).

Inductive exception :=
  | ValidationError (e : validation_error)
  | DoesNotExist
  | TypeError
  | ValueError
  | IntegrityError
  | OverflowError
  | InvalidOperation
  | NoReverseMatch.

Inductive result (A : Type) :=
  | Ok (a : A)
  | Raise (e : exception).
Arguments Ok {A} a.
Arguments Raise {A} e.

#[global] Instance result_ret : MRet result := λ A a, Ok a.
#[global] Instance result_bind : MBind result := λ A B k r,
  match r with
  | Ok a => k a
  | Raise e => Raise e
  end.

(** Evaluate [f] on every element, left to right, stopping at the first
    exception: a comprehension or generator consumed to its end. *)
Fixpoint traverse {A B} (f : A → result B) (l : list A) : result (list B) :=
  match l with
  | [] => Ok []
  | x :: l' => y ← f x; ys ← traverse f l'; Ok (y :: ys)
  end.

(** ** Python's [decimal.Decimal] *)

Module PyDecimal.

(** The value of [mkDecimal c e] is [c * 10 ^ e]. *)
Record Decimal := mkDecimal { coef : Z; expo : Z }.

#[global] Instance Decimal_eq_dec : EqDecision Decimal.
Proof. solve_decision. Defined.

(** [getcontext().prec] of the default context. *)
Definition prec : Z := 28.

Fixpoint ndigits_aux (fuel : nat) (n : Z) : Z :=
  match fuel with
  | O => 1
  | S fuel' => if n <? 10 then 1 else 1 + ndigits_aux fuel' (n / 10)
  end.

(** [len(str(n))] for [0 <= n]. *)
Definition ndigits (n : Z) : Z := ndigits_aux (Z.to_nat (Z.log2 n)) n.

(** [Decimal._fix]: a coefficient of more than [prec] digits is rounded
    half-even to [prec] digits; a carry out of the top digit drops one
    more digit. *)
Definition dec_fix (d : Decimal) : Decimal :=
  let a := Z.abs (coef d) in
  if a <? 10 ^ prec then d
  else
    let k := ndigits a - prec in
    let q := a / 10 ^ k in
    let r := a mod 10 ^ k in
    let half := 5 * 10 ^ (k - 1) in
    let q' := if (half <? r) || ((r =? half) && Z.odd q) then q + 1 else q in
    if q' =? 10 ^ prec
    then mkDecimal (Z.sgn (coef d) * 10 ^ (prec - 1)) (expo d + k + 1)
    else mkDecimal (Z.sgn (coef d) * q') (expo d + k).

(** [Decimal._rescale(e, ROUND_HALF_EVEN)]: the number at the exponent
    [e], padded with zeros or rounded half-even to it. *)
Definition dec_rescale (e : Z) (d : Decimal) : Decimal :=
  if e <=? expo d then mkDecimal (coef d * 10 ^ (expo d - e)) e
  else
    let k := e - expo d in
    let a := Z.abs (coef d) in
    let q := a / 10 ^ k in
    let r := a mod 10 ^ k in
    let half := 5 * 10 ^ (k - 1) in
    let q' := if (half <? r) || ((r =? half) && Z.odd q) then q + 1 else q in
    mkDecimal (Z.sgn (coef d) * q') e.

(** [Decimal(z)] for a Python [int]. *)
Definition of_int (z : Z) : Decimal := mkDecimal z 0.

(** [Decimal.__mul__]: coefficients multiply, exponents add. *)
Definition dec_mul (a b : Decimal) : Decimal :=
  dec_fix (mkDecimal (coef a * coef b) (expo a + expo b)).

(** [Decimal.__add__]: both operands are brought to the smaller
    exponent, then the coefficients add. *)
Definition dec_add (a b : Decimal) : Decimal :=
  let e := Z.min (expo a) (expo b) in
  dec_fix (mkDecimal (coef a * 10 ^ (expo a - e) + coef b * 10 ^ (expo b - e)) e).

(** [bool(d)]: a Decimal is falsy exactly when it is zero. *)
Definition dec_truthy (d : Decimal) : bool := negb (coef d =? 0).

(** [d <= 0] against the [int] zero. *)
Definition dec_le_zero (d : Decimal) : bool := coef d <=? 0.

(** The rational denoted by a Decimal. *)
Definition dec_value (d : Decimal) : Q :=
  (inject_Z (coef d) * Qpower (inject_Z 10) (expo d))%Q.

End PyDecimal.
Import PyDecimal.

(** The numbers that [sum] and [+] range over in [total_pedido]. *)
Inductive number :=
  | PInt (z : Z)
  | PDec (d : Decimal).

(** [int.__mul__] defers to [Decimal.__rmul__], which converts the int. *)
Definition int_mul_dec (n : Z) (d : Decimal) : Decimal := dec_mul (of_int n) d.

Definition num_add (x y : number) : number :=
  match x, y with
  | PInt a, PInt b => PInt (a + b)
  | PInt a, PDec d => PDec (dec_add (of_int a) d)
  | PDec d, PInt b => PDec (dec_add d (of_int b))
  | PDec a, PDec b => PDec (dec_add a b)
  end.

(** The builtin [sum(iterable)]: a left fold of [+] from the int [0]. *)
Definition py_sum (l : list number) : number := fold_left num_add l (PInt 0).

Definition num_value (x : number) : Q :=
  match x with
  | PInt z => inject_Z z
  | PDec d => dec_value d
  end.

Definition Qsum (l : list Q) : Q := fold_right Qplus 0%Q l.

Definition Zsum (l : list Z) : Z := fold_right Z.add 0 l.

(** An amount of [c] hundredths, as a Decimal with two decimals. *)
Definition centavos (c : Z) : Decimal := mkDecimal c (-2).

(** ** [datetime.date] *)

Module PyDate.

Record date := mkDate { year : Z; month : Z; day : Z }.

#[global] Instance date_eq_dec : EqDecision date.
Proof. solve_decision. Defined.

(** [date._cmp]: the tuples [(year, month, day)] compared
    lexicographically. *)
Definition date_cmp (a b : date) : comparison :=
  match year a ?= year b with
  | Eq => match month a ?= month b with
          | Eq => day a ?= day b
          | c => c
          end
  | c => c
  end.

(** [a > b] *)
Definition date_gt (a b : date) : bool :=
  match date_cmp a b with
  | Gt => true
  | _ => false
  end.

Definition is_leap (y : Z) : bool :=
  (y mod 4 =? 0) && (negb (y mod 100 =? 0) || (y mod 400 =? 0)).

Definition days_before_year (y : Z) : Z :=
  let y' := y - 1 in
  y' * 365 + y' / 4 - y' / 100 + y' / 400.

Definition days_in_month (y m : Z) : Z :=
  if m =? 2 then (if is_leap y then 29 else 28)
  else if (m =? 4) || (m =? 6) || (m =? 9) || (m =? 11) then 30
  else 31.

Definition days_before_month (y m : Z) : Z :=
  nth (Z.to_nat m) [0; 0; 31; 59; 90; 120; 151; 181; 212; 243; 273; 304; 334] 0
  + (if (2 <? m) && is_leap y then 1 else 0).

(** [date.toordinal()]: the number of the day, counting 0001-01-01 as
    day 1.  The chronological order of dates is the order of their
    ordinals. *)
Definition toordinal (d : date) : Z :=
  days_before_year (year d) + days_before_month (year d) (month d) + day d.

(** The dates the [date] constructor accepts. *)
Definition valid_date (d : date) : Prop :=
  1 ≤ year d ≤ 9999 ∧ 1 ≤ month d ≤ 12 ∧ 1 ≤ day d ≤ days_in_month (year d) (month d).

End PyDate.
Import PyDate.

(** A [datetime] in the current time zone: its day and the microseconds
    since midnight.  The order is that of the pairs. *)
Record datetime := mkDatetime { dt_date : date; dt_micro : Z }.

Definition datetime_cmp (a b : datetime) : comparison :=
  match date_cmp (dt_date a) (dt_date b) with
  | Eq => dt_micro a ?= dt_micro b
  | c => c
  end.


(** ** Model instances and tables *)

(** A model instance: [pk] is [None] until the first save. *)
Record instance (A : Type) := mkInstance { pk : option Z; fields : A }.
Arguments mkInstance {A} pk fields.
Arguments pk {A} i.
Arguments fields {A} i.

(** The key an insert assigns: one past the largest key in use. *)
Definition next_pk {A} (tbl : gmap Z A) : Z :=
  1 + map_fold (λ k _ acc, Z.max k acc) 0 tbl.

(** The key under which [Model.save] writes an instance: its own, or a
    new one when it has none. *)
Definition save_key {A} (tbl : gmap Z A) (self : instance A) : Z :=
  match pk self with
  | Some k => k
  | None => next_pk tbl
  end.

(** The integers that SQLite's INTEGER holds and that a statement takes
    as a parameter: 64 bits, signed. *)
Definition int64 (z : Z) : bool := (- 2 ^ 63 <=? z) && (z <? 2 ^ 63).

(** [django.db.backends.utils.format_number(value, max_digits,
    decimal_places)], by which a [DecimalField] prepares its value for
    the database: the value is quantized to [decimal_places] in a
    context of precision [max_digits], and [quantize] raises
    [InvalidOperation] when the result would have more digits. *)
Definition format_number (max_digits decimal_places : Z) (value : Decimal) : result Decimal :=
  let q := dec_rescale (- decimal_places) value in
  if Z.abs (coef q) <? 10 ^ max_digits then Ok q else Raise InvalidOperation.

(** A nullable foreign key points to a row of its table, or to none. *)
Definition fk_ok {A} (tbl : gmap Z A) (k : option Z) : Prop :=
  match k with
  | Some k => is_Some (tbl !! k)
  | None => True
  end.

#[global] Instance fk_ok_dec {A} (tbl : gmap Z A) k : Decision (fk_ok tbl k).
Proof. destruct k; apply _. Defined.

(** [Model.save] on the table [tbl] of a model.  The field values are
    prepared for their columns ([prep]: the [get_db_prep_save] of the
    fields, which may raise).  The statement, an UPDATE of the row at
    the instance's key or an INSERT at that key or at a new one, takes
    the key and the integers among the values ([ints]) as parameters:
    one beyond 64 bits raises [OverflowError].  The database refuses
    the row with [IntegrityError] when it breaks a constraint of the
    table ([check], given the key the row gets).  After a write the
    instance has its key set; its field values are those it had in
    memory, not those prepared for the columns.  (A table whose keys are
    used up does not arise.) *)
Definition Model_save {A} (prep : A → result A) (ints : A → list Z)
    (check : Z → A → bool) (tbl : gmap Z A) (self : instance A)
  : result (gmap Z A * instance A) :=
  row ← prep (fields self);
  let k := save_key tbl self in
  if negb (forallb int64 (k :: ints row)) then Raise OverflowError
  else if check k row then Ok (<[k := row]> tbl, mkInstance (Some k) (fields self))
  else Raise IntegrityError.

(** [bool(s)] for a [str]. *)
Definition str_truthy (s : string) : bool :=
  match s with
  | EmptyString => false
  | String _ _ => true
  end.

(** ** [models.py] *)

Module Cliente.

Record t := mk {
  nombre : string;
  encargado : string;
  presupuesto : Decimal;
  email_contacto : string;
  fecha_vencimiento_presupuesto : date
}.

(** [timezone.now().date() > self.fecha_vencimiento_presupuesto];
    [hoy] is the value of [timezone.now().date()]. *)
Definition presupuesto_vencido (hoy : date) (self : t) : bool :=
  date_gt hoy (fecha_vencimiento_presupuesto self).

End Cliente.

Module EmpresaProveedora.

Record t := mk {
  nombre : string;
  encargado : string
}.

End EmpresaProveedora.

Module CategoriaProducto.

Record t := mk {
  nombre : string;
  descripcion : string
}.

End CategoriaProducto.

Module ProductoHardware.

Definition TIPO_PRODUCTO_CHOICES : list (string * string) :=
  [ ("switch", "Switch");
    ("disco_duro", "Disco Duro");
    ("ram", "RAM");
    ("impresora", "Impresora");
    ("teclado", "Teclado");
    ("mouse", "Mouse");
    ("ordenador", "Ordenador");
    ("laptop", "Laptop");
    ("otros", "Otros") ].

Record t := mk {
  nombre : string;
  tipo : string;
  tipo_personalizado : string;
  precio : Decimal;
  empresa_proveedora : option Z;
  categoria : option Z;
  activo : bool
}.

#[global] Instance t_eq_dec : EqDecision t.
Proof. solve_decision. Defined.

(** [dict(choices)]: a later pair replaces an earlier one with the
    same key. *)
Definition dict_of_choices (choices : list (string * string)) : gmap string string :=
  fold_left (λ m kv, <[kv.1 := kv.2]> m) choices ∅.

(** [get_tipo_display], which Django derives from [choices]: the label
    of the stored value, or the value itself when it is no choice. *)
Definition get_tipo_display (self : t) : string :=
  default (tipo self) (dict_of_choices TIPO_PRODUCTO_CHOICES !! tipo self).

Definition set_precio (self : t) (p : Decimal) : t :=
  mk (nombre self) (tipo self) (tipo_personalizado self) p
     (empresa_proveedora self) (categoria self) (activo self).

Definition tipo_seleccion (self : t) : string :=
  if String.eqb (tipo self) "otros" && str_truthy (tipo_personalizado self)
  then tipo_personalizado self
  else get_tipo_display self.

Definition msg_tipo_personalizado : string :=
  "Debe especificar un tipo personalizado cuando selecciona "
  +:+ String "034"%char "Otros" +:+ String "034"%char EmptyString.

Definition clean (self : t) : result unit :=
  if String.eqb (tipo self) "otros" && negb (str_truthy (tipo_personalizado self))
  then Raise (ValidationError (VEDict [("tipo_personalizado", msg_tipo_personalizado)]))
  else Ok tt.

End ProductoHardware.

Module CaracteristicaProductoHardware.

Record t := mk {
  attr : string;
  valor : string;
  producto_hardware : Z
}.

End CaracteristicaProductoHardware.

Module ServicioInformatico.

Record t := mk {
  nombre : string;
  duracion : Z;
  unidad_duracion : string;
  descripcion : string;
  precio : Decimal;
  observaciones : string;
  empresa_proveedora : Z;
  activo : bool
}.

Definition set_precio (self : t) (p : Decimal) : t :=
  mk (nombre self) (duracion self) (unidad_duracion self) (descripcion self) p
     (observaciones self) (empresa_proveedora self) (activo self).




End ServicioInformatico.

Module Pedido.

Definition ESTADO_PEDIDO_CHOICES : list (string * string) :=
  [ ("pendiente", "Pendiente");
    ("confirmado", "Confirmado");
    ("en_proceso", "En Proceso");
    ("completado", "Completado");
    ("cancelado", "Cancelado");
    ("otros", "Otros") ].

Record t := mk {
  cliente : Z;
  fecha_pedido : datetime;
  estado : string;
  observaciones : string
}.

Definition get_estado_display (self : t) : string :=
  default (estado self)
    (ProductoHardware.dict_of_choices ESTADO_PEDIDO_CHOICES !! estado self).

End Pedido.

(** [precio_unitario] is [None] on an instance built without a unit
    price: the field declares no default. *)
Module ItemProductoPedido.

Record t := mk {
  pedido : Z;
  producto : Z;
  cantidad : Z;
  precio_unitario : option Decimal
}.

(** [self.cantidad * self.precio_unitario]; an int times [None] raises
    [TypeError]. *)
Definition subtotal (self : t) : result Decimal :=
  match precio_unitario self with
  | Some p => Ok (int_mul_dec (cantidad self) p)
  | None => Raise TypeError
  end.

Definition set_precio_unitario (self : t) (p : Decimal) : t :=
  mk (pedido self) (producto self) (cantidad self) (Some p).

End ItemProductoPedido.

Module ItemServicioPedido.

Record t := mk {
  pedido : Z;
  servicio : Z;
  cantidad : Z;
  precio_unitario : option Decimal
}.

Definition subtotal (self : t) : result Decimal :=
  match precio_unitario self with
  | Some p => Ok (int_mul_dec (cantidad self) p)
  | None => Raise TypeError
  end.

Definition set_precio_unitario (self : t) (p : Decimal) : t :=
  mk (pedido self) (servicio self) (cantidad self) (Some p).

End ItemServicioPedido.

(** ** The database *)

Record DB := mkDB {
  productos : gmap Z ProductoHardware.t;
  caracteristicas : gmap Z CaracteristicaProductoHardware.t;
  servicios : gmap Z ServicioInformatico.t;
  items_productos : gmap Z ItemProductoPedido.t;
  items_servicios : gmap Z ItemServicioPedido.t;
  clientes : gmap Z Cliente.t;
  empresas : gmap Z EmpresaProveedora.t;
  categorias : gmap Z CategoriaProducto.t;
  pedidos : gmap Z Pedido.t
}.

(** The database with one table replaced. *)
Definition set_productos (db : DB) (tbl : gmap Z ProductoHardware.t) : DB :=
  mkDB tbl (caracteristicas db) (servicios db) (items_productos db) (items_servicios db)
       (clientes db) (empresas db) (categorias db) (pedidos db).

Definition set_servicios (db : DB) (tbl : gmap Z ServicioInformatico.t) : DB :=
  mkDB (productos db) (caracteristicas db) tbl (items_productos db) (items_servicios db)
       (clientes db) (empresas db) (categorias db) (pedidos db).

Definition set_items_productos (db : DB) (tbl : gmap Z ItemProductoPedido.t) : DB :=
  mkDB (productos db) (caracteristicas db) (servicios db) tbl (items_servicios db)
       (clientes db) (empresas db) (categorias db) (pedidos db).

Definition set_items_servicios (db : DB) (tbl : gmap Z ItemServicioPedido.t) : DB :=
  mkDB (productos db) (caracteristicas db) (servicios db) (items_productos db) tbl
       (clientes db) (empresas db) (categorias db) (pedidos db).

(** [bool(x)] where [x] is a Decimal or [None]. *)
Definition opt_dec_truthy (x : option Decimal) : bool :=
  match x with
  | Some d => dec_truthy d
  | None => false
  end.

(** Following a foreign key, as [self.producto] does: the row the table
    holds under that key, or [DoesNotExist]. *)
Definition related {A} (tbl : gmap Z A) (k : Z) : result A :=
  match tbl !! k with
  | Some row => Ok row
  | None => Raise DoesNotExist
  end.

(** *** The table of [ItemProductoPedido] *)

(** [precio_unitario] is a [DecimalField(max_digits=10,
    decimal_places=2)]. *)
Definition ItemProductoPedido_prep (row : ItemProductoPedido.t) : result ItemProductoPedido.t :=
  match ItemProductoPedido.precio_unitario row with
  | Some p => q ← format_number 10 2 p; Ok (ItemProductoPedido.set_precio_unitario row q)
  | None => Ok row
  end.

Definition ItemProductoPedido_ints (row : ItemProductoPedido.t) : list Z :=
  [ItemProductoPedido.pedido row; ItemProductoPedido.producto row;
   ItemProductoPedido.cantidad row].

(** [unique_together = ['pedido', 'producto']]: no other row of the
    table holds the pair. *)
Definition ItemProductoPedido_unique (tbl : gmap Z ItemProductoPedido.t) (k : Z)
    (row : ItemProductoPedido.t) : Prop :=
  map_Forall (λ k' r, k' = k
                      ∨ ¬ (ItemProductoPedido.pedido r = ItemProductoPedido.pedido row
                           ∧ ItemProductoPedido.producto r = ItemProductoPedido.producto row))
             tbl.

#[global] Instance ItemProductoPedido_unique_dec tbl k row :
  Decision (ItemProductoPedido_unique tbl k row).
Proof. unfold ItemProductoPedido_unique. apply _. Defined.

(** The constraints of the table: [precio_unitario] is not null,
    [cantidad >= 0] (the check of a [PositiveIntegerField]), the pair is
    unique, and the two foreign keys point to rows. *)
Definition ItemProductoPedido_check (db : DB) (k : Z) (row : ItemProductoPedido.t) : bool :=
  bool_decide (is_Some (ItemProductoPedido.precio_unitario row)
               ∧ 0 ≤ ItemProductoPedido.cantidad row
               ∧ ItemProductoPedido_unique (items_productos db) k row
               ∧ is_Some (pedidos db !! ItemProductoPedido.pedido row)
               ∧ is_Some (productos db !! ItemProductoPedido.producto row)).

(** [ItemProductoPedido.save]:
    if not self.precio_unitario: self.precio_unitario = self.producto.precio
    and then [super().save()]. *)
Definition ItemProductoPedido_save (db : DB) (self : instance ItemProductoPedido.t)
  : result (DB * instance ItemProductoPedido.t) :=
  self1 ← (if negb (opt_dec_truthy (ItemProductoPedido.precio_unitario (fields self)))
           then producto ← related (productos db) (ItemProductoPedido.producto (fields self));
                Ok (mkInstance (pk self)
                      (ItemProductoPedido.set_precio_unitario (fields self)
                         (ProductoHardware.precio producto)))
           else Ok self);
  r ← Model_save ItemProductoPedido_prep ItemProductoPedido_ints (ItemProductoPedido_check db)
        (items_productos db) self1;
  Ok (set_items_productos db r.1, r.2).

(** *** The table of [ItemServicioPedido] *)

Definition ItemServicioPedido_prep (row : ItemServicioPedido.t) : result ItemServicioPedido.t :=
  match ItemServicioPedido.precio_unitario row with
  | Some p => q ← format_number 10 2 p; Ok (ItemServicioPedido.set_precio_unitario row q)
  | None => Ok row
  end.

Definition ItemServicioPedido_ints (row : ItemServicioPedido.t) : list Z :=
  [ItemServicioPedido.pedido row; ItemServicioPedido.servicio row;
   ItemServicioPedido.cantidad row].

(** [unique_together = ['pedido', 'servicio']] *)
Definition ItemServicioPedido_unique (tbl : gmap Z ItemServicioPedido.t) (k : Z)
    (row : ItemServicioPedido.t) : Prop :=
  map_Forall (λ k' r, k' = k
                      ∨ ¬ (ItemServicioPedido.pedido r = ItemServicioPedido.pedido row
                           ∧ ItemServicioPedido.servicio r = ItemServicioPedido.servicio row))
             tbl.

#[global] Instance ItemServicioPedido_unique_dec tbl k row :
  Decision (ItemServicioPedido_unique tbl k row).
Proof. unfold ItemServicioPedido_unique. apply _. Defined.

Definition ItemServicioPedido_check (db : DB) (k : Z) (row : ItemServicioPedido.t) : bool :=
  bool_decide (is_Some (ItemServicioPedido.precio_unitario row)
               ∧ 0 ≤ ItemServicioPedido.cantidad row
               ∧ ItemServicioPedido_unique (items_servicios db) k row
               ∧ is_Some (pedidos db !! ItemServicioPedido.pedido row)
               ∧ is_Some (servicios db !! ItemServicioPedido.servicio row)).

(** [ItemServicioPedido.save], the same with [self.servicio.precio]. *)
Definition ItemServicioPedido_save (db : DB) (self : instance ItemServicioPedido.t)
  : result (DB * instance ItemServicioPedido.t) :=
  self1 ← (if negb (opt_dec_truthy (ItemServicioPedido.precio_unitario (fields self)))
           then servicio ← related (servicios db) (ItemServicioPedido.servicio (fields self));
                Ok (mkInstance (pk self)
                      (ItemServicioPedido.set_precio_unitario (fields self)
                         (ServicioInformatico.precio servicio)))
           else Ok self);
  r ← Model_save ItemServicioPedido_prep ItemServicioPedido_ints (ItemServicioPedido_check db)
        (items_servicios db) self1;
  Ok (set_items_servicios db r.1, r.2).

(** *** The tables of [ProductoHardware] and [ServicioInformatico] *)

(** [precio] is a [DecimalField(max_digits=10, decimal_places=2)]; the
    text columns take any text on SQLite. *)
Definition ProductoHardware_prep (row : ProductoHardware.t) : result ProductoHardware.t :=
  q ← format_number 10 2 (ProductoHardware.precio row);
  Ok (ProductoHardware.set_precio row q).

Definition ProductoHardware_ints (row : ProductoHardware.t) : list Z :=
  option_list (ProductoHardware.empresa_proveedora row)
  ++ option_list (ProductoHardware.categoria row).

(** [unique_together = ['nombre', 'empresa_proveedora']]: no other row
    holds the pair; a row without supplier holds a NULL, which is equal
    to nothing. *)
Definition ProductoHardware_unique (tbl : gmap Z ProductoHardware.t) (k : Z)
    (row : ProductoHardware.t) : Prop :=
  map_Forall (λ k' r, k' = k
                      ∨ ¬ (ProductoHardware.nombre r = ProductoHardware.nombre row
                           ∧ is_Some (ProductoHardware.empresa_proveedora row)
                           ∧ ProductoHardware.empresa_proveedora r
                             = ProductoHardware.empresa_proveedora row))
             tbl.

#[global] Instance ProductoHardware_unique_dec tbl k row :
  Decision (ProductoHardware_unique tbl k row).
Proof. unfold ProductoHardware_unique. apply _. Defined.

Definition ProductoHardware_check (db : DB) (k : Z) (row : ProductoHardware.t) : bool :=
  bool_decide (ProductoHardware_unique (productos db) k row
               ∧ fk_ok (empresas db) (ProductoHardware.empresa_proveedora row)
               ∧ fk_ok (categorias db) (ProductoHardware.categoria row)).

(** [ProductoHardware] and [ServicioInformatico] do not override [save]:
    saving one writes its own table. *)
Definition ProductoHardware_save (db : DB) (self : instance ProductoHardware.t)
  : result (DB * instance ProductoHardware.t) :=
  r ← Model_save ProductoHardware_prep ProductoHardware_ints (ProductoHardware_check db)
        (productos db) self;
  Ok (set_productos db r.1, r.2).

Definition ServicioInformatico_prep (row : ServicioInformatico.t)
  : result ServicioInformatico.t :=
  q ← format_number 10 2 (ServicioInformatico.precio row);
  Ok (ServicioInformatico.set_precio row q).

Definition ServicioInformatico_ints (row : ServicioInformatico.t) : list Z :=
  [ServicioInformatico.duracion row; ServicioInformatico.empresa_proveedora row].

(** [unique_together = ['nombre', 'empresa_proveedora']] *)
Definition ServicioInformatico_unique (tbl : gmap Z ServicioInformatico.t) (k : Z)
    (row : ServicioInformatico.t) : Prop :=
  map_Forall (λ k' r, k' = k
                      ∨ ¬ (ServicioInformatico.nombre r = ServicioInformatico.nombre row
                           ∧ ServicioInformatico.empresa_proveedora r
                             = ServicioInformatico.empresa_proveedora row))
             tbl.

#[global] Instance ServicioInformatico_unique_dec tbl k row :
  Decision (ServicioInformatico_unique tbl k row).
Proof. unfold ServicioInformatico_unique. apply _. Defined.

(** [duracion >= 0] is the check of its [PositiveIntegerField]. *)
Definition ServicioInformatico_check (db : DB) (k : Z) (row : ServicioInformatico.t) : bool :=
  bool_decide (0 ≤ ServicioInformatico.duracion row
               ∧ ServicioInformatico_unique (servicios db) k row
               ∧ is_Some (empresas db !! ServicioInformatico.empresa_proveedora row)).

Definition ServicioInformatico_save (db : DB) (self : instance ServicioInformatico.t)
  : result (DB * instance ServicioInformatico.t) :=
  r ← Model_save ServicioInformatico_prep ServicioInformatico_ints
        (ServicioInformatico_check db) (servicios db) self;
  Ok (set_servicios db r.1, r.2).

(** [self.items_productos.all()] of the saved Pedido with key [pedido_pk]:
    the rows of the table that point to it. *)
Definition Pedido_items_productos (db : DB) (pedido_pk : Z) : list ItemProductoPedido.t :=
  filter (λ it, ItemProductoPedido.pedido it = pedido_pk) (map_to_list (items_productos db)).*2.

Definition Pedido_items_servicios (db : DB) (pedido_pk : Z) : list ItemServicioPedido.t :=
  filter (λ it, ItemServicioPedido.pedido it = pedido_pk) (map_to_list (items_servicios db)).*2.

(** [Pedido.total_pedido] of the saved Pedido with key [pedido_pk]. *)
Definition Pedido_total_pedido (db : DB) (pedido_pk : Z) : result number :=
  subs_productos ← traverse ItemProductoPedido.subtotal (Pedido_items_productos db pedido_pk);
  let total_productos := py_sum (PDec <$> subs_productos) in
  subs_servicios ← traverse ItemServicioPedido.subtotal (Pedido_items_servicios db pedido_pk);
  let total_servicios := py_sum (PDec <$> subs_servicios) in
  Ok (num_add total_productos total_servicios).

(** ** [forms.py] *)

(** The values a form keeps in [cleaned_data]. *)
Inductive value :=
  | VNone
  | VBool (b : bool)
  | VInt (z : Z)
  | VDec (d : Decimal)
  | VStr (s : string).

#[global] Instance value_eq_dec : EqDecision value.
Proof. solve_decision. Defined.

(** [bool(v)] *)
Definition truthy (v : value) : bool :=
  match v with
  | VNone => false
  | VBool b => b
  | VInt z => negb (z =? 0)
  | VDec d => dec_truthy d
  | VStr s => str_truthy s
  end.

(** [v <= 0]; [None] and strings do not compare with an int. *)
Definition value_le_zero (v : value) : result bool :=
  match v with
  | VBool b => Ok ((if b then 1 else 0) <=? 0)
  | VInt z => Ok (z <=? 0)
  | VDec d => Ok (dec_le_zero d)
  | VNone | VStr _ => Raise TypeError
  end.

(** [v < n] for an int [n]; the comparison of a Decimal with an int is
    exact. *)
Definition dec_lt_int (d : Decimal) (n : Z) : bool :=
  if 0 <=? expo d then coef d * 10 ^ expo d <? n else coef d <? n * 10 ^ (- expo d).

Definition value_lt_int (v : value) (n : Z) : result bool :=
  match v with
  | VBool b => Ok ((if b then 1 else 0) <? n)
  | VInt z => Ok (z <? n)
  | VDec d => Ok (dec_lt_int d n)
  | VNone | VStr _ => Raise TypeError
  end.

(** The state of a form under validation: [cleaned_data] and [errors],
    the messages collected per field. *)
Record form := mkForm {
  cleaned_data : gmap string value;
  errors : gmap string (list string)
}.

(** [cleaned_data.get(key)] *)
Definition cleaned_get (cd : gmap string value) (key : string) : value :=
  default VNone (cd !! key).

(** [Form.add_error(field, msg)]: the message joins the field's errors
    and the field leaves [cleaned_data]. *)
Definition add_error (self : form) (field msg : string) : form :=
  mkForm (delete field (cleaned_data self))
         (<[field := default [] (errors self !! field) ++ [msg]]> (errors self)).

Module ProductoHardwareForm.

(** [clean]: [super().clean()] hands back [self.cleaned_data] itself, so
    the assignment to [cleaned_data['tipo_personalizado']] lands in the
    form; the form after [clean] carries the returned dict. *)
Definition clean (self : form) : form :=
  let tipo := cleaned_get (cleaned_data self) "tipo" in
  let tipo_personalizado := cleaned_get (cleaned_data self) "tipo_personalizado" in
  let self1 :=
    if bool_decide (tipo = VStr "otros") && negb (truthy tipo_personalizado)
    then add_error self "tipo_personalizado" ProductoHardware.msg_tipo_personalizado
    else self in
  if negb (bool_decide (tipo = VStr "otros")) && truthy tipo_personalizado
  then mkForm (<["tipo_personalizado" := VStr EmptyString]> (cleaned_data self1)) (errors self1)
  else self1.

Definition clean_precio (self : form) : result value :=
  let precio := cleaned_get (cleaned_data self) "precio" in
  if truthy precio
  then le ← value_le_zero precio;
       if (le : bool)
       then Raise (ValidationError (VEMessage "El precio debe ser mayor a cero."))
       else Ok precio
  else Ok precio.

(** [construct_instance], which a model form runs once [clean] is done:
    every field of [Meta.fields] found in [cleaned_data] is written to
    the instance; a related object is held by its key. *)
Definition construct_instance (cd : gmap string value) (inst : ProductoHardware.t)
  : ProductoHardware.t :=
  ProductoHardware.mk
    (match cd !! "nombre" with
     | Some (VStr s) => s
     | _ => ProductoHardware.nombre inst
     end)
    (match cd !! "tipo" with
     | Some (VStr s) => s
     | _ => ProductoHardware.tipo inst
     end)
    (match cd !! "tipo_personalizado" with
     | Some (VStr s) => s
     | _ => ProductoHardware.tipo_personalizado inst
     end)
    (match cd !! "precio" with
     | Some (VDec d) => d
     | _ => ProductoHardware.precio inst
     end)
    (match cd !! "empresa_proveedora" with
     | Some (VInt k) => Some k
     | Some VNone => None
     | _ => ProductoHardware.empresa_proveedora inst
     end)
    (match cd !! "categoria" with
     | Some (VInt k) => Some k
     | Some VNone => None
     | _ => ProductoHardware.categoria inst
     end)
    (match cd !! "activo" with
     | Some (VBool b) => b
     | _ => ProductoHardware.activo inst
     end).

(** The test of [validate_unique], which [_post_clean] runs on the
    instance for [unique_together = ['nombre', 'empresa_proveedora']]:
    whether another product holds the pair.  The test is skipped for an
    instance without supplier, and an instance that has a key is not
    compared with its own row. *)
Definition validate_unique_fails (db : DB) (inst : instance ProductoHardware.t) : bool :=
  bool_decide (is_Some (ProductoHardware.empresa_proveedora (fields inst))
               ∧ ¬ map_Forall
                     (λ k' r, pk inst = Some k'
                              ∨ ¬ (ProductoHardware.nombre r
                                   = ProductoHardware.nombre (fields inst)
                                   ∧ ProductoHardware.empresa_proveedora r
                                     = ProductoHardware.empresa_proveedora (fields inst)))
                     (productos db)).

(** [form.save()], as the create and update views call it.  [self] is
    the form with the errors of its fields and of [clean], and
    [cleaned_data] holds values that the fields have accepted.
    [self.instance] is the instance [inst] with the entries of
    [cleaned_data] written to it.  [self.errors] is not empty when
    [self] has an error or when [validate_unique] has left one, and then
    [save] raises [ValueError]; otherwise the instance is saved. *)
Definition save (db : DB) (self : form) (inst : instance ProductoHardware.t)
  : result (DB * instance ProductoHardware.t) :=
  let instance := mkInstance (pk inst) (construct_instance (cleaned_data self) (fields inst)) in
  if bool_decide (errors self = ∅) && negb (validate_unique_fails db instance)
  then ProductoHardware_save db instance
  else Raise ValueError.

End ProductoHardwareForm.

Module ServicioInformaticoForm.

Definition clean_precio (self : form) : result value :=
  let precio := cleaned_get (cleaned_data self) "precio" in
  if truthy precio
  then le ← value_le_zero precio;
       if (le : bool)
       then Raise (ValidationError (VEMessage "El precio debe ser mayor a cero."))
       else Ok precio
  else Ok precio.

Definition clean_duracion (self : form) : result value :=
  let duracion := cleaned_get (cleaned_data self) "duracion" in
  if truthy duracion
  then le ← value_le_zero duracion;
       if (le : bool)
       then Raise (ValidationError (VEMessage "La duración debe ser mayor a cero."))
       else Ok duracion
  else Ok duracion.

End ServicioInformaticoForm.

Module ClienteForm.

Definition clean_presupuesto (self : form) : result value :=
  let presupuesto := cleaned_get (cleaned_data self) "presupuesto" in
  if truthy presupuesto
  then lt ← value_lt_int presupuesto 0;
       if (lt : bool)
       then Raise (ValidationError (VEMessage "El presupuesto no puede ser negativo."))
       else Ok presupuesto
  else Ok presupuesto.

End ClienteForm.

Module ItemProductoPedidoForm.

Definition clean_cantidad (self : form) : result value :=
  let cantidad := cleaned_get (cleaned_data self) "cantidad" in
  if truthy cantidad
  then lt ← value_lt_int cantidad 1;
       if (lt : bool)
       then Raise (ValidationError (VEMessage "La cantidad debe ser al menos 1."))
       else Ok cantidad
  else Ok cantidad.

End ItemProductoPedidoForm.

Module ItemServicioPedidoForm.

Definition clean_cantidad (self : form) : result value :=
  let cantidad := cleaned_get (cleaned_data self) "cantidad" in
  if truthy cantidad
  then lt ← value_lt_int cantidad 1;
       if (lt : bool)
       then Raise (ValidationError (VEMessage "La cantidad debe ser al menos 1."))
       else Ok cantidad
  else Ok cantidad.

End ItemServicioPedidoForm.

(** ** [views.py]: the product listing *)

(** The lookup [icontains]: a substring test that ignores the case of
    ASCII letters. *)
Definition ascii_lower (c : ascii) : ascii :=
  let n := nat_of_ascii c in
  if (Nat.leb 65 n && Nat.leb n 90)%bool then ascii_of_nat (n + 32) else c.

Fixpoint lower (s : string) : string :=
  match s with
  | EmptyString => EmptyString
  | String c s' => String (ascii_lower c) (lower s')
  end.

Fixpoint contains (s sub : string) : bool :=
  String.prefix sub s ||
  match s with
  | EmptyString => false
  | String _ s' => contains s' sub
  end.

Definition icontains (s sub : string) : bool := contains (lower s) (lower sub).

(** A row of a queryset over [ProductoHardware]: key and fields. *)
Abbreviation producto_row := (Z * ProductoHardware.t)%type.

(** [Meta.ordering = ['tipo', 'nombre']] with strings compared byte by
    byte. *)
Definition producto_ordering (a b : producto_row) : Prop :=
  match String.compare (ProductoHardware.tipo a.2) (ProductoHardware.tipo b.2) with
  | Lt => True
  | Eq => String.leb (ProductoHardware.nombre a.2) (ProductoHardware.nombre b.2)
  | Gt => False
  end.

#[global] Instance producto_ordering_dec a b : Decision (producto_ordering a b).
Proof. unfold producto_ordering. destruct (String.compare _ _); apply _. Defined.

(** The rows of [producto LEFT OUTER JOIN caracteristica]: a product is
    paired with each of its characteristics, or with [None] when it has
    none. *)
Definition join_caracteristicas (db : DB) (r : producto_row)
  : list (producto_row * option CaracteristicaProductoHardware.t) :=
  match filter (λ c, CaracteristicaProductoHardware.producto_hardware c = r.1)
               (map_to_list (caracteristicas db)).*2 with
  | [] => [(r, None)]
  | cs => (λ c, (r, Some c)) <$> cs
  end.

(** The disjunction of the four [Q] objects on a joined row. *)
Definition search_Q (search_query : string)
    (jr : producto_row * option CaracteristicaProductoHardware.t) : bool :=
  icontains (ProductoHardware.nombre jr.1.2) search_query
  || icontains (ProductoHardware.tipo_personalizado jr.1.2) search_query
  || match jr.2 with
     | Some c => icontains (CaracteristicaProductoHardware.attr c) search_query
                 || icontains (CaracteristicaProductoHardware.valor c) search_query
     | None => false
     end.

(** [queryset.filter(Q(...) | ...).distinct()]: the joined rows that
    satisfy the disjunction, cut down to their product columns, each
    product row kept once. *)
Definition search_filter (db : DB) (search_query : string) (queryset : list producto_row)
  : list producto_row :=
  remove_dups
    (filter (λ jr, search_Q search_query jr = true)
            (queryset ≫= join_caracteristicas db)).*1.

Module ProductoHardwareListView.
Section get_queryset.

(** Python's [int(s)], through which a key given as text is compared
    with a key column; [None] stands for its [ValueError]. *)
Variable int_of_str : string → option Z.

Definition to_pk (s : string) : result Z :=
  match int_of_str s with
  | Some k => Ok k
  | None => Raise ValueError
  end.

(** [request.GET.get(key, '')] *)
Definition GET_get (GET : gmap string string) (key : string) : string :=
  default EmptyString (GET !! key).

Definition get_queryset (db : DB) (GET : gmap string string) : result (list producto_row) :=
  let queryset := filter (λ r, ProductoHardware.activo r.2 = true) (map_to_list (productos db)) in
  let tipo_filter := GET_get GET "tipo" in
  let categoria_filter := GET_get GET "categoria" in
  let empresa_filter := GET_get GET "empresa" in
  let search_query := GET_get GET "search" in
  let queryset :=
    if str_truthy tipo_filter
    then filter (λ r, ProductoHardware.tipo r.2 = tipo_filter) queryset
    else queryset in
  queryset ←
    (if str_truthy categoria_filter
     then k ← to_pk categoria_filter;
          Ok (filter (λ r, ProductoHardware.categoria r.2 = Some k) queryset)
     else Ok queryset);
  queryset ←
    (if str_truthy empresa_filter
     then k ← to_pk empresa_filter;
          Ok (filter (λ r, ProductoHardware.empresa_proveedora r.2 = Some k) queryset)
     else Ok queryset);
  let queryset :=
    if str_truthy search_query
    then search_filter db search_query queryset
    else queryset in
  Ok (merge_sort producto_ordering queryset).



End get_queryset.
End ProductoHardwareListView.

(** ** [views.py]: the other views *)

(** The views read the one database; [base] names it where a view hands
    it to the models. *)
Definition Database : Type := DB.

Definition base (store : Database) : DB := store.

(** What a view hands back: a response, the 404 of [get_object_or_404]
    and [get_object], or an exception. *)
Inductive view_result (A : Type) :=
  | Response (a : A)
  | Http404
  | Raised (e : exception).
Arguments Response {A} a.
Arguments Http404 {A}.
Arguments Raised {A} e.

(** [order_by('nombre')] on clients, suppliers and services. *)
Definition cliente_ordering (a b : Z * Cliente.t) : Prop :=
  String.leb (Cliente.nombre a.2) (Cliente.nombre b.2).

Definition empresa_ordering (a b : Z * EmpresaProveedora.t) : Prop :=
  String.leb (EmpresaProveedora.nombre a.2) (EmpresaProveedora.nombre b.2).

Definition servicio_ordering (a b : Z * ServicioInformatico.t) : Prop :=
  String.leb (ServicioInformatico.nombre a.2) (ServicioInformatico.nombre b.2).

(** [order_by('-fecha_pedido')] *)
Definition pedido_ordering (a b : Z * Pedido.t) : Prop :=
  datetime_cmp (Pedido.fecha_pedido b.2) (Pedido.fecha_pedido a.2) ≠ Gt.

#[global] Instance cliente_ordering_dec a b : Decision (cliente_ordering a b).
Proof. unfold cliente_ordering. apply _. Defined.

#[global] Instance empresa_ordering_dec a b : Decision (empresa_ordering a b).
Proof. unfold empresa_ordering. apply _. Defined.

#[global] Instance servicio_ordering_dec a b : Decision (servicio_ordering a b).
Proof. unfold servicio_ordering. apply _. Defined.

#[global] Instance pedido_ordering_dec a b : Decision (pedido_ordering a b).
Proof. unfold pedido_ordering. apply _. Defined.

Module ClienteListView.

Definition get_queryset (clientes : gmap Z Cliente.t) (GET : gmap string string)
  : list (Z * Cliente.t) :=
  let queryset := map_to_list clientes in
  let search_query := ProductoHardwareListView.GET_get GET "search" in
  let queryset :=
    if str_truthy search_query
    then filter (λ r, icontains (Cliente.nombre r.2) search_query
                      || icontains (Cliente.encargado r.2) search_query
                      || icontains (Cliente.email_contacto r.2) search_query = true)
                queryset
    else queryset in
  merge_sort cliente_ordering queryset.

End ClienteListView.

Module EmpresaProveedoraListView.

Definition get_queryset (empresas : gmap Z EmpresaProveedora.t) (GET : gmap string string)
  : list (Z * EmpresaProveedora.t) :=
  let queryset := map_to_list empresas in
  let search_query := ProductoHardwareListView.GET_get GET "search" in
  let queryset :=
    if str_truthy search_query
    then filter (λ r, icontains (EmpresaProveedora.nombre r.2) search_query
                      || icontains (EmpresaProveedora.encargado r.2) search_query = true)
                queryset
    else queryset in
  merge_sort empresa_ordering queryset.

End EmpresaProveedoraListView.

Module ServicioInformaticoListView.

(** The rows come in the order of [Meta.ordering = ['nombre']]. *)
Definition get_queryset (db : DB) (GET : gmap string string)
  : list (Z * ServicioInformatico.t) :=
  let queryset := filter (λ r, ServicioInformatico.activo r.2 = true)
                         (map_to_list (servicios db)) in
  let search_query := ProductoHardwareListView.GET_get GET "search" in
  let queryset :=
    if str_truthy search_query
    then filter (λ r, icontains (ServicioInformatico.nombre r.2) search_query
                      || icontains (ServicioInformatico.descripcion r.2) search_query = true)
                queryset
    else queryset in
  merge_sort servicio_ordering queryset.

End ServicioInformaticoListView.

Module PedidoListView.
Section get_queryset.

(** Python's [int(s)] and Django's [DateField.to_python], through which
    a key and a day given as text are compared with a column; both
    raise on text they cannot read. *)
Variable int_of_str : string → option Z.
Variable to_date : string → result date.

(** [fecha_pedido__date >= d] and [fecha_pedido__date <= d] *)
Definition date_ge (a b : date) : bool :=
  match date_cmp a b with
  | Lt => false
  | _ => true
  end.

Definition date_le (a b : date) : bool :=
  match date_cmp a b with
  | Gt => false
  | _ => true
  end.

Definition get_queryset (pedidos : gmap Z Pedido.t) (GET : gmap string string)
  : result (list (Z * Pedido.t)) :=
  let queryset := map_to_list pedidos in
  let estado_filter := ProductoHardwareListView.GET_get GET "estado" in
  let cliente_filter := ProductoHardwareListView.GET_get GET "cliente" in
  let fecha_desde := ProductoHardwareListView.GET_get GET "fecha_desde" in
  let fecha_hasta := ProductoHardwareListView.GET_get GET "fecha_hasta" in
  let queryset :=
    if str_truthy estado_filter
    then filter (λ r, Pedido.estado r.2 = estado_filter) queryset
    else queryset in
  queryset ←
    (if str_truthy cliente_filter
     then k ← ProductoHardwareListView.to_pk int_of_str cliente_filter;
          Ok (filter (λ r, Pedido.cliente r.2 = k) queryset)
     else Ok queryset);
  queryset ←
    (if str_truthy fecha_desde
     then d ← to_date fecha_desde;
          Ok (filter (λ r, date_ge (dt_date (Pedido.fecha_pedido r.2)) d = true) queryset)
     else Ok queryset);
  queryset ←
    (if str_truthy fecha_hasta
     then d ← to_date fecha_hasta;
          Ok (filter (λ r, date_le (dt_date (Pedido.fecha_pedido r.2)) d = true) queryset)
     else Ok queryset);
  Ok (merge_sort pedido_ordering queryset).

End get_queryset.
End PedidoListView.

(** A message of [django.contrib.messages]. *)
Inductive message :=
  | MsgSuccess (text : string)
  | MsgError (text : string).

(** [urls.py]: the name of each route of [urlpatterns] and whether its
    path takes a [pk]. *)
Definition urlpatterns : list (string * bool) :=
  [ ("empresas", false);
    ("empresa_detail", true);
    ("empresa_create", false);
    ("empresa_update", true) ].

(** [redirect(to, pk=pk)] for a route name: [reverse] finds a route of
    that name that takes a [pk], or raises [NoReverseMatch]. *)
Definition redirect (to : string) (pk : Z) : result (string * Z) :=
  if bool_decide ((to, true) ∈ urlpatterns) then Ok (to, pk) else Raise NoReverseMatch.

Module PedidoEstadoUpdateView.

(** [post]: the table after the request, the message it leaves, if any,
    and its answer.  [pedido.save()] updates the row read a line
    before: the row is there and only its [estado] changes, a column
    without constraint.  The redirect comes last, after the write. *)
Definition post (pedidos : gmap Z Pedido.t) (POST : gmap string string) (pk : Z)
  : gmap Z Pedido.t * option message * view_result (string * Z) :=
  match pedidos !! pk with
  | None => (pedidos, None, Http404)
  | Some pedido =>
      let nuevo_estado := POST !! "estado" in
      let '(pedidos', msg) :=
        match nuevo_estado with
        | Some estado =>
            if bool_decide
                 (is_Some (ProductoHardware.dict_of_choices Pedido.ESTADO_PEDIDO_CHOICES
                           !! estado))
            then
              let pedido := Pedido.mk (Pedido.cliente pedido) (Pedido.fecha_pedido pedido)
                              estado (Pedido.observaciones pedido) in
              (<[pk := pedido]> pedidos,
               MsgSuccess ("Estado del pedido actualizado a "
                           +:+ Pedido.get_estado_display pedido +:+ "."))
            else (pedidos, MsgError "Estado inválido.")
        | None => (pedidos, MsgError "Estado inválido.")
        end in
      (pedidos', Some msg,
       match redirect "pedido_detail" pk with
       | Ok url => Response url
       | Raise e => Raised e
       end)
  end.

End PedidoEstadoUpdateView.

(** [bool(x)] for a number. *)
Definition num_truthy (x : number) : bool :=
  match x with
  | PInt z => negb (z =? 0)
  | PDec d => dec_truthy d
  end.

(** [Decimal.__sub__]: the sum with the negated operand. *)
Definition dec_neg (d : Decimal) : Decimal := mkDecimal (- coef d) (expo d).

Definition dec_sub (a b : Decimal) : Decimal := dec_add a (dec_neg b).

(** [d - x] for a Decimal [d] and a number [x]. *)
Definition dec_sub_num (d : Decimal) (x : number) : Decimal :=
  match x with
  | PInt z => dec_sub d (of_int z)
  | PDec d' => dec_sub d d'
  end.

Module ClienteDetailView.

Record context := mkContext {
  ctx_pedidos : list (Z * Pedido.t);
  ctx_total_pedidos : Z;
  ctx_total_gastado : number;
  ctx_presupuesto_restante : Decimal
}.

(** [get_context_data], the entries it adds: [total_pedido] is read for
    the test and again for the term of the sum. *)
Definition get_context_data (store : Database) (pk : Z) : view_result context :=
  match clientes store !! pk with
  | None => Http404
  | Some cliente =>
      let pedidos :=
        merge_sort pedido_ordering
          (filter (λ r, Pedido.cliente r.2 = pk) (map_to_list (pedidos store))) in
      let total_pedidos := Z.of_nat (length pedidos) in
      match traverse (λ r : Z * Pedido.t,
                        t ← Pedido_total_pedido (base store) r.1;
                        if num_truthy t
                        then t' ← Pedido_total_pedido (base store) r.1; Ok [t']
                        else Ok [])
                     pedidos with
      | Raise e => Raised e
      | Ok terms =>
          let total_gastado := py_sum (concat terms) in
          Response
            (mkContext pedidos total_pedidos total_gastado
               (if num_truthy total_gastado
                then dec_sub_num (Cliente.presupuesto cliente) total_gastado
                else Cliente.presupuesto cliente))
      end
  end.

End ClienteDetailView.

Module DashboardView.

Record context := mkContext {
  total_clientes : Z;
  total_pedidos : Z;
  total_productos : Z;
  total_servicios : Z;
  pedidos_pendientes : Z;
  pedidos_en_proceso : Z;
  pedidos_completados : Z;
  clientes_presupuesto_vencido : Z;
  pedidos_recientes : list (Z * Pedido.t);
  productos_populares : list (Z * ProductoHardware.t * Z);
  servicios_populares : list (Z * ServicioInformatico.t * Z)
}.

(** [Sum('itemproductopedido__cantidad')] for the product with key [k]:
    [None], the SQL null, when no line points to it. *)
Definition total_vendido (db : DB) (k : Z) : option Z :=
  match filter (λ it, ItemProductoPedido.producto it = k) (map_to_list (items_productos db)).*2 with
  | [] => None
  | its => Some (Zsum (ItemProductoPedido.cantidad <$> its))
  end.

Definition total_solicitado (db : DB) (k : Z) : option Z :=
  match filter (λ it, ItemServicioPedido.servicio it = k) (map_to_list (items_servicios db)).*2 with
  | [] => None
  | its => Some (Zsum (ItemServicioPedido.cantidad <$> its))
  end.

(** [order_by('-total_vendido')]: the larger sum first. *)
Definition populares_ordering {A} (a b : A * Z) : Prop := b.2 ≤ a.2.

#[global] Instance populares_ordering_dec {A} (a b : A * Z) :
  Decision (populares_ordering a b).
Proof. unfold populares_ordering. apply _. Defined.

(** [queryset.count()] *)
Definition count {A} (l : list A) : Z := Z.of_nat (length l).

(** [get]: the context it renders; [hoy] is [timezone.now().date()]. *)
Definition get (store : Database) (hoy : date) : context :=
  mkContext
    (count (map_to_list (clientes store)))
    (count (map_to_list (pedidos store)))
    (count (filter (λ r, ProductoHardware.activo r.2 = true)
                   (map_to_list (productos (base store)))))
    (count (filter (λ r, ServicioInformatico.activo r.2 = true)
                   (map_to_list (servicios (base store)))))
    (count (filter (λ r, Pedido.estado r.2 = "pendiente") (map_to_list (pedidos store))))
    (count (filter (λ r, Pedido.estado r.2 = "en_proceso") (map_to_list (pedidos store))))
    (count (filter (λ r, Pedido.estado r.2 = "completado") (map_to_list (pedidos store))))
    (count (filter (λ r, date_cmp (Cliente.fecha_vencimiento_presupuesto r.2) hoy = Lt)
                   (map_to_list (clientes store))))
    (take 10 (merge_sort pedido_ordering (map_to_list (pedidos store))))
    (take 5
       (merge_sort populares_ordering
          (omap (λ r, t ← total_vendido (base store) r.1; Some (r, t))
                (map_to_list (productos (base store))))))
    (take 5
       (merge_sort populares_ordering
          (omap (λ r, t ← total_solicitado (base store) r.1; Some (r, t))
                (map_to_list (servicios (base store)))))).

End DashboardView.

(** ** [views.py]: the JSON views *)

(** [str(d)] for a Decimal: plain notation while the exponent is not
    positive and the number is not too small, scientific otherwise. *)
Fixpoint zeros (n : nat) : string :=
  match n with
  | O => EmptyString
  | S n' => String "0"%char (zeros n')
  end.

Definition str_of_decimal (d : Decimal) : string :=
  let sign := if coef d <? 0 then "-" else EmptyString in
  let int_ := NilZero.string_of_uint (N.to_uint (Z.abs_N (coef d))) in
  let len := Z.of_nat (String.length int_) in
  let leftdigits := expo d + len in
  let dotplace := if (expo d <=? 0) && (-6 <? leftdigits) then leftdigits else 1 in
  let intpart :=
    if dotplace <=? 0 then "0"
    else if len <=? dotplace then int_ +:+ zeros (Z.to_nat (dotplace - len))
    else substring 0 (Z.to_nat dotplace) int_ in
  let fracpart :=
    if dotplace <=? 0 then "." +:+ zeros (Z.to_nat (- dotplace)) +:+ int_
    else if len <=? dotplace then EmptyString
    else "." +:+ substring (Z.to_nat dotplace) (Z.to_nat (len - dotplace)) int_ in
  let exp :=
    if leftdigits =? dotplace then EmptyString
    else "E" +:+ (if leftdigits - dotplace <? 0 then "-" else "+")
         +:+ NilZero.string_of_uint (N.to_uint (Z.abs_N (leftdigits - dotplace))) in
  sign +:+ intpart +:+ fracpart +:+ exp.





(** [api_get_precio_producto] and [api_get_precio_servicio]: the value
    under ['precio'] of the JSON object. *)
Definition api_get_precio_producto (db : DB) (method : string) (producto_id : Z)
  : option (view_result string) :=
  if String.eqb method "GET"
  then Some match productos db !! producto_id with
            | Some producto =>
                if ProductoHardware.activo producto
                then Response (str_of_decimal (ProductoHardware.precio producto))
                else Http404
            | None => Http404
            end
  else None.

Definition api_get_precio_servicio (db : DB) (method : string) (servicio_id : Z)
  : option (view_result string) :=
  if String.eqb method "GET"
  then Some match servicios db !! servicio_id with
            | Some servicio =>
                if ServicioInformatico.activo servicio
                then Response (str_of_decimal (ServicioInformatico.precio servicio))
                else Http404
            | None => Http404
            end
  else None.

(** A listing under construction that holds the row [r]: no row twice,
    every row drawn from the product table, and [r] among them. *)
Definition listing_with (db : DB) (r : producto_row) (qs : list producto_row) : Prop :=
  NoDup qs ∧ (∀ x, x ∈ qs → x ∈ map_to_list (productos db)) ∧ r ∈ qs.

(** ** The columns of the order lines *)

(** A value that a [DecimalField(max_digits=10, decimal_places=2)] column
    returns: two decimals and at most ten digits. *)
Definition stored_decimal (d : Decimal) : Prop :=
  expo d = -2 ∧ Z.abs (coef d) < 10 ^ 10.

(** The range of a [PositiveIntegerField]. *)
Definition stored_cantidad (n : Z) : Prop := 0 ≤ n ≤ 2147483647.

Definition stored_item_producto (it : ItemProductoPedido.t) : Prop :=
  match ItemProductoPedido.precio_unitario it with
  | Some p => stored_decimal p
  | None => False
  end ∧ stored_cantidad (ItemProductoPedido.cantidad it).

Definition stored_item_servicio (it : ItemServicioPedido.t) : Prop :=
  match ItemServicioPedido.precio_unitario it with
  | Some p => stored_decimal p
  | None => False
  end ∧ stored_cantidad (ItemServicioPedido.cantidad it).

(** A bound on the coefficient of the subtotal of a stored line:
    [2147483647 * 10 ^ 10]. *)
Definition line_bound : Z := 21474836470000000000.

#[global] Instance stored_decimal_dec d : Decision (stored_decimal d).
Proof. unfold stored_decimal. apply _. Defined.

#[global] Instance stored_cantidad_dec n : Decision (stored_cantidad n).
Proof. unfold stored_cantidad. apply _. Defined.

#[global] Instance stored_item_producto_dec it : Decision (stored_item_producto it).
Proof.
  unfold stored_item_producto.
  destruct (ItemProductoPedido.precio_unitario it); apply _.
Defined.

#[global] Instance stored_item_servicio_dec it : Decision (stored_item_servicio it).
Proof.
  unfold stored_item_servicio.
  destruct (ItemServicioPedido.precio_unitario it); apply _.
Defined.

(** The subtotal of a line in hundredths, when its unit price has two
    decimals. *)
Definition line_centavos (cantidad : Z) (precio_unitario : option Decimal) : Z :=
  cantidad * match precio_unitario with
             | Some p => coef p
             | None => 0
             end.

(** ** The orders of a client *)

(** The value of the lines of an order, in hundredths. *)
Definition pedido_centavos (db : DB) (pedido_pk : Z) : Z :=
  Zsum ((λ it, line_centavos (ItemProductoPedido.cantidad it)
                 (ItemProductoPedido.precio_unitario it))
        <$> Pedido_items_productos db pedido_pk)
  + Zsum ((λ it, line_centavos (ItemServicioPedido.cantidad it)
                   (ItemServicioPedido.precio_unitario it))
          <$> Pedido_items_servicios db pedido_pk).

(** The number of lines of an order. *)
Definition pedido_lines (db : DB) (pedido_pk : Z) : Z :=
  Z.of_nat (length (Pedido_items_productos db pedido_pk))
  + Z.of_nat (length (Pedido_items_servicios db pedido_pk)).

(** An order whose lines all hold column values. *)
Definition stored_pedido (db : DB) (pedido_pk : Z) : Prop :=
  Forall stored_item_producto (Pedido_items_productos db pedido_pk)
  ∧ Forall stored_item_servicio (Pedido_items_servicios db pedido_pk).

#[global] Instance stored_pedido_dec db pedido_pk : Decision (stored_pedido db pedido_pk).
Proof. unfold stored_pedido. apply _. Defined.

(** A value that the [DecimalField(max_digits=12, decimal_places=2)]
    column of the budget returns. *)
Definition stored_presupuesto (d : Decimal) : Prop :=
  expo d = -2 ∧ Z.abs (coef d) < 10 ^ 12.

(** [cliente.pedidos.all()]: the orders of the client with key [pk]. *)
Definition pedidos_de (store : Database) (pk : Z) : list (Z * Pedido.t) :=
  filter (λ r, Pedido.cliente r.2 = pk) (map_to_list (pedidos store)).

(** ** Sample data *)

Definition producto_thinkpad : ProductoHardware.t :=
  ProductoHardware.mk "ThinkPad" "laptop" EmptyString (mkDecimal 1999 (-2)) None (Some 3) true.

Definition producto_nodo : ProductoHardware.t :=
  ProductoHardware.mk "Nodo" "otros" "Router Mesh" (mkDecimal 500 (-2)) None None true.

Definition producto_retirado : ProductoHardware.t :=
  ProductoHardware.mk "Torre" "ordenador" EmptyString (mkDecimal 30000 (-2)) None None false.

Definition servicio_instalacion : ServicioInformatico.t :=
  ServicioInformatico.mk "Instalacion" 2 "horas" "Instalacion de red"
    (mkDecimal 10000 (-2)) EmptyString 1 true.

(** Three products, the third withdrawn from sale; a client; an order,
    number 1, of three ThinkPad at 19.99, two Nodo at 5.00 and one
    installation at 100.00; an order, number 2, whose two lines are
    stored at 0.00; an order, number 3, without lines. *)
Definition cliente_ejemplo : Cliente.t :=
  Cliente.mk "Acme" "Ana" (mkDecimal 100000 (-2)) "ana@acme.test" (mkDate 2024 2 29).

Definition db_ejemplo : DB :=
  mkDB
    (<[1 := producto_thinkpad]> (<[2 := producto_nodo]> (<[3 := producto_retirado]> ∅)))
    (<[1 := CaracteristicaProductoHardware.mk "Memoria" "8GB" 1]>
       (<[2 := CaracteristicaProductoHardware.mk "Cache" "SSD 8gb" 1]>
          (<[3 := CaracteristicaProductoHardware.mk "Memoria" "8GB" 3]> ∅)))
    (<[1 := servicio_instalacion]> ∅)
    (<[1 := ItemProductoPedido.mk 1 1 3 (Some (mkDecimal 1999 (-2)))]>
       (<[2 := ItemProductoPedido.mk 1 2 2 (Some (mkDecimal 500 (-2)))]>
          (<[3 := ItemProductoPedido.mk 2 2 1 (Some (mkDecimal 0 (-2)))]> ∅)))
    (<[1 := ItemServicioPedido.mk 1 1 1 (Some (mkDecimal 10000 (-2)))]>
       (<[2 := ItemServicioPedido.mk 2 1 1 (Some (mkDecimal 0 (-2)))]> ∅))
    (<[1 := cliente_ejemplo]> ∅)
    (<[1 := EmpresaProveedora.mk "Redes del Sur" "Luis"]> ∅)
    (<[3 := CategoriaProducto.mk "Portatiles" EmptyString]> ∅)
    (<[1 := Pedido.mk 1 (mkDatetime (mkDate 2024 1 5) 0) "pendiente" EmptyString]>
       (<[2 := Pedido.mk 1 (mkDatetime (mkDate 2024 1 7) 0) "otros" EmptyString]>
          (<[3 := Pedido.mk 1 (mkDatetime (mkDate 2024 1 2) 0) "pendiente" EmptyString]> ∅))).

(** The sample data as the views read it: one client and its three
    orders, the third without lines. *)
Definition store_ejemplo : Database := db_ejemplo.



(** The sample data with one more product, priced 0.00. *)
Definition producto_gratis : ProductoHardware.t :=
  ProductoHardware.mk "Cable" "otros" "Cable" (mkDecimal 0 (-2)) None None true.

Definition db_gratis : DB :=
  set_productos db_ejemplo (<[5 := producto_gratis]> (productos db_ejemplo)).

(** The sample data where order 1 has two lines of 9223372036854775807
    units, the largest quantity the column holds, at 99999999.99, the
    largest price. *)
Definition db_grande : DB :=
  set_items_servicios
    (set_items_productos db_ejemplo
       (<[1 := ItemProductoPedido.mk 1 1 9223372036854775807 (Some (mkDecimal 9999999999 (-2)))]>
          (<[2 := ItemProductoPedido.mk 1 2 9223372036854775807
                    (Some (mkDecimal 9999999999 (-2)))]> ∅)))
    ∅.

(** * Properties *)

(** ** Decimal arithmetic within the context precision *)

Section decimal_facts.

Lemma dec_fix_small d : Z.abs (coef d) < 10 ^ prec → dec_fix d = d.
Proof.
  intros Hd. unfold dec_fix.
  destruct (Z.ltb_spec (Z.abs (coef d)) (10 ^ prec)); [done | lia].
Qed.

Lemma int_mul_dec_exact n d :
  Z.abs (n * coef d) < 10 ^ prec →
  int_mul_dec n d = mkDecimal (n * coef d) (expo d).
Proof.
  intros Hd. unfold int_mul_dec, dec_mul, of_int. simpl.
  by rewrite dec_fix_small.
Qed.

Lemma dec_add_same_expo a b e :
  Z.abs (a + b) < 10 ^ prec →
  dec_add (mkDecimal a e) (mkDecimal b e) = mkDecimal (a + b) e.
Proof.
  intros Hd. unfold dec_add. simpl.
  rewrite Z.min_id, Z.sub_diag, Z.pow_0_r, !Z.mul_1_r.
  by rewrite dec_fix_small.
Qed.

Lemma dec_add_zero_l c e :
  e ≤ 0 → Z.abs c < 10 ^ prec →
  dec_add (of_int 0) (mkDecimal c e) = mkDecimal c e.
Proof.
  intros He Hd. unfold dec_add, of_int. simpl.
  rewrite Z.min_r by done.
  rewrite Z.sub_diag, Z.pow_0_r, Z.mul_1_r. simpl.
  by rewrite dec_fix_small.
Qed.

Lemma dec_add_zero_r c e :
  e ≤ 0 → Z.abs c < 10 ^ prec →
  dec_add (mkDecimal c e) (of_int 0) = mkDecimal c e.
Proof.
  intros He Hd. unfold dec_add, of_int. simpl.
  rewrite Z.min_l by done.
  rewrite Z.sub_diag, Z.pow_0_r, Z.mul_1_r, Z.add_0_r.
  by rewrite dec_fix_small.
Qed.

Lemma dec_value_mul n c e :
  (dec_value (mkDecimal (n * c) e) == inject_Z n * dec_value (mkDecimal c e))%Q.
Proof.
  unfold dec_value. simpl. rewrite inject_Z_mult. ring.
Qed.

Lemma dec_value_plus a b e :
  (dec_value (mkDecimal (a + b) e)
   == dec_value (mkDecimal a e) + dec_value (mkDecimal b e))%Q.
Proof.
  unfold dec_value. simpl. rewrite inject_Z_plus. ring.
Qed.

(** The ranges of the two columns keep a line's subtotal within the
    context precision. *)
Lemma stored_within_prec n p :
  stored_cantidad n → stored_decimal p → Z.abs (n * coef p) < 10 ^ prec.
Proof.
  intros [Hn0 Hn] [_ Hp]. rewrite Z.abs_mul, (Z.abs_eq n) by done.
  assert (n * Z.abs (coef p) ≤ 2147483647 * 10 ^ 10) by nia.
  assert (2147483647 * 10 ^ 10 < 10 ^ prec) by (by vm_compute).
  lia.
Qed.

(** Beyond the context precision the arithmetic rounds: a product of 29
    digits loses its last digit, a tie going to the even neighbour. *)
Example int_mul_dec_rounds :
  int_mul_dec 5 (mkDecimal 2469135780246913578024691357 0)
  = mkDecimal 1234567890123456789012345678 1.
Proof. by vm_compute. Qed.

Example dec_fix_carry :
  dec_fix (mkDecimal 99999999999999999999999999995 0)
  = mkDecimal 1000000000000000000000000000 2.
Proof. by vm_compute. Qed.

End decimal_facts.

(** ** Line subtotals *)

(** C2, within the precision of the context.  The subtotal of a line,
    of either kind, with quantity [n] and unit price [p], is the Decimal
    whose coefficient is
    [n] times the coefficient of [p] at the exponent of [p]: the exact
    product, with no digit rounded away, as long as the product has at
    most the 28 significant digits of the decimal context.  Its value is
    [n] times the value of [p].  Quantity 3 at 19.99 gives 59.97. *)
Theorem subtotal_exact (n : Z) (p : Decimal) (pedido ref : Z) :
  Z.abs (n * coef p) < 10 ^ prec →
  ItemProductoPedido.subtotal (ItemProductoPedido.mk pedido ref n (Some p))
    = Ok (mkDecimal (n * coef p) (expo p))
  ∧ ItemServicioPedido.subtotal (ItemServicioPedido.mk pedido ref n (Some p))
    = Ok (mkDecimal (n * coef p) (expo p))
  ∧ (dec_value (mkDecimal (n * coef p) (expo p)) == inject_Z n * dec_value p)%Q
  ∧ ItemProductoPedido.subtotal
      (ItemProductoPedido.mk pedido ref 3 (Some (mkDecimal 1999 (-2))))
    = Ok (mkDecimal 5997 (-2))
  ∧ ItemServicioPedido.subtotal
      (ItemServicioPedido.mk pedido ref 3 (Some (mkDecimal 1999 (-2))))
    = Ok (mkDecimal 5997 (-2)).
Proof.
  intros Hd. repeat split.
  - unfold ItemProductoPedido.subtotal. simpl. by rewrite int_mul_dec_exact.
  - unfold ItemServicioPedido.subtotal. simpl. by rewrite int_mul_dec_exact.
  - destruct p as [c e]. apply dec_value_mul.
Qed.

Lemma subtotal_exact_witness :
  ItemProductoPedido.subtotal (ItemProductoPedido.mk 1 1 3 (Some (mkDecimal 1999 (-2))))
    = Ok (mkDecimal 5997 (-2))
  ∧ ItemServicioPedido.subtotal (ItemServicioPedido.mk 1 1 3 (Some (mkDecimal 1999 (-2))))
    = Ok (mkDecimal 5997 (-2)).
Proof.
  assert (H : Z.abs (3 * coef (mkDecimal 1999 (-2))) < 10 ^ prec) by (vm_compute; reflexivity).
  destruct (subtotal_exact 3 (mkDecimal 1999 (-2)) 1 1 H) as (Hp & Hs & _).
  split; [exact Hp | exact Hs].
Defined.

(** Beyond 28 digits the subtotal is not the product: the largest
    quantity the column holds, at the largest price, gives a subtotal
    rounded to 28 digits, for a line of either kind. *)
Lemma subtotal_redondeado :
  ItemProductoPedido.subtotal
    (ItemProductoPedido.mk 1 1 9223372036854775807 (Some (mkDecimal 9999999999 (-2))))
  = Ok (mkDecimal 9223372035932438603314522419 (-1))
  ∧ ItemServicioPedido.subtotal
      (ItemServicioPedido.mk 1 1 9223372036854775807 (Some (mkDecimal 9999999999 (-2))))
    = Ok (mkDecimal 9223372035932438603314522419 (-1))
  ∧ ¬ (dec_value (mkDecimal 9223372035932438603314522419 (-1))
       == inject_Z 9223372036854775807 * dec_value (mkDecimal 9999999999 (-2)))%Q.
Proof.
  split_and!; [(by vm_compute)..|].
  intros H. vm_compute in H. discriminate H.
Qed.

(** ** The total of an order *)

Section total_pedido_facts.

Lemma stored_decimal_centavos p : stored_decimal p → p = centavos (coef p).
Proof. intros [He _]. destruct p as [c e]. simpl in *. by subst. Qed.

Lemma Zsum_abs_bound cs :
  Forall (λ c, Z.abs c ≤ line_bound) cs →
  Zsum (Z.abs <$> cs) ≤ Z.of_nat (length cs) * line_bound.
Proof.
  unfold line_bound.
  induction 1 as [|c cs Hc _ IH]; csimpl; [lia|].
  rewrite Nat2Z.inj_succ. lia.
Qed.

Lemma Zsum_abs_le cs : Z.abs (Zsum cs) ≤ Zsum (Z.abs <$> cs).
Proof. induction cs as [|c cs IH]; csimpl; lia. Qed.

Lemma traverse_subtotal_productos l :
  Forall stored_item_producto l →
  ∃ cs, traverse ItemProductoPedido.subtotal l = Ok (centavos <$> cs)
        ∧ length cs = length l
        ∧ Forall (λ c, Z.abs c ≤ line_bound) cs.
Proof.
  induction 1 as [|it l [Hp Hn] _ (cs & Hcs & Hlen & Hb)].
  - by exists [].
  - destruct it as [pd pr n [p|]]; simpl in *; [|done].
    pose proof (stored_within_prec n p Hn Hp) as Hprec.
    exists (n * coef p :: cs). split_and!.
    + cbn [traverse]. rewrite Hcs.
      unfold ItemProductoPedido.subtotal. simpl.
      rewrite int_mul_dec_exact by done.
      destruct Hp as [He _]. by rewrite He.
    + simpl. by rewrite Hlen.
    + constructor; [|done].
      destruct Hp as [_ Hp], Hn as [Hn0 Hn].
      rewrite Z.abs_mul, (Z.abs_eq n) by done. unfold line_bound. nia.
Qed.

Lemma traverse_subtotal_servicios l :
  Forall stored_item_servicio l →
  ∃ cs, traverse ItemServicioPedido.subtotal l = Ok (centavos <$> cs)
        ∧ length cs = length l
        ∧ Forall (λ c, Z.abs c ≤ line_bound) cs.
Proof.
  induction 1 as [|it l [Hp Hn] _ (cs & Hcs & Hlen & Hb)].
  - by exists [].
  - destruct it as [pd sv n [p|]]; simpl in *; [|done].
    pose proof (stored_within_prec n p Hn Hp) as Hprec.
    exists (n * coef p :: cs). split_and!.
    + cbn [traverse]. rewrite Hcs.
      unfold ItemServicioPedido.subtotal. simpl.
      rewrite int_mul_dec_exact by done.
      destruct Hp as [He _]. by rewrite He.
    + simpl. by rewrite Hlen.
    + constructor; [|done].
      destruct Hp as [_ Hp], Hn as [Hn0 Hn].
      rewrite Z.abs_mul, (Z.abs_eq n) by done. unfold line_bound. nia.
Qed.

Lemma Zsum_cons c cs : Zsum (c :: cs) = c + Zsum cs.
Proof. reflexivity. Qed.

Lemma Zsum_abs_nonneg cs : 0 ≤ Zsum (Z.abs <$> cs).
Proof. induction cs as [|c cs IH]; [done|]. rewrite fmap_cons, Zsum_cons. lia. Qed.

Lemma dec_add_centavos a b :
  Z.abs (a + b) < 10 ^ prec → dec_add (centavos a) (centavos b) = centavos (a + b).
Proof. apply dec_add_same_expo. Qed.

Lemma dec_add_zero_centavos c :
  Z.abs c < 10 ^ prec →
  dec_add (of_int 0) (centavos c) = centavos c
  ∧ dec_add (centavos c) (of_int 0) = centavos c.
Proof.
  intros Hc. split; [by apply dec_add_zero_l | by apply dec_add_zero_r].
Qed.

Lemma fold_num_add_centavos cs acc :
  Z.abs acc + Zsum (Z.abs <$> cs) < 10 ^ prec →
  fold_left num_add (PDec <$> (centavos <$> cs)) (PDec (centavos acc))
  = PDec (centavos (acc + Zsum cs)).
Proof.
  revert acc. induction cs as [|c cs IH]; intros acc Hb.
  - simpl. by rewrite Z.add_0_r.
  - rewrite fmap_cons, Zsum_cons in Hb.
    rewrite !fmap_cons, Zsum_cons. cbn [fold_left num_add].
    pose proof (Zsum_abs_nonneg cs).
    rewrite dec_add_centavos by lia.
    rewrite IH by lia. by rewrite Z.add_assoc.
Qed.

(** [sum] over subtotals in hundredths: the int [0] for no line, else
    the exact sum, still in hundredths. *)
Lemma py_sum_centavos cs :
  Zsum (Z.abs <$> cs) < 10 ^ prec →
  py_sum (PDec <$> (centavos <$> cs))
  = match cs with
    | [] => PInt 0
    | _ => PDec (centavos (Zsum cs))
    end.
Proof.
  destruct cs as [|c cs]; [done|]. intros Hb.
  rewrite fmap_cons, Zsum_cons in Hb.
  unfold py_sum. rewrite !fmap_cons, Zsum_cons. cbn [fold_left num_add].
  pose proof (Zsum_abs_nonneg cs).
  destruct (dec_add_zero_centavos c) as [-> _]; [lia|].
  rewrite fold_num_add_centavos by lia. done.
Qed.

Lemma Qsum_centavos cs :
  (Qsum (dec_value <$> (centavos <$> cs)) == dec_value (centavos (Zsum cs)))%Q.
Proof.
  induction cs as [|c cs IH].
  - reflexivity.
  - rewrite !fmap_cons, Zsum_cons. cbn [Qsum fold_right]. fold (Qsum (dec_value <$> (centavos <$> cs))).
    rewrite IH. unfold centavos. by rewrite dec_value_plus.
Qed.

End total_pedido_facts.

(** C1, for column values.  Take the lines of the two tables that
    point to an order.  When they hold column values (unit prices with two decimals
    and at most ten digits, quantities from 0 to 2147483647) and are at
    most 10^8, [total_pedido] returns a number whose value is the sum of
    the subtotals of the product lines plus the sum of the subtotals of
    the service lines; with no line at all it returns the int [0]. *)
Theorem total_pedido_sum (db : DB) (pedido_pk : Z) :
  Forall stored_item_producto
    (filter (λ it, ItemProductoPedido.pedido it = pedido_pk)
            (map_to_list (items_productos db)).*2) →
  Forall stored_item_servicio
    (filter (λ it, ItemServicioPedido.pedido it = pedido_pk)
            (map_to_list (items_servicios db)).*2) →
  Z.of_nat (length (filter (λ it, ItemProductoPedido.pedido it = pedido_pk)
                           (map_to_list (items_productos db)).*2))
  + Z.of_nat (length (filter (λ it, ItemServicioPedido.pedido it = pedido_pk)
                             (map_to_list (items_servicios db)).*2)) ≤ 10 ^ 8 →
  ∃ total subs_productos subs_servicios,
    Pedido_total_pedido db pedido_pk = Ok total
    ∧ traverse ItemProductoPedido.subtotal
        (filter (λ it, ItemProductoPedido.pedido it = pedido_pk)
                (map_to_list (items_productos db)).*2)
      = Ok subs_productos
    ∧ traverse ItemServicioPedido.subtotal
        (filter (λ it, ItemServicioPedido.pedido it = pedido_pk)
                (map_to_list (items_servicios db)).*2)
      = Ok subs_servicios
    ∧ (num_value total
       == Qsum (dec_value <$> subs_productos) + Qsum (dec_value <$> subs_servicios))%Q
    ∧ (filter (λ it, ItemProductoPedido.pedido it = pedido_pk)
              (map_to_list (items_productos db)).*2 = []
       → filter (λ it, ItemServicioPedido.pedido it = pedido_pk)
                (map_to_list (items_servicios db)).*2 = []
       → total = PInt 0).
Proof.
  change (filter (λ it, ItemProductoPedido.pedido it = pedido_pk)
                 (map_to_list (items_productos db)).*2)
    with (Pedido_items_productos db pedido_pk).
  change (filter (λ it, ItemServicioPedido.pedido it = pedido_pk)
                 (map_to_list (items_servicios db)).*2)
    with (Pedido_items_servicios db pedido_pk).
  intros Hps Hss Hlen. unfold Pedido_total_pedido.
  destruct (traverse_subtotal_productos _ Hps) as (cp & Hcp & Hlp & Hbp).
  destruct (traverse_subtotal_servicios _ Hss) as (cs & Hcs & Hls & Hbs).
  rewrite Hcp, Hcs. cbn [mbind result_bind].
  pose proof (Zsum_abs_bound cp Hbp) as Hp.
  pose proof (Zsum_abs_bound cs Hbs) as Hs.
  pose proof (Zsum_abs_le cp). pose proof (Zsum_abs_le cs).
  pose proof (Zsum_abs_nonneg cp). pose proof (Zsum_abs_nonneg cs).
  rewrite Hlp in Hp. rewrite Hls in Hs.
  assert (Hsum : Zsum (Z.abs <$> cp) + Zsum (Z.abs <$> cs) < 10 ^ prec).
  { assert (10 ^ 8 * line_bound < 10 ^ prec) by (by vm_compute).
    unfold line_bound in *.
    change (10 ^ 8) with 100000000 in *. lia. }
  rewrite !py_sum_centavos by lia.
  eexists _, (centavos <$> cp), (centavos <$> cs).
  split; [reflexivity|]. split; [reflexivity|]. split; [reflexivity|].
  rewrite !Qsum_centavos. split.
  - destruct cp as [|c1 cp'], cs as [|c2 cs']; cbn [num_add num_value].
    + reflexivity.
    + destruct (dec_add_zero_centavos (Zsum (c2 :: cs'))) as [-> _]; [lia|].
      change (Zsum []) with 0. unfold dec_value at 2. simpl. ring.
    + destruct (dec_add_zero_centavos (Zsum (c1 :: cp'))) as [_ ->]; [lia|].
      change (Zsum []) with 0. unfold dec_value at 3. simpl. ring.
    + rewrite dec_add_centavos by lia. unfold centavos. apply dec_value_plus.
  - intros Hp0 Hs0. rewrite Hp0 in Hlp. rewrite Hs0 in Hls.
    destruct cp; [|done]. destruct cs; [|done]. done.
Qed.

Lemma total_pedido_sum_witness :
  ∃ total subs_productos subs_servicios,
    Pedido_total_pedido db_ejemplo 1 = Ok total
    ∧ traverse ItemProductoPedido.subtotal
        (filter (λ it, ItemProductoPedido.pedido it = 1)
                (map_to_list (items_productos db_ejemplo)).*2)
      = Ok subs_productos
    ∧ traverse ItemServicioPedido.subtotal
        (filter (λ it, ItemServicioPedido.pedido it = 1)
                (map_to_list (items_servicios db_ejemplo)).*2)
      = Ok subs_servicios
    ∧ (num_value total
       == Qsum (dec_value <$> subs_productos) + Qsum (dec_value <$> subs_servicios))%Q
    ∧ (filter (λ it, ItemProductoPedido.pedido it = 1)
              (map_to_list (items_productos db_ejemplo)).*2 = []
       → filter (λ it, ItemServicioPedido.pedido it = 1)
                (map_to_list (items_servicios db_ejemplo)).*2 = []
       → total = PInt 0).
Proof.
  apply (total_pedido_sum db_ejemplo 1).
  - apply (bool_decide_unpack _). vm_compute. exact I.
  - apply (bool_decide_unpack _). vm_compute. exact I.
  - vm_compute. discriminate.
Defined.

(** Beyond column values the total is not the sum of the subtotals:
    two lines of the largest quantity at the
    largest price have subtotals of 28 digits each, and their sum, of 29
    digits, is rounded again. *)
Lemma total_pedido_redondeado :
  Pedido_total_pedido db_grande 1
  = Ok (PDec (mkDecimal 1844674407186487720662904484 0))
  ∧ traverse ItemProductoPedido.subtotal
      (filter (λ it, ItemProductoPedido.pedido it = 1)
              (map_to_list (items_productos db_grande)).*2)
    = Ok [mkDecimal 9223372035932438603314522419 (-1);
          mkDecimal 9223372035932438603314522419 (-1)]
  ∧ traverse ItemServicioPedido.subtotal
      (filter (λ it, ItemServicioPedido.pedido it = 1)
              (map_to_list (items_servicios db_grande)).*2)
    = Ok []
  ∧ ¬ (num_value (PDec (mkDecimal 1844674407186487720662904484 0))
       == Qsum (dec_value <$> [mkDecimal 9223372035932438603314522419 (-1);
                               mkDecimal 9223372035932438603314522419 (-1)])
          + Qsum (dec_value <$> []))%Q.
Proof.
  split_and!; [(by vm_compute)..|].
  intros H. vm_compute in H. discriminate H.
Qed.

(** ** Writing a row *)

Section save_facts.

(** The key of an insert is not in use. *)
Lemma next_pk_fresh {A} (tbl : gmap Z A) : tbl !! next_pk tbl = None.
Proof.
  unfold next_pk.
  assert (Hle : ∀ k, is_Some (tbl !! k) → k ≤ map_fold (λ k _ acc, Z.max k acc) 0 tbl).
  { induction tbl as [|k x m Hk Hfold IH] using map_first_key_ind.
    - intros k [x Hx]. by rewrite lookup_empty in Hx.
    - intros k' Hk'. rewrite map_fold_insert_first_key by done.
      destruct (decide (k = k')) as [->|Hne]; [lia|].
      rewrite lookup_insert_ne in Hk' by done. specialize (IH k' Hk'). lia. }
  destruct (tbl !! _) eqn:Hl; [|done].
  specialize (Hle _ (mk_is_Some _ _ Hl)). lia.
Qed.

(** A column value goes to its column as it is. *)
Lemma format_number_stored p : stored_decimal p → format_number 10 2 p = Ok p.
Proof.
  intros [He Hp]. destruct p as [c e]. simpl in He, Hp. subst e.
  unfold format_number, dec_rescale. simpl.
  rewrite Z.mul_1_r. destruct (Z.ltb_spec (Z.abs c) (10 ^ 10)); [done | lia].
Qed.

Lemma format_number_Raise md dp v e : format_number md dp v = Raise e → e = InvalidOperation.
Proof. unfold format_number. destruct (_ <? _); [done | by intros [= <-]]. Qed.

(** What the column holds has the two decimals and ten digits of the
    column. *)
Lemma format_number_Ok_stored v q : format_number 10 2 v = Ok q → stored_decimal q.
Proof.
  unfold format_number. cbv zeta.
  case Z.ltb_spec; [|done].
  intros Hlt [= <-]. split; [|done].
  unfold dec_rescale. by destruct (_ <=? _).
Qed.

Lemma Model_save_Ok {A} (prep : A → result A) (ints : A → list Z) (check : Z → A → bool)
    (tbl : gmap Z A) (self : instance A) tbl' self' :
  Model_save prep ints check tbl self = Ok (tbl', self') ↔
  ∃ row, prep (fields self) = Ok row
         ∧ forallb int64 (save_key tbl self :: ints row) = true
         ∧ check (save_key tbl self) row = true
         ∧ tbl' = <[save_key tbl self := row]> tbl
         ∧ self' = mkInstance (Some (save_key tbl self)) (fields self).
Proof.
  unfold Model_save.
  destruct (prep (fields self)) as [row|e]; cbn [mbind result_bind].
  - destruct (forallb int64 (save_key tbl self :: ints row)) eqn:Hi; cbn [negb].
    + destruct (check (save_key tbl self) row) eqn:Hc.
      * split.
        -- intros [= <- <-]. by exists row.
        -- intros (row' & [= <-] & _ & _ & -> & ->). done.
      * split; [done|]. intros (row' & [= <-] & _ & Hc' & _). congruence.
    + split; [done|]. intros (row' & [= <-] & Hi' & _). congruence.
  - split; [done|]. by intros (row' & Hrow & _).
Qed.

Lemma Model_save_Raise {A} (prep : A → result A) (ints : A → list Z) (check : Z → A → bool)
    (tbl : gmap Z A) (self : instance A) e :
  Model_save prep ints check tbl self = Raise e →
  prep (fields self) = Raise e ∨ e = OverflowError ∨ e = IntegrityError.
Proof.
  unfold Model_save.
  destruct (prep (fields self)) as [row|e']; cbn [mbind result_bind]; [|intros [= <-]; by left].
  destruct (negb _); [intros [= <-]; auto|].
  destruct (check _ _); [done | intros [= <-]; auto].
Qed.

(** A successful save of a product line: the unit price [p] that goes
    to the write is the one the instance has, if it is not zero, or else
    that of the product; the row gets it as the column takes it, [q]. *)
Lemma ItemProductoPedido_save_Ok db self db' self' :
  ItemProductoPedido_save db self = Ok (db', self') ↔
  ∃ p q,
    (if opt_dec_truthy (ItemProductoPedido.precio_unitario (fields self))
     then ItemProductoPedido.precio_unitario (fields self) = Some p
     else ∃ prod, productos db !! ItemProductoPedido.producto (fields self) = Some prod
                  ∧ p = ProductoHardware.precio prod)
    ∧ format_number 10 2 p = Ok q
    ∧ forallb int64 (save_key (items_productos db) self
                     :: ItemProductoPedido_ints (fields self)) = true
    ∧ ItemProductoPedido_check db (save_key (items_productos db) self)
        (ItemProductoPedido.set_precio_unitario (fields self) q) = true
    ∧ db' = set_items_productos db
              (<[save_key (items_productos db) self
                 := ItemProductoPedido.set_precio_unitario (fields self) q]>
                 (items_productos db))
    ∧ self' = mkInstance (Some (save_key (items_productos db) self))
                (ItemProductoPedido.set_precio_unitario (fields self) p).
Proof.
  unfold ItemProductoPedido_save.
  destruct self as [pk0 [pd pr n pu]]. cbn [fields pk ItemProductoPedido.precio_unitario
    ItemProductoPedido.producto].
  destruct (opt_dec_truthy pu) eqn:Ht; cbn [negb].
  - destruct pu as [p0|]; [|done]. cbn [mbind result_bind].
    destruct (Model_save _ _ _ _ _) as [[tbl' self1]|e] eqn:Hs; cbn [mbind result_bind].
    + apply Model_save_Ok in Hs as (row & Hrow & Hi & Hc & -> & ->).
      unfold ItemProductoPedido_prep in Hrow. cbn in Hrow.
      destruct (format_number 10 2 p0) as [q0|] eqn:Hq; [|done]. injection Hrow as <-.
      split.
      * intros [= <- <-]. by exists p0, q0.
      * intros (p & q & [= <-] & Hq' & _ & _ & -> & ->).
        rewrite Hq in Hq'. injection Hq' as <-. done.
    + split; [done|]. intros (p & q & [= <-] & Hq & Hi & Hc & _).
      assert (Hok : Model_save ItemProductoPedido_prep ItemProductoPedido_ints
                      (ItemProductoPedido_check db) (items_productos db)
                      (mkInstance pk0 (ItemProductoPedido.mk pd pr n (Some p0)))
                    = Ok (<[save_key (items_productos db)
                              (mkInstance pk0 (ItemProductoPedido.mk pd pr n (Some p0)))
                            := ItemProductoPedido.mk pd pr n (Some q)]> (items_productos db),
                          mkInstance
                            (Some (save_key (items_productos db)
                                     (mkInstance pk0 (ItemProductoPedido.mk pd pr n (Some p0)))))
                            (ItemProductoPedido.mk pd pr n (Some p0)))).
      { apply Model_save_Ok. exists (ItemProductoPedido.mk pd pr n (Some q)).
        split_and!; [|done..]. unfold ItemProductoPedido_prep. cbn. by rewrite Hq. }
      congruence.
  - unfold related. destruct (productos db !! pr) as [prod|] eqn:Hprod; cbn [mbind result_bind].
    + destruct (Model_save _ _ _ _ _) as [[tbl' self1]|e] eqn:Hs; cbn [mbind result_bind].
      * apply Model_save_Ok in Hs as (row & Hrow & Hi & Hc & -> & ->).
        unfold ItemProductoPedido_prep in Hrow. cbn in Hrow.
        destruct (format_number 10 2 (ProductoHardware.precio prod)) as [q0|] eqn:Hq; [|done].
        injection Hrow as <-. split.
        -- intros [= <- <-]. exists (ProductoHardware.precio prod), q0.
           split_and!; [by exists prod|done..].
        -- intros (p & q & (prod' & [= <-] & ->) & Hq' & _ & _ & -> & ->).
           rewrite Hq in Hq'. injection Hq' as <-. done.
      * split; [done|]. intros (p & q & (prod' & [= <-] & ->) & Hq & Hi & Hc & _).
        assert (Hok : Model_save ItemProductoPedido_prep ItemProductoPedido_ints
                        (ItemProductoPedido_check db) (items_productos db)
                        (mkInstance pk0
                           (ItemProductoPedido.set_precio_unitario
                              (ItemProductoPedido.mk pd pr n pu) (ProductoHardware.precio prod)))
                      = Ok (<[save_key (items_productos db)
                                (mkInstance pk0 (ItemProductoPedido.mk pd pr n pu))
                              := ItemProductoPedido.mk pd pr n (Some q)]> (items_productos db),
                            mkInstance
                              (Some (save_key (items_productos db)
                                       (mkInstance pk0 (ItemProductoPedido.mk pd pr n pu))))
                              (ItemProductoPedido.mk pd pr n
                                 (Some (ProductoHardware.precio prod))))).
        { apply Model_save_Ok. exists (ItemProductoPedido.mk pd pr n (Some q)).
          split_and!; [|done..]. unfold ItemProductoPedido_prep. cbn. by rewrite Hq. }
        congruence.
    + split; [done|]. by intros (p & q & (prod' & Hp & _) & _).
Qed.

Lemma ItemServicioPedido_save_Ok db self db' self' :
  ItemServicioPedido_save db self = Ok (db', self') ↔
  ∃ p q,
    (if opt_dec_truthy (ItemServicioPedido.precio_unitario (fields self))
     then ItemServicioPedido.precio_unitario (fields self) = Some p
     else ∃ serv, servicios db !! ItemServicioPedido.servicio (fields self) = Some serv
                  ∧ p = ServicioInformatico.precio serv)
    ∧ format_number 10 2 p = Ok q
    ∧ forallb int64 (save_key (items_servicios db) self
                     :: ItemServicioPedido_ints (fields self)) = true
    ∧ ItemServicioPedido_check db (save_key (items_servicios db) self)
        (ItemServicioPedido.set_precio_unitario (fields self) q) = true
    ∧ db' = set_items_servicios db
              (<[save_key (items_servicios db) self
                 := ItemServicioPedido.set_precio_unitario (fields self) q]>
                 (items_servicios db))
    ∧ self' = mkInstance (Some (save_key (items_servicios db) self))
                (ItemServicioPedido.set_precio_unitario (fields self) p).
Proof.
  unfold ItemServicioPedido_save.
  destruct self as [pk0 [pd sv n pu]]. cbn [fields pk ItemServicioPedido.precio_unitario
    ItemServicioPedido.servicio].
  destruct (opt_dec_truthy pu) eqn:Ht; cbn [negb].
  - destruct pu as [p0|]; [|done]. cbn [mbind result_bind].
    destruct (Model_save _ _ _ _ _) as [[tbl' self1]|e] eqn:Hs; cbn [mbind result_bind].
    + apply Model_save_Ok in Hs as (row & Hrow & Hi & Hc & -> & ->).
      unfold ItemServicioPedido_prep in Hrow. cbn in Hrow.
      destruct (format_number 10 2 p0) as [q0|] eqn:Hq; [|done]. injection Hrow as <-.
      split.
      * intros [= <- <-]. by exists p0, q0.
      * intros (p & q & [= <-] & Hq' & _ & _ & -> & ->).
        rewrite Hq in Hq'. injection Hq' as <-. done.
    + split; [done|]. intros (p & q & [= <-] & Hq & Hi & Hc & _).
      assert (Hok : Model_save ItemServicioPedido_prep ItemServicioPedido_ints
                      (ItemServicioPedido_check db) (items_servicios db)
                      (mkInstance pk0 (ItemServicioPedido.mk pd sv n (Some p0)))
                    = Ok (<[save_key (items_servicios db)
                              (mkInstance pk0 (ItemServicioPedido.mk pd sv n (Some p0)))
                            := ItemServicioPedido.mk pd sv n (Some q)]> (items_servicios db),
                          mkInstance
                            (Some (save_key (items_servicios db)
                                     (mkInstance pk0 (ItemServicioPedido.mk pd sv n (Some p0)))))
                            (ItemServicioPedido.mk pd sv n (Some p0)))).
      { apply Model_save_Ok. exists (ItemServicioPedido.mk pd sv n (Some q)).
        split_and!; [|done..]. unfold ItemServicioPedido_prep. cbn. by rewrite Hq. }
      congruence.
  - unfold related. destruct (servicios db !! sv) as [serv|] eqn:Hserv; cbn [mbind result_bind].
    + destruct (Model_save _ _ _ _ _) as [[tbl' self1]|e] eqn:Hs; cbn [mbind result_bind].
      * apply Model_save_Ok in Hs as (row & Hrow & Hi & Hc & -> & ->).
        unfold ItemServicioPedido_prep in Hrow. cbn in Hrow.
        destruct (format_number 10 2 (ServicioInformatico.precio serv)) as [q0|] eqn:Hq;
          [|done].
        injection Hrow as <-. split.
        -- intros [= <- <-]. exists (ServicioInformatico.precio serv), q0.
           split_and!; [by exists serv|done..].
        -- intros (p & q & (serv' & [= <-] & ->) & Hq' & _ & _ & -> & ->).
           rewrite Hq in Hq'. injection Hq' as <-. done.
      * split; [done|]. intros (p & q & (serv' & [= <-] & ->) & Hq & Hi & Hc & _).
        assert (Hok : Model_save ItemServicioPedido_prep ItemServicioPedido_ints
                        (ItemServicioPedido_check db) (items_servicios db)
                        (mkInstance pk0
                           (ItemServicioPedido.set_precio_unitario
                              (ItemServicioPedido.mk pd sv n pu)
                              (ServicioInformatico.precio serv)))
                      = Ok (<[save_key (items_servicios db)
                                (mkInstance pk0 (ItemServicioPedido.mk pd sv n pu))
                              := ItemServicioPedido.mk pd sv n (Some q)]> (items_servicios db),
                            mkInstance
                              (Some (save_key (items_servicios db)
                                       (mkInstance pk0 (ItemServicioPedido.mk pd sv n pu))))
                              (ItemServicioPedido.mk pd sv n
                                 (Some (ServicioInformatico.precio serv))))).
        { apply Model_save_Ok. exists (ItemServicioPedido.mk pd sv n (Some q)).
          split_and!; [|done..]. unfold ItemServicioPedido_prep. cbn. by rewrite Hq. }
        congruence.
    + split; [done|]. by intros (p & q & (serv' & Hp & _) & _).
Qed.

(** Saving a product or a service writes its own table and no other. *)
Lemma ProductoHardware_save_Ok db self db' self' :
  ProductoHardware_save db self = Ok (db', self') ↔
  ∃ q, format_number 10 2 (ProductoHardware.precio (fields self)) = Ok q
       ∧ forallb int64 (save_key (productos db) self :: ProductoHardware_ints (fields self))
         = true
       ∧ ProductoHardware_check db (save_key (productos db) self)
           (ProductoHardware.set_precio (fields self) q) = true
       ∧ db' = set_productos db
                 (<[save_key (productos db) self := ProductoHardware.set_precio (fields self) q]>
                    (productos db))
       ∧ self' = mkInstance (Some (save_key (productos db) self)) (fields self).
Proof.
  unfold ProductoHardware_save.
  destruct (Model_save _ _ _ _ _) as [[tbl' self1]|e] eqn:Hs; cbn [mbind result_bind].
  - apply Model_save_Ok in Hs as (row & Hrow & Hi & Hc & -> & ->).
    unfold ProductoHardware_prep in Hrow.
    destruct (format_number 10 2 (ProductoHardware.precio (fields self))) as [q0|] eqn:Hq;
      [|done].
    cbn in Hrow. injection Hrow as <-. split.
    + intros [= <- <-]. by exists q0.
    + intros (q & [= <-] & _ & _ & -> & ->). done.
  - split; [done|]. intros (q & Hq & Hi & Hc & _).
    assert (Hok : Model_save ProductoHardware_prep ProductoHardware_ints
                    (ProductoHardware_check db) (productos db) self
                  = Ok (<[save_key (productos db) self
                          := ProductoHardware.set_precio (fields self) q]> (productos db),
                        mkInstance (Some (save_key (productos db) self)) (fields self))).
    { apply Model_save_Ok. exists (ProductoHardware.set_precio (fields self) q).
      split_and!; [|done..]. unfold ProductoHardware_prep. by rewrite Hq. }
    congruence.
Qed.

Lemma ServicioInformatico_save_Ok db self db' self' :
  ServicioInformatico_save db self = Ok (db', self') ↔
  ∃ q, format_number 10 2 (ServicioInformatico.precio (fields self)) = Ok q
       ∧ forallb int64 (save_key (servicios db) self :: ServicioInformatico_ints (fields self))
         = true
       ∧ ServicioInformatico_check db (save_key (servicios db) self)
           (ServicioInformatico.set_precio (fields self) q) = true
       ∧ db' = set_servicios db
                 (<[save_key (servicios db) self
                    := ServicioInformatico.set_precio (fields self) q]> (servicios db))
       ∧ self' = mkInstance (Some (save_key (servicios db) self)) (fields self).
Proof.
  unfold ServicioInformatico_save.
  destruct (Model_save _ _ _ _ _) as [[tbl' self1]|e] eqn:Hs; cbn [mbind result_bind].
  - apply Model_save_Ok in Hs as (row & Hrow & Hi & Hc & -> & ->).
    unfold ServicioInformatico_prep in Hrow.
    destruct (format_number 10 2 (ServicioInformatico.precio (fields self))) as [q0|] eqn:Hq;
      [|done].
    cbn in Hrow. injection Hrow as <-. split.
    + intros [= <- <-]. by exists q0.
    + intros (q & [= <-] & _ & _ & -> & ->). done.
  - split; [done|]. intros (q & Hq & Hi & Hc & _).
    assert (Hok : Model_save ServicioInformatico_prep ServicioInformatico_ints
                    (ServicioInformatico_check db) (servicios db) self
                  = Ok (<[save_key (servicios db) self
                          := ServicioInformatico.set_precio (fields self) q]> (servicios db),
                        mkInstance (Some (save_key (servicios db) self)) (fields self))).
    { apply Model_save_Ok. exists (ServicioInformatico.set_precio (fields self) q).
      split_and!; [|done..]. unfold ServicioInformatico_prep. by rewrite Hq. }
    congruence.
Qed.

Lemma catalogo_save_frame db :
  (∀ otro db' otro',
     ProductoHardware_save db otro = Ok (db', otro') →
     items_productos db' = items_productos db ∧ items_servicios db' = items_servicios db)
  ∧ (∀ otro db' otro',
       ServicioInformatico_save db otro = Ok (db', otro') →
       items_productos db' = items_productos db ∧ items_servicios db' = items_servicios db).
Proof.
  split; intros otro db' otro' Hs.
  - apply ProductoHardware_save_Ok in Hs as (q & _ & _ & _ & -> & _). done.
  - apply ServicioInformatico_save_Ok in Hs as (q & _ & _ & _ & -> & _). done.
Qed.

End save_facts.

(** ** The unit price snapshot of the order lines *)

Section snapshot_facts.

(** When the write goes through for a line without a price of its own:
    the pair is new to the table, the order and the product are there,
    the numbers fit, and the price of the product is a column value. *)
Lemma ItemProductoPedido_save_falsy db self prod :
  opt_dec_truthy (ItemProductoPedido.precio_unitario (fields self)) = false →
  productos db !! ItemProductoPedido.producto (fields self) = Some prod →
  stored_decimal (ProductoHardware.precio prod) →
  forallb int64 (save_key (items_productos db) self :: ItemProductoPedido_ints (fields self))
  = true →
  0 ≤ ItemProductoPedido.cantidad (fields self) →
  ItemProductoPedido_unique (items_productos db) (save_key (items_productos db) self)
    (fields self) →
  is_Some (pedidos db !! ItemProductoPedido.pedido (fields self)) →
  ItemProductoPedido_save db self
  = Ok (set_items_productos db
          (<[save_key (items_productos db) self
             := ItemProductoPedido.set_precio_unitario (fields self)
                  (ProductoHardware.precio prod)]> (items_productos db)),
        mkInstance (Some (save_key (items_productos db) self))
          (ItemProductoPedido.set_precio_unitario (fields self)
             (ProductoHardware.precio prod))).
Proof.
  intros Hf Hprod Hst Hi Hn Hu Hped. apply ItemProductoPedido_save_Ok.
  exists (ProductoHardware.precio prod), (ProductoHardware.precio prod). rewrite Hf.
  split_and!; [by exists prod | by apply format_number_stored | done | | done..].
  unfold ItemProductoPedido_check. apply bool_decide_eq_true. simpl.
  split_and!; [done | done | exact Hu | done | by rewrite Hprod].
Qed.

Lemma ItemServicioPedido_save_falsy db self serv :
  opt_dec_truthy (ItemServicioPedido.precio_unitario (fields self)) = false →
  servicios db !! ItemServicioPedido.servicio (fields self) = Some serv →
  stored_decimal (ServicioInformatico.precio serv) →
  forallb int64 (save_key (items_servicios db) self :: ItemServicioPedido_ints (fields self))
  = true →
  0 ≤ ItemServicioPedido.cantidad (fields self) →
  ItemServicioPedido_unique (items_servicios db) (save_key (items_servicios db) self)
    (fields self) →
  is_Some (pedidos db !! ItemServicioPedido.pedido (fields self)) →
  ItemServicioPedido_save db self
  = Ok (set_items_servicios db
          (<[save_key (items_servicios db) self
             := ItemServicioPedido.set_precio_unitario (fields self)
                  (ServicioInformatico.precio serv)]> (items_servicios db)),
        mkInstance (Some (save_key (items_servicios db) self))
          (ItemServicioPedido.set_precio_unitario (fields self)
             (ServicioInformatico.precio serv))).
Proof.
  intros Hf Hserv Hst Hi Hn Hu Hped. apply ItemServicioPedido_save_Ok.
  exists (ServicioInformatico.precio serv), (ServicioInformatico.precio serv). rewrite Hf.
  split_and!; [by exists serv | by apply format_number_stored | done | | done..].
  unfold ItemServicioPedido_check. apply bool_decide_eq_true. simpl.
  split_and!; [done | done | exact Hu | done | by rewrite Hserv].
Qed.

(** What a successful save does to a line whose price is unset or
    zero. *)
Lemma ItemProductoPedido_save_falsy_inv db db' self self' :
  opt_dec_truthy (ItemProductoPedido.precio_unitario (fields self)) = false →
  ItemProductoPedido_save db self = Ok (db', self') →
  ∃ prod k q,
    productos db !! ItemProductoPedido.producto (fields self) = Some prod
    ∧ self' = mkInstance (Some k)
                (ItemProductoPedido.set_precio_unitario (fields self)
                   (ProductoHardware.precio prod))
    ∧ k = save_key (items_productos db) self
    ∧ format_number 10 2 (ProductoHardware.precio prod) = Ok q
    ∧ items_productos db' !! k
      = Some (ItemProductoPedido.set_precio_unitario (fields self) q)
    ∧ (stored_decimal (ProductoHardware.precio prod) → q = ProductoHardware.precio prod).
Proof.
  intros Hf Hs. apply ItemProductoPedido_save_Ok in Hs as (p & q & Hp & Hq & _ & _ & -> & ->).
  rewrite Hf in Hp. destruct Hp as (prod & Hprod & ->).
  exists prod, (save_key (items_productos db) self), q.
  split_and!; [done..| |].
  - simpl. by rewrite lookup_insert_eq.
  - intros Hst. rewrite (format_number_stored _ Hst) in Hq. by injection Hq.
Qed.

Lemma ItemServicioPedido_save_falsy_inv db db' self self' :
  opt_dec_truthy (ItemServicioPedido.precio_unitario (fields self)) = false →
  ItemServicioPedido_save db self = Ok (db', self') →
  ∃ serv k q,
    servicios db !! ItemServicioPedido.servicio (fields self) = Some serv
    ∧ self' = mkInstance (Some k)
                (ItemServicioPedido.set_precio_unitario (fields self)
                   (ServicioInformatico.precio serv))
    ∧ k = save_key (items_servicios db) self
    ∧ format_number 10 2 (ServicioInformatico.precio serv) = Ok q
    ∧ items_servicios db' !! k
      = Some (ItemServicioPedido.set_precio_unitario (fields self) q)
    ∧ (stored_decimal (ServicioInformatico.precio serv) → q = ServicioInformatico.precio serv).
Proof.
  intros Hf Hs. apply ItemServicioPedido_save_Ok in Hs as (p & q & Hp & Hq & _ & _ & -> & ->).
  rewrite Hf in Hp. destruct Hp as (serv & Hserv & ->).
  exists serv, (save_key (items_servicios db) self), q.
  split_and!; [done..| |].
  - simpl. by rewrite lookup_insert_eq.
  - intros Hst. rewrite (format_number_stored _ Hst) in Hq. by injection Hq.
Qed.

End snapshot_facts.

(** C3. When a line without a unit price is saved, the instance leaves
    with the price its product (or service) has at that moment, and the
    row is stored with that price as the column takes it: rounded to two
    decimals, and so unchanged when it is a column value.  A product or
    a service saved afterwards, at whatever price, leaves the tables of
    the order lines as they were: the stored unit price stays.  The
    save goes through when the order and the product are there, the
    order has no line for the product yet, the numbers fit their
    columns and the price of the product is a column value. *)
Theorem precio_unitario_snapshot :
  (∀ (db db' : DB) (self self' : instance ItemProductoPedido.t),
     ItemProductoPedido.precio_unitario (fields self) = None →
     ItemProductoPedido_save db self = Ok (db', self') →
     ∃ prod k q,
       productos db !! ItemProductoPedido.producto (fields self) = Some prod
       ∧ self' = mkInstance (Some k)
                   (ItemProductoPedido.set_precio_unitario (fields self)
                      (ProductoHardware.precio prod))
       ∧ format_number 10 2 (ProductoHardware.precio prod) = Ok q
       ∧ items_productos db' !! k
         = Some (ItemProductoPedido.set_precio_unitario (fields self) q)
       ∧ (stored_decimal (ProductoHardware.precio prod) → q = ProductoHardware.precio prod)
       ∧ ∀ (otro otro' : instance ProductoHardware.t) (db'' : DB),
           ProductoHardware_save db' otro = Ok (db'', otro') →
           items_productos db'' = items_productos db')
  ∧ (∀ (db : DB) (self : instance ItemProductoPedido.t) (prod : ProductoHardware.t),
       ItemProductoPedido.precio_unitario (fields self) = None →
       productos db !! ItemProductoPedido.producto (fields self) = Some prod →
       stored_decimal (ProductoHardware.precio prod) →
       forallb int64 (save_key (items_productos db) self
                      :: ItemProductoPedido_ints (fields self)) = true →
       0 ≤ ItemProductoPedido.cantidad (fields self) →
       ItemProductoPedido_unique (items_productos db) (save_key (items_productos db) self)
         (fields self) →
       is_Some (pedidos db !! ItemProductoPedido.pedido (fields self)) →
       ∃ db' self', ItemProductoPedido_save db self = Ok (db', self'))
  ∧ (∀ (db db' : DB) (self self' : instance ItemServicioPedido.t),
       ItemServicioPedido.precio_unitario (fields self) = None →
       ItemServicioPedido_save db self = Ok (db', self') →
       ∃ serv k q,
         servicios db !! ItemServicioPedido.servicio (fields self) = Some serv
         ∧ self' = mkInstance (Some k)
                     (ItemServicioPedido.set_precio_unitario (fields self)
                        (ServicioInformatico.precio serv))
         ∧ format_number 10 2 (ServicioInformatico.precio serv) = Ok q
         ∧ items_servicios db' !! k
           = Some (ItemServicioPedido.set_precio_unitario (fields self) q)
         ∧ (stored_decimal (ServicioInformatico.precio serv)
            → q = ServicioInformatico.precio serv)
         ∧ ∀ (otro otro' : instance ServicioInformatico.t) (db'' : DB),
             ServicioInformatico_save db' otro = Ok (db'', otro') →
             items_servicios db'' = items_servicios db')
  ∧ (∀ (db : DB) (self : instance ItemServicioPedido.t) (serv : ServicioInformatico.t),
       ItemServicioPedido.precio_unitario (fields self) = None →
       servicios db !! ItemServicioPedido.servicio (fields self) = Some serv →
       stored_decimal (ServicioInformatico.precio serv) →
       forallb int64 (save_key (items_servicios db) self
                      :: ItemServicioPedido_ints (fields self)) = true →
       0 ≤ ItemServicioPedido.cantidad (fields self) →
       ItemServicioPedido_unique (items_servicios db) (save_key (items_servicios db) self)
         (fields self) →
       is_Some (pedidos db !! ItemServicioPedido.pedido (fields self)) →
       ∃ db' self', ItemServicioPedido_save db self = Ok (db', self')).
Proof.
  split_and!.
  - intros db db' self self' Hnone Hs.
    destruct (ItemProductoPedido_save_falsy_inv db db' self self')
      as (prod & k & q & Hprod & Hself & _ & Hq & Hrow & Hst); [by rewrite Hnone | done |].
    exists prod, k, q. split_and!; [done..|].
    intros otro otro' db'' Ho.
    by destruct (proj1 (catalogo_save_frame db') otro db'' otro' Ho).
  - intros db self prod Hnone Hprod Hst Hi Hn Hu Hped. eexists _, _.
    apply (ItemProductoPedido_save_falsy db self prod); [by rewrite Hnone | done..].
  - intros db db' self self' Hnone Hs.
    destruct (ItemServicioPedido_save_falsy_inv db db' self self')
      as (serv & k & q & Hserv & Hself & _ & Hq & Hrow & Hst); [by rewrite Hnone | done |].
    exists serv, k, q. split_and!; [done..|].
    intros otro otro' db'' Ho.
    by destruct (proj2 (catalogo_save_frame db') otro db'' otro' Ho).
  - intros db self serv Hnone Hserv Hst Hi Hn Hu Hped. eexists _, _.
    apply (ItemServicioPedido_save_falsy db self serv); [by rewrite Hnone | done..].
Qed.

Lemma precio_unitario_snapshot_witness :
  (∃ db' self',
     ItemProductoPedido_save db_ejemplo (mkInstance None (ItemProductoPedido.mk 2 1 4 None))
     = Ok (db', self')
     ∧ ∃ prod k q,
         productos db_ejemplo !! 1 = Some prod
         ∧ self' = mkInstance (Some k)
                     (ItemProductoPedido.mk 2 1 4 (Some (ProductoHardware.precio prod)))
         ∧ format_number 10 2 (ProductoHardware.precio prod) = Ok q
         ∧ items_productos db' !! k = Some (ItemProductoPedido.mk 2 1 4 (Some q))
         ∧ (stored_decimal (ProductoHardware.precio prod) → q = ProductoHardware.precio prod)
         ∧ ∀ (otro otro' : instance ProductoHardware.t) (db'' : DB),
             ProductoHardware_save db' otro = Ok (db'', otro') →
             items_productos db'' = items_productos db')
  ∧ (∃ db' self',
       ItemServicioPedido_save db_ejemplo (mkInstance None (ItemServicioPedido.mk 3 1 1 None))
       = Ok (db', self')
       ∧ ∃ serv k q,
           servicios db_ejemplo !! 1 = Some serv
           ∧ self' = mkInstance (Some k)
                       (ItemServicioPedido.mk 3 1 1 (Some (ServicioInformatico.precio serv)))
           ∧ format_number 10 2 (ServicioInformatico.precio serv) = Ok q
           ∧ items_servicios db' !! k = Some (ItemServicioPedido.mk 3 1 1 (Some q))
           ∧ (stored_decimal (ServicioInformatico.precio serv)
              → q = ServicioInformatico.precio serv)
           ∧ ∀ (otro otro' : instance ServicioInformatico.t) (db'' : DB),
               ServicioInformatico_save db' otro = Ok (db'', otro') →
               items_servicios db'' = items_servicios db').
Proof.
  destruct precio_unitario_snapshot as (Hp & Hp' & Hs & Hs'). split.
  - destruct (Hp' db_ejemplo (mkInstance None (ItemProductoPedido.mk 2 1 4 None))
                producto_thinkpad) as (db' & self' & Hsave).
    + reflexivity.
    + reflexivity.
    + by vm_compute.
    + reflexivity.
    + by vm_compute.
    + apply (bool_decide_unpack _). by vm_compute.
    + by eexists.
    + exists db', self'. split; [exact Hsave|].
      apply (Hp db_ejemplo db' (mkInstance None (ItemProductoPedido.mk 2 1 4 None)) self');
        [reflexivity | exact Hsave].
  - destruct (Hs' db_ejemplo (mkInstance None (ItemServicioPedido.mk 3 1 1 None))
                servicio_instalacion) as (db' & self' & Hsave).
    + reflexivity.
    + reflexivity.
    + by vm_compute.
    + reflexivity.
    + by vm_compute.
    + apply (bool_decide_unpack _). by vm_compute.
    + by eexists.
    + exists db', self'. split; [exact Hsave|].
      apply (Hs db_ejemplo db' (mkInstance None (ItemServicioPedido.mk 3 1 1 None)) self');
        [reflexivity | exact Hsave].
Defined.

(** C9, as the save does it.  When a line whose unit price is a zero Decimal is
    saved, the instance leaves with the current price of its product
    (or service) and the row is stored with that price as the column
    takes it, under the key the instance had, if it had one.  The zero
    is kept only when the price of the product is itself zero.  This
    holds at every save: a row of the table that has a zero unit price,
    read back and saved, is written again with the price the catalogue
    has then. *)
Theorem precio_cero_reemplazado :
  (∀ (db db' : DB) (self self' : instance ItemProductoPedido.t) (p0 : Decimal),
     ItemProductoPedido.precio_unitario (fields self) = Some p0 →
     coef p0 = 0 →
     ItemProductoPedido_save db self = Ok (db', self') →
     ∃ prod k q,
       productos db !! ItemProductoPedido.producto (fields self) = Some prod
       ∧ self' = mkInstance (Some k)
                   (ItemProductoPedido.set_precio_unitario (fields self)
                      (ProductoHardware.precio prod))
       ∧ (∀ k0, pk self = Some k0 → k = k0)
       ∧ format_number 10 2 (ProductoHardware.precio prod) = Ok q
       ∧ items_productos db' !! k
         = Some (ItemProductoPedido.set_precio_unitario (fields self) q)
       ∧ (stored_decimal (ProductoHardware.precio prod) → q = ProductoHardware.precio prod))
  ∧ (∀ (db db' : DB) (self self' : instance ItemServicioPedido.t) (p0 : Decimal),
       ItemServicioPedido.precio_unitario (fields self) = Some p0 →
       coef p0 = 0 →
       ItemServicioPedido_save db self = Ok (db', self') →
       ∃ serv k q,
         servicios db !! ItemServicioPedido.servicio (fields self) = Some serv
         ∧ self' = mkInstance (Some k)
                     (ItemServicioPedido.set_precio_unitario (fields self)
                        (ServicioInformatico.precio serv))
         ∧ (∀ k0, pk self = Some k0 → k = k0)
         ∧ format_number 10 2 (ServicioInformatico.precio serv) = Ok q
         ∧ items_servicios db' !! k
           = Some (ItemServicioPedido.set_precio_unitario (fields self) q)
         ∧ (stored_decimal (ServicioInformatico.precio serv)
            → q = ServicioInformatico.precio serv))
  ∧ (∀ (db : DB) (k : Z) (row : ItemProductoPedido.t) (p0 : Decimal)
       (prod : ProductoHardware.t),
       items_productos db !! k = Some row →
       ItemProductoPedido.precio_unitario row = Some p0 →
       coef p0 = 0 →
       productos db !! ItemProductoPedido.producto row = Some prod →
       stored_decimal (ProductoHardware.precio prod) →
       forallb int64 (k :: ItemProductoPedido_ints row) = true →
       ItemProductoPedido_check db k row = true →
       ItemProductoPedido_save db (mkInstance (Some k) row)
       = Ok (set_items_productos db
               (<[k := ItemProductoPedido.set_precio_unitario row
                         (ProductoHardware.precio prod)]> (items_productos db)),
             mkInstance (Some k)
               (ItemProductoPedido.set_precio_unitario row (ProductoHardware.precio prod))))
  ∧ (∀ (db : DB) (k : Z) (row : ItemServicioPedido.t) (p0 : Decimal)
       (serv : ServicioInformatico.t),
       items_servicios db !! k = Some row →
       ItemServicioPedido.precio_unitario row = Some p0 →
       coef p0 = 0 →
       servicios db !! ItemServicioPedido.servicio row = Some serv →
       stored_decimal (ServicioInformatico.precio serv) →
       forallb int64 (k :: ItemServicioPedido_ints row) = true →
       ItemServicioPedido_check db k row = true →
       ItemServicioPedido_save db (mkInstance (Some k) row)
       = Ok (set_items_servicios db
               (<[k := ItemServicioPedido.set_precio_unitario row
                         (ServicioInformatico.precio serv)]> (items_servicios db)),
             mkInstance (Some k)
               (ItemServicioPedido.set_precio_unitario row (ServicioInformatico.precio serv)))).
Proof.
  assert (Hz : ∀ p0, coef p0 = 0 → opt_dec_truthy (Some p0) = false).
  { intros p0 H0. unfold opt_dec_truthy, dec_truthy. by rewrite H0. }
  split_and!.
  - intros db db' self self' p0 Hp0 H0 Hs.
    destruct (ItemProductoPedido_save_falsy_inv db db' self self')
      as (prod & k & q & Hprod & Hself & Hk & Hq & Hrow & Hst);
      [rewrite Hp0; by apply Hz | done |].
    exists prod, k, q. split_and!; [done | done | | done | done | done].
    intros k0 Hk0. subst k. unfold save_key. by rewrite Hk0.
  - intros db db' self self' p0 Hp0 H0 Hs.
    destruct (ItemServicioPedido_save_falsy_inv db db' self self')
      as (serv & k & q & Hserv & Hself & Hk & Hq & Hrow & Hst);
      [rewrite Hp0; by apply Hz | done |].
    exists serv, k, q. split_and!; [done | done | | done | done | done].
    intros k0 Hk0. subst k. unfold save_key. by rewrite Hk0.
  - intros db k row p0 prod Hrow Hp0 H0 Hprod Hst Hi Hc.
    apply bool_decide_eq_true in Hc as (_ & Hn & Hu & Hped & _).
    apply (ItemProductoPedido_save_falsy db (mkInstance (Some k) row) prod);
      [simpl; rewrite Hp0; by apply Hz | done..].
  - intros db k row p0 serv Hrow Hp0 H0 Hserv Hst Hi Hc.
    apply bool_decide_eq_true in Hc as (_ & Hn & Hu & Hped & _).
    apply (ItemServicioPedido_save_falsy db (mkInstance (Some k) row) serv);
      [simpl; rewrite Hp0; by apply Hz | done..].
Qed.

Lemma precio_cero_reemplazado_witness :
  ItemProductoPedido_save db_ejemplo
    (mkInstance (Some 3) (ItemProductoPedido.mk 2 2 1 (Some (mkDecimal 0 (-2)))))
  = Ok (set_items_productos db_ejemplo
          (<[3 := ItemProductoPedido.mk 2 2 1 (Some (mkDecimal 500 (-2)))]>
             (items_productos db_ejemplo)),
        mkInstance (Some 3) (ItemProductoPedido.mk 2 2 1 (Some (mkDecimal 500 (-2)))))
  ∧ ItemServicioPedido_save db_ejemplo
      (mkInstance (Some 2) (ItemServicioPedido.mk 2 1 1 (Some (mkDecimal 0 (-2)))))
    = Ok (set_items_servicios db_ejemplo
            (<[2 := ItemServicioPedido.mk 2 1 1 (Some (mkDecimal 10000 (-2)))]>
               (items_servicios db_ejemplo)),
          mkInstance (Some 2) (ItemServicioPedido.mk 2 1 1 (Some (mkDecimal 10000 (-2))))).
Proof.
  destruct precio_cero_reemplazado as (_ & _ & Hp & Hs). split.
  - apply (Hp db_ejemplo 3 (ItemProductoPedido.mk 2 2 1 (Some (mkDecimal 0 (-2))))
             (mkDecimal 0 (-2)) producto_nodo);
      [reflexivity | reflexivity | reflexivity | reflexivity | by vm_compute
      | reflexivity | by vm_compute].
  - apply (Hs db_ejemplo 2 (ItemServicioPedido.mk 2 1 1 (Some (mkDecimal 0 (-2))))
             (mkDecimal 0 (-2)) servicio_instalacion);
      [reflexivity | reflexivity | reflexivity | reflexivity | by vm_compute
      | reflexivity | by vm_compute].
Defined.

(** A unit price of zero does survive a save when the price of the
    product is zero: a line of two units of product 5, priced 0.00,
    given the unit price 0.00, is stored with it. *)
Lemma precio_cero_conservado :
  productos db_gratis !! 5 = Some producto_gratis
  ∧ ItemProductoPedido_save db_gratis
      (mkInstance None (ItemProductoPedido.mk 3 5 2 (Some (mkDecimal 0 (-2)))))
    = Ok (set_items_productos db_gratis
            (<[4 := ItemProductoPedido.mk 3 5 2 (Some (mkDecimal 0 (-2)))]>
               (items_productos db_gratis)),
          mkInstance (Some 4) (ItemProductoPedido.mk 3 5 2 (Some (mkDecimal 0 (-2))))).
Proof. split; by vm_compute. Qed.

(** ** Expired budgets *)

Section date_facts.

Lemma days_before_year_succ y :
  days_before_year (y + 1)
  = days_before_year y + (if is_leap y then 366 else 365).
Proof.
  unfold days_before_year, is_leap.
  replace (y + 1 - 1) with y by lia.
  destruct (Z.eqb_spec (y mod 4) 0), (Z.eqb_spec (y mod 100) 0), (Z.eqb_spec (y mod 400) 0);
    simpl; Z.to_euclidean_division_equations; lia.
Qed.

Lemma days_before_year_mono a b : a ≤ b → days_before_year a ≤ days_before_year b.
Proof.
  intros Hab. unfold days_before_year.
  Z.to_euclidean_division_equations; lia.
Qed.

Ltac month_cases m :=
  let H := fresh "Hm" in
  assert (m = 1 ∨ m = 2 ∨ m = 3 ∨ m = 4 ∨ m = 5 ∨ m = 6
          ∨ m = 7 ∨ m = 8 ∨ m = 9 ∨ m = 10 ∨ m = 11 ∨ m = 12) as H by lia;
  repeat (destruct H as [-> | H]); [..|subst m].

Ltac month_arith y :=
  unfold days_before_month, days_in_month; simpl; destruct (is_leap y); simpl; lia.

(** The day of the year stays within the length of the year. *)
Lemma day_of_year_bound y m d :
  1 ≤ m ≤ 12 → 1 ≤ d ≤ days_in_month y m →
  1 ≤ days_before_month y m + d ≤ (if is_leap y then 366 else 365).
Proof.
  intros Hm Hd. revert Hd. month_cases m; month_arith y.
Qed.

Lemma days_before_month_mono y m1 m2 :
  1 ≤ m1 → m1 < m2 → m2 ≤ 12 →
  days_before_month y m1 + days_in_month y m1 ≤ days_before_month y m2.
Proof.
  intros H1 H12 H2. month_cases m1; month_cases m2; try lia; month_arith y.
Qed.

Lemma date_cmp_Lt_toordinal a b :
  valid_date a → valid_date b → date_cmp a b = Lt → toordinal a < toordinal b.
Proof.
  intros (Hya & Hma & Hda) (Hyb & Hmb & Hdb). unfold date_cmp, toordinal.
  destruct (Z.compare_spec (year a) (year b)) as [Hy|Hy|Hy]; [| |done].
  - rewrite Hy in *.
    destruct (Z.compare_spec (month a) (month b)) as [Hm|Hm|Hm]; [| |done].
    + rewrite Hm. destruct (Z.compare_spec (day a) (day b)); [done| |done].
      intros _. lia.
    + intros _.
      pose proof (days_before_month_mono (year b) (month a) (month b)).
      lia.
  - intros _.
    pose proof (day_of_year_bound (year a) (month a) (day a) Hma Hda).
    pose proof (day_of_year_bound (year b) (month b) (day b) Hmb Hdb).
    pose proof (days_before_year_succ (year a)) as Hs.
    pose proof (days_before_year_mono (year a + 1) (year b)).
    destruct (is_leap (year a)), (is_leap (year b)); lia.
Qed.

Lemma date_cmp_Eq a b : date_cmp a b = Eq → a = b.
Proof.
  destruct a as [y1 m1 d1], b as [y2 m2 d2]. unfold date_cmp. simpl.
  destruct (Z.compare_spec y1 y2); [|done..].
  destruct (Z.compare_spec m1 m2); [|done..].
  destruct (Z.compare_spec d1 d2); [|done..]. by subst.
Qed.

Lemma date_cmp_antisym a b : date_cmp b a = CompOpp (date_cmp a b).
Proof.
  unfold date_cmp.
  rewrite (Z.compare_antisym (year a) (year b)).
  rewrite (Z.compare_antisym (month a) (month b)).
  rewrite (Z.compare_antisym (day a) (day b)).
  destruct (year a ?= year b), (month a ?= month b), (day a ?= day b); done.
Qed.

Lemma date_gt_toordinal a b :
  valid_date a → valid_date b → date_gt a b = true ↔ toordinal b < toordinal a.
Proof.
  intros Ha Hb. unfold date_gt. split.
  - destruct (date_cmp a b) eqn:Hc; [done..|]. intros _.
    apply date_cmp_Lt_toordinal; [done..|].
    by rewrite date_cmp_antisym, Hc.
  - intros Hlt. destruct (date_cmp a b) eqn:Hc; [| |done].
    + apply date_cmp_Eq in Hc. subst. lia.
    + apply date_cmp_Lt_toordinal in Hc; [lia|done..].
Qed.

End date_facts.

(** C4. With [hoy] the current date, [presupuesto_vencido] is true exactly
    when [hoy] falls on a later day than the expiry date, days being
    counted by their ordinal; on the expiry date itself it is false. *)
Theorem presupuesto_vencido_iff (hoy : date) (self : Cliente.t) :
  valid_date hoy →
  valid_date (Cliente.fecha_vencimiento_presupuesto self) →
  (Cliente.presupuesto_vencido hoy self = true
   ↔ toordinal (Cliente.fecha_vencimiento_presupuesto self) < toordinal hoy)
  ∧ (hoy = Cliente.fecha_vencimiento_presupuesto self
     → Cliente.presupuesto_vencido hoy self = false).
Proof.
  intros Hh Hf. split.
  - by apply date_gt_toordinal.
  - intros ->. apply not_true_is_false.
    intros Hgt%date_gt_toordinal; [lia|done..].
Qed.

Lemma presupuesto_vencido_iff_witness :
  (Cliente.presupuesto_vencido (mkDate 2024 3 1) cliente_ejemplo = true
   ↔ toordinal (mkDate 2024 2 29) < toordinal (mkDate 2024 3 1))
  ∧ (mkDate 2024 3 1 = mkDate 2024 2 29
     → Cliente.presupuesto_vencido (mkDate 2024 3 1) cliente_ejemplo = false).
Proof.
  apply (presupuesto_vencido_iff (mkDate 2024 3 1) cliente_ejemplo).
  - repeat split; vm_compute; discriminate.
  - repeat split; vm_compute; discriminate.
Defined.

(** ** The price check of the forms *)

Section clean_precio_facts.

Lemma clean_precio_same self :
  ServicioInformaticoForm.clean_precio self = ProductoHardwareForm.clean_precio self.
Proof. reflexivity. Qed.

(** A negative price is refused with the message of the check. *)
Lemma clean_precio_negativo cd errs (d : Decimal) :
  coef d < 0 →
  ProductoHardwareForm.clean_precio (mkForm (<["precio" := VDec d]> cd) errs)
  = Raise (ValidationError (VEMessage "El precio debe ser mayor a cero.")).
Proof.
  intros Hd. unfold ProductoHardwareForm.clean_precio, cleaned_get. simpl.
  rewrite lookup_insert_eq. simpl. unfold dec_truthy, dec_le_zero.
  destruct (Z.eqb_spec (coef d) 0); [lia|]. simpl.
  destruct (Z.leb_spec (coef d) 0); [done | lia].
Qed.

(** A positive price passes. *)
Lemma clean_precio_positivo cd errs (d : Decimal) :
  0 < coef d →
  ProductoHardwareForm.clean_precio (mkForm (<["precio" := VDec d]> cd) errs)
  = Ok (VDec d).
Proof.
  intros Hd. unfold ProductoHardwareForm.clean_precio, cleaned_get. simpl.
  rewrite lookup_insert_eq. simpl. unfold dec_truthy, dec_le_zero.
  destruct (Z.eqb_spec (coef d) 0); [lia|]. simpl.
  destruct (Z.leb_spec (coef d) 0); [lia | done].
Qed.

End clean_precio_facts.

(** C5. The price check of both forms lets a price of zero through: a
    zero Decimal is falsy, so [precio and precio <= 0] stops at [precio]
    and nothing is raised; the check hands the zero back as the cleaned
    value. *)
Theorem clean_precio_cero_pasa (cd : gmap string value) (errs : gmap string (list string))
    (e : Z) :
  ProductoHardwareForm.clean_precio (mkForm (<["precio" := VDec (mkDecimal 0 e)]> cd) errs)
  = Ok (VDec (mkDecimal 0 e))
  ∧ ServicioInformaticoForm.clean_precio (mkForm (<["precio" := VDec (mkDecimal 0 e)]> cd) errs)
    = Ok (VDec (mkDecimal 0 e)).
Proof.
  split.
  - unfold ProductoHardwareForm.clean_precio, cleaned_get. simpl.
    by rewrite lookup_insert_eq.
  - unfold ServicioInformaticoForm.clean_precio, cleaned_get. simpl.
    by rewrite lookup_insert_eq.
Qed.

(** ** The custom type of a product *)

Section tipo_facts.


Lemma str_truthy_true s : str_truthy s = true ↔ s ≠ EmptyString.
Proof. destruct s; simpl; split; congruence. Qed.

Lemma eqb_otros s : String.eqb s "otros" = true ↔ s = "otros".
Proof. apply String.eqb_eq. Qed.

Lemma eqb_not_otros s : s ≠ "otros" → String.eqb s "otros" = false.
Proof. intros Hs. by apply String.eqb_neq. Qed.

Lemma clean_form_otros_vacio self :
  cleaned_data self !! "tipo" = Some (VStr "otros") →
  truthy (cleaned_get (cleaned_data self) "tipo_personalizado") = false →
  ProductoHardwareForm.clean self
  = add_error self "tipo_personalizado" ProductoHardware.msg_tipo_personalizado.
Proof.
  intros Htipo Htp.
  assert (Hget : cleaned_get (cleaned_data self) "tipo" = VStr "otros")
    by (unfold cleaned_get; by rewrite Htipo).
  unfold ProductoHardwareForm.clean.
  rewrite bool_decide_eq_true_2 by done. rewrite Htp. reflexivity.
Qed.

Lemma clean_form_otros_dado self :
  cleaned_data self !! "tipo" = Some (VStr "otros") →
  truthy (cleaned_get (cleaned_data self) "tipo_personalizado") = true →
  ProductoHardwareForm.clean self = self.
Proof.
  intros Htipo Htp.
  assert (Hget : cleaned_get (cleaned_data self) "tipo" = VStr "otros")
    by (unfold cleaned_get; by rewrite Htipo).
  unfold ProductoHardwareForm.clean.
  rewrite bool_decide_eq_true_2 by done. rewrite Htp. reflexivity.
Qed.

Lemma clean_form_no_otros self :
  cleaned_get (cleaned_data self) "tipo" ≠ VStr "otros" →
  ProductoHardwareForm.clean self
  = if truthy (cleaned_get (cleaned_data self) "tipo_personalizado")
    then mkForm (<["tipo_personalizado" := VStr EmptyString]> (cleaned_data self)) (errors self)
    else self.
Proof.
  intros Htipo. unfold ProductoHardwareForm.clean.
  rewrite bool_decide_eq_false_2 by done. reflexivity.
Qed.

(** The model's own [save] stores the type and the custom type it is
    given: the clearing belongs to the form. *)
Lemma ProductoHardware_save_keeps_tipo_personalizado db db'
    (self self' : instance ProductoHardware.t) :
  ProductoHardware_save db self = Ok (db', self') →
  fields self' = fields self
  ∧ ∃ k row, pk self' = Some k
             ∧ productos db' !! k = Some row
             ∧ ProductoHardware.tipo row = ProductoHardware.tipo (fields self)
             ∧ ProductoHardware.tipo_personalizado row
               = ProductoHardware.tipo_personalizado (fields self).
Proof.
  intros Hs. apply ProductoHardware_save_Ok in Hs as (q & _ & _ & _ & -> & ->).
  split; [done|]. eexists _, _. split; [done|]. simpl.
  rewrite lookup_insert_eq. done.
Qed.

(** [form.save()] is the model's [save] of the constructed instance when
    the form has no error, and raises [ValueError] otherwise. *)
Lemma ProductoHardwareForm_save_Ok db self inst db' inst' :
  ProductoHardwareForm.save db self inst = Ok (db', inst') ↔
  errors self = ∅
  ∧ ProductoHardwareForm.validate_unique_fails db
      (mkInstance (pk inst)
         (ProductoHardwareForm.construct_instance (cleaned_data self) (fields inst)))
    = false
  ∧ ProductoHardware_save db
      (mkInstance (pk inst)
         (ProductoHardwareForm.construct_instance (cleaned_data self) (fields inst)))
    = Ok (db', inst').
Proof.
  unfold ProductoHardwareForm.save. cbv zeta.
  destruct (decide (errors self = ∅)) as [He|He].
  - rewrite bool_decide_eq_true_2 by done.
    destruct (ProductoHardwareForm.validate_unique_fails _ _); simpl.
    + split; [done | by intros (_ & ? & _)].
    + split; [done | by intros (_ & _ & ?)].
  - rewrite bool_decide_eq_false_2 by done. simpl.
    split; [done | by intros (? & _)].
Qed.

Lemma ProductoHardware_save_stored db self :
  stored_decimal (ProductoHardware.precio (fields self)) →
  forallb int64 (save_key (productos db) self :: ProductoHardware_ints (fields self)) = true →
  ProductoHardware_check db (save_key (productos db) self) (fields self) = true →
  ProductoHardware_save db self
  = Ok (set_productos db (<[save_key (productos db) self := fields self]> (productos db)),
        mkInstance (Some (save_key (productos db) self)) (fields self)).
Proof.
  intros Hst Hi Hc. apply ProductoHardware_save_Ok.
  exists (ProductoHardware.precio (fields self)).
  assert (Hrow : ProductoHardware.set_precio (fields self)
                   (ProductoHardware.precio (fields self)) = fields self)
    by by destruct (fields self).
  rewrite Hrow. split_and!; [by apply format_number_stored | done..].
Qed.

End tipo_facts.

(** C6. A product of type ['otros'] with an empty custom type fails
    validation: the model's [clean] raises an error keyed by
    [tipo_personalizado], and the form's [clean] adds the same message
    to the errors of that field and to no other field.  The message is
    a non-empty sentence.  With a non-empty custom type both pass, and
    [tipo_seleccion] is the custom type; so it is for 'Router Mesh'. *)
Theorem otros_requiere_tipo_personalizado :
  (∀ p : ProductoHardware.t,
     ProductoHardware.tipo p = "otros" →
     ProductoHardware.tipo_personalizado p = EmptyString →
     ProductoHardware.clean p
     = Raise (ValidationError
                (VEDict [("tipo_personalizado", ProductoHardware.msg_tipo_personalizado)])))
  ∧ (∀ self : form,
       cleaned_data self !! "tipo" = Some (VStr "otros") →
       truthy (cleaned_get (cleaned_data self) "tipo_personalizado") = false →
       errors (ProductoHardwareForm.clean self) !! "tipo_personalizado"
       = Some (default [] (errors self !! "tipo_personalizado")
               ++ [ProductoHardware.msg_tipo_personalizado])
       ∧ ∀ field, field ≠ "tipo_personalizado" →
           errors (ProductoHardwareForm.clean self) !! field = errors self !! field)
  ∧ str_truthy ProductoHardware.msg_tipo_personalizado = true
  ∧ (∀ p : ProductoHardware.t,
       ProductoHardware.tipo p = "otros" →
       ProductoHardware.tipo_personalizado p ≠ EmptyString →
       ProductoHardware.clean p = Ok tt
       ∧ ProductoHardware.tipo_seleccion p = ProductoHardware.tipo_personalizado p)
  ∧ (∀ (self : form) (s : string),
       cleaned_data self !! "tipo" = Some (VStr "otros") →
       cleaned_data self !! "tipo_personalizado" = Some (VStr s) →
       s ≠ EmptyString →
       ProductoHardwareForm.clean self = self)
  ∧ (∀ nombre precio empresa categoria activo,
       let p := ProductoHardware.mk nombre "otros" "Router Mesh" precio empresa categoria activo in
       ProductoHardware.clean p = Ok tt
       ∧ ProductoHardware.tipo_seleccion p = "Router Mesh").
Proof.
  split_and!.
  - intros p Ht Htp. unfold ProductoHardware.clean. by rewrite Ht, Htp.
  - intros self Htipo Htp. rewrite clean_form_otros_vacio by done.
    unfold add_error. simpl. split.
    + by rewrite lookup_insert_eq.
    + intros field Hne. by rewrite lookup_insert_ne.
  - reflexivity.
  - intros p Ht Htp. apply str_truthy_true in Htp.
    unfold ProductoHardware.clean, ProductoHardware.tipo_seleccion.
    by rewrite Ht, Htp.
  - intros self s Htipo Htp Hs. apply clean_form_otros_dado; [done|].
    unfold cleaned_get. rewrite Htp. simpl. by apply str_truthy_true.
  - intros. split; reflexivity.
Qed.

Lemma otros_requiere_tipo_personalizado_witness :
  ProductoHardware.clean
    (ProductoHardware.mk "Nodo" "otros" EmptyString (mkDecimal 500 (-2)) None None true)
  = Raise (ValidationError
             (VEDict [("tipo_personalizado", ProductoHardware.msg_tipo_personalizado)]))
  ∧ errors (ProductoHardwareForm.clean
              (mkForm (<["tipo" := VStr "otros"]>
                         (<["tipo_personalizado" := VStr EmptyString]> ∅)) ∅))
    !! "tipo_personalizado"
    = Some [ProductoHardware.msg_tipo_personalizado]
  ∧ ProductoHardware.tipo_seleccion producto_nodo = "Router Mesh"
  ∧ ProductoHardwareForm.clean
      (mkForm (<["tipo" := VStr "otros"]>
                 (<["tipo_personalizado" := VStr "Router Mesh"]> ∅)) ∅)
    = mkForm (<["tipo" := VStr "otros"]>
                (<["tipo_personalizado" := VStr "Router Mesh"]> ∅)) ∅.
Proof.
  destruct otros_requiere_tipo_personalizado as (Hm & Hf & _ & Hm' & Hf' & _).
  split_and!.
  - apply Hm; reflexivity.
  - destruct (Hf (mkForm (<["tipo" := VStr "otros"]>
                            (<["tipo_personalizado" := VStr EmptyString]> ∅)) ∅))
      as [He _]; [reflexivity | reflexivity |].
    exact He.
  - apply (Hm' producto_nodo); [reflexivity | discriminate].
  - apply (Hf' _ "Router Mesh"); [reflexivity | reflexivity | discriminate].
Defined.

(** C7, as the form and the model do it.  A product of any type but ['otros'] passes the
    model's [clean] whatever its custom type.  The form's [clean] adds
    no error and leaves [cleaned_data] with an empty
    [tipo_personalizado], every other entry as it was; when
    [form.save()] then stores the product, the instance and the stored
    row have the type of the form and an empty custom type.
    [form.save()] stores it when the form has no error, no other product
    has the name with the supplier, and the instance is one the model's
    [save] stores; with an error in the form it raises [ValueError].
    The model's own [save], which the admin site runs, clears nothing:
    the row it stores has the custom type of the instance. *)
Theorem tipo_conocido_limpia_personalizado :
  (∀ p : ProductoHardware.t,
     ProductoHardware.tipo p ≠ "otros" → ProductoHardware.clean p = Ok tt)
  ∧ (∀ (self : form) (t s : string),
       cleaned_data self !! "tipo" = Some (VStr t) →
       t ≠ "otros" →
       cleaned_data self !! "tipo_personalizado" = Some (VStr s) →
       errors (ProductoHardwareForm.clean self) = errors self
       ∧ cleaned_data (ProductoHardwareForm.clean self) !! "tipo_personalizado"
         = Some (VStr EmptyString)
       ∧ (∀ key, key ≠ "tipo_personalizado" →
            cleaned_data (ProductoHardwareForm.clean self) !! key = cleaned_data self !! key)
       ∧ ∀ (db db' : DB) (inst inst' : instance ProductoHardware.t),
           ProductoHardwareForm.save db (ProductoHardwareForm.clean self) inst
           = Ok (db', inst') →
           ProductoHardware.tipo (fields inst') = t
           ∧ ProductoHardware.tipo_personalizado (fields inst') = EmptyString
           ∧ ∃ k row, pk inst' = Some k
                      ∧ productos db' !! k = Some row
                      ∧ ProductoHardware.tipo row = t
                      ∧ ProductoHardware.tipo_personalizado row = EmptyString)
  ∧ (∀ (db : DB) (self : form) (inst : instance ProductoHardware.t),
       errors self = ∅ →
       ProductoHardwareForm.validate_unique_fails db
         (mkInstance (pk inst)
            (ProductoHardwareForm.construct_instance (cleaned_data self) (fields inst)))
       = false →
       ProductoHardwareForm.save db self inst
       = ProductoHardware_save db
           (mkInstance (pk inst)
              (ProductoHardwareForm.construct_instance (cleaned_data self) (fields inst))))
  ∧ (∀ (db : DB) (self : form) (inst : instance ProductoHardware.t),
       errors self ≠ ∅ → ProductoHardwareForm.save db self inst = Raise ValueError)
  ∧ (∀ (db : DB) (self : instance ProductoHardware.t),
       stored_decimal (ProductoHardware.precio (fields self)) →
       forallb int64 (save_key (productos db) self :: ProductoHardware_ints (fields self))
       = true →
       ProductoHardware_check db (save_key (productos db) self) (fields self) = true →
       ProductoHardware_save db self
       = Ok (set_productos db (<[save_key (productos db) self := fields self]> (productos db)),
             mkInstance (Some (save_key (productos db) self)) (fields self)))
  ∧ (∀ (db db' : DB) (self self' : instance ProductoHardware.t),
       ProductoHardware_save db self = Ok (db', self') →
       fields self' = fields self
       ∧ ∃ k row, pk self' = Some k
                  ∧ productos db' !! k = Some row
                  ∧ ProductoHardware.tipo row = ProductoHardware.tipo (fields self)
                  ∧ ProductoHardware.tipo_personalizado row
                    = ProductoHardware.tipo_personalizado (fields self)).
Proof.
  split_and!.
  - intros p Ht. unfold ProductoHardware.clean. by rewrite eqb_not_otros.
  - intros self t s Htipo Ht Htp.
    assert (Hget : cleaned_get (cleaned_data self) "tipo" ≠ VStr "otros").
    { unfold cleaned_get. rewrite Htipo. simpl. congruence. }
    rewrite clean_form_no_otros by done.
    assert (Hcd : ∀ key,
      cleaned_data
        (if truthy (cleaned_get (cleaned_data self) "tipo_personalizado")
         then mkForm (<["tipo_personalizado" := VStr EmptyString]> (cleaned_data self))
                     (errors self)
         else self) !! key
      = if decide (key = "tipo_personalizado") then Some (VStr EmptyString)
        else cleaned_data self !! key).
    { intros key. unfold cleaned_get. rewrite Htp. simpl.
      destruct s as [|c s]; simpl.
      - destruct (decide _) as [->|]; done.
      - destruct (decide _) as [->|].
        + by rewrite lookup_insert_eq.
        + by rewrite lookup_insert_ne. }
    split_and!.
    + by destruct (truthy _).
    + by rewrite Hcd.
    + intros key Hne. rewrite Hcd. by destruct (decide _).
    + intros db db' inst inst' Hs.
      apply ProductoHardwareForm_save_Ok in Hs as (_ & _ & Hs).
      apply ProductoHardware_save_keeps_tipo_personalizado in Hs
        as (Hf & k & row & Hk & Hrow & Hrt & Hrtp).
      unfold ProductoHardwareForm.construct_instance in Hf, Hrt, Hrtp.
      cbn [fields ProductoHardware.tipo ProductoHardware.tipo_personalizado]
        in Hf, Hrt, Hrtp.
      pose proof (Hcd "tipo") as Ht1. rewrite decide_False, Htipo in Ht1 by done.
      pose proof (Hcd "tipo_personalizado") as Ht2. rewrite decide_True in Ht2 by done.
      rewrite Ht1 in Hf, Hrt. rewrite Ht2 in Hf, Hrtp. rewrite Hf. simpl.
      split_and!; [done..|]. by exists k, row.
  - intros db self inst He Hu. unfold ProductoHardwareForm.save. cbv zeta.
    rewrite bool_decide_eq_true_2 by done. by rewrite Hu.
  - intros db self inst He. unfold ProductoHardwareForm.save. cbv zeta.
    by rewrite bool_decide_eq_false_2 by done.
  - apply ProductoHardware_save_stored.
  - apply ProductoHardware_save_keeps_tipo_personalizado.
Qed.

Lemma tipo_conocido_limpia_personalizado_witness :
  ProductoHardware.clean
    (ProductoHardware.mk "ThinkPad" "laptop" "ignored" (mkDecimal 1999 (-2)) None None true)
  = Ok tt
  ∧ cleaned_data
      (ProductoHardwareForm.clean
         (mkForm (<["tipo" := VStr "laptop"]>
                    (<["tipo_personalizado" := VStr "ignored"]> ∅)) ∅))
    !! "tipo_personalizado"
    = Some (VStr EmptyString)
  ∧ errors
      (ProductoHardwareForm.clean
         (mkForm (<["tipo" := VStr "laptop"]>
                    (<["tipo_personalizado" := VStr "ignored"]> ∅)) ∅))
    = ∅
  ∧ ProductoHardware.tipo_personalizado
      (fields (mkInstance (Some 4)
                 (ProductoHardware.mk "Dell" "laptop" EmptyString (mkDecimal 1999 (-2))
                    None None true)))
    = EmptyString
  ∧ ∃ k row,
      Some 4 = Some k
      ∧ productos
          (set_productos db_ejemplo
             (<[4 := ProductoHardware.mk "Dell" "laptop" EmptyString (mkDecimal 1999 (-2))
                       None None true]> (productos db_ejemplo))) !! k
        = Some row
      ∧ ProductoHardware.tipo row = "laptop"
      ∧ ProductoHardware.tipo_personalizado row = EmptyString.
Proof.
  destruct tipo_conocido_limpia_personalizado as (Hm & Hf & _).
  destruct (Hf (mkForm (<["tipo" := VStr "laptop"]>
                          (<["tipo_personalizado" := VStr "ignored"]> ∅)) ∅)
               "laptop" "ignored")
    as (He & Hc & _ & Hs); [reflexivity | discriminate | reflexivity |].
  destruct (Hs db_ejemplo
              (set_productos db_ejemplo
                 (<[4 := ProductoHardware.mk "Dell" "laptop" EmptyString (mkDecimal 1999 (-2))
                           None None true]> (productos db_ejemplo)))
              (mkInstance None
                 (ProductoHardware.mk "Dell" "otros" EmptyString (mkDecimal 1999 (-2))
                    None None true))
              (mkInstance (Some 4)
                 (ProductoHardware.mk "Dell" "laptop" EmptyString (mkDecimal 1999 (-2))
                    None None true)))
    as (_ & Htp & Hrow); [by vm_compute|].
  split_and!.
  - apply Hm. discriminate.
  - exact Hc.
  - exact He.
  - exact Htp.
  - exact Hrow.
Defined.

(** The custom type is not cleared when the product is saved by the
    model's [save], as the admin site does with its own form: a laptop
    with the custom type 'ignored' passes the model's [clean] and is
    stored with it. *)
Lemma tipo_personalizado_conservado :
  ProductoHardware.clean
    (ProductoHardware.mk "Dell" "laptop" "ignored" (mkDecimal 1999 (-2)) None None true)
  = Ok tt
  ∧ ProductoHardware_save db_ejemplo
      (mkInstance None
         (ProductoHardware.mk "Dell" "laptop" "ignored" (mkDecimal 1999 (-2)) None None true))
    = Ok (set_productos db_ejemplo
            (<[4 := ProductoHardware.mk "Dell" "laptop" "ignored" (mkDecimal 1999 (-2))
                      None None true]> (productos db_ejemplo)),
          mkInstance (Some 4)
            (ProductoHardware.mk "Dell" "laptop" "ignored" (mkDecimal 1999 (-2))
               None None true))
  ∧ ProductoHardware.tipo_personalizado
      (ProductoHardware.mk "Dell" "laptop" "ignored" (mkDecimal 1999 (-2)) None None true)
    ≠ EmptyString.
Proof. split_and!; [by vm_compute.. | discriminate]. Qed.

(** C10. For a product whose type is not ['otros'], [tipo_seleccion] is
    [get_tipo_display], the same whatever custom type is stored, and
    for a type of the choice list it is the label listed there.  For the
    type ['otros'] and an empty custom type it is the label 'Otros'. *)
Theorem tipo_seleccion_etiqueta :
  (∀ nombre t tp tp' precio empresa categoria activo,
     t ≠ "otros" →
     ProductoHardware.tipo_seleccion
       (ProductoHardware.mk nombre t tp precio empresa categoria activo)
     = ProductoHardware.get_tipo_display
         (ProductoHardware.mk nombre t tp precio empresa categoria activo)
     ∧ ProductoHardware.tipo_seleccion
         (ProductoHardware.mk nombre t tp precio empresa categoria activo)
       = ProductoHardware.tipo_seleccion
           (ProductoHardware.mk nombre t tp' precio empresa categoria activo))
  ∧ (∀ (p : ProductoHardware.t) (label : string),
       (ProductoHardware.tipo p, label) ∈ ProductoHardware.TIPO_PRODUCTO_CHOICES →
       ProductoHardware.tipo p ≠ "otros" →
       ProductoHardware.tipo_seleccion p = label)
  ∧ (∀ p : ProductoHardware.t,
       ProductoHardware.tipo p = "otros" →
       ProductoHardware.tipo_personalizado p = EmptyString →
       ProductoHardware.tipo_seleccion p = "Otros").
Proof.
  split_and!.
  - intros n t tp tp' pr e c a Ht. unfold ProductoHardware.tipo_seleccion. simpl.
    by rewrite eqb_not_otros.
  - intros p label Hin Ht. unfold ProductoHardware.tipo_seleccion.
    rewrite eqb_not_otros by done. simpl.
    unfold ProductoHardware.get_tipo_display.
    unfold ProductoHardware.TIPO_PRODUCTO_CHOICES in Hin.
    repeat (apply elem_of_cons in Hin as [Hin|Hin];
            [injection Hin as Htipo ->; rewrite Htipo; by vm_compute|]).
    by apply elem_of_nil in Hin.
  - intros p Ht Htp. unfold ProductoHardware.tipo_seleccion.
    rewrite Ht, Htp. simpl. unfold ProductoHardware.get_tipo_display.
    rewrite Ht. by vm_compute.
Qed.

Lemma tipo_seleccion_etiqueta_witness :
  ProductoHardware.tipo_seleccion
    (ProductoHardware.mk "ThinkPad" "laptop" "ignored" (mkDecimal 1999 (-2)) None None true)
  = "Laptop"
  ∧ ProductoHardware.tipo_seleccion
      (ProductoHardware.mk "Nodo" "otros" EmptyString (mkDecimal 500 (-2)) None None true)
    = "Otros".
Proof.
  destruct tipo_seleccion_etiqueta as (_ & Hl & Ho). split.
  - apply Hl; [|discriminate]. vm_compute. do 7 right. left.
  - apply Ho; reflexivity.
Defined.

(** ** The product listing *)

Section listing_facts.

Lemma filter_none {A} (P : A → Prop) `{∀ x, Decision (P x)} (l : list A) :
  (∀ x, x ∈ l → ¬ P x) → filter P l = [].
Proof.
  induction l as [|x l IH]; intros Hl; [done|].
  rewrite filter_cons_False by (apply Hl; left).
  apply IH. intros y Hy. apply Hl. by right.
Qed.

(** In a duplicate-free list of rows where the key [k] has one possible
    row, selecting by that key yields this row, once. *)
Lemma filter_key_singleton (l : list producto_row) k p :
  NoDup l → (k, p) ∈ l → (∀ p', (k, p') ∈ l → p' = p) →
  filter (λ r, r.1 = k) l = [(k, p)].
Proof.
  induction l as [|[k' p'] l IH]; intros Hnd Hin Huniq.
  - by apply elem_of_nil in Hin.
  - apply NoDup_cons in Hnd as [Hnotin Hnd].
    destruct (decide (k' = k)) as [->|Hne].
    + rewrite filter_cons_True by done.
      assert (p' = p) as -> by (apply Huniq; left).
      f_equal. apply filter_none. intros [k2 p2] Hx Hk. simpl in Hk. subst k2.
      assert (p2 = p) as -> by (apply Huniq; by right). done.
    + rewrite filter_cons_False by done.
      apply elem_of_cons in Hin as [Heq|Hin]; [congruence|].
      apply IH; [done..|]. intros p2 Hp2. apply Huniq. by right.
Qed.

Lemma join_caracteristicas_fst db r jr : jr ∈ join_caracteristicas db r → jr.1 = r.
Proof.
  unfold join_caracteristicas.
  destruct (filter _ _) as [|c cs].
  - by intros ->%list_elem_of_singleton.
  - by intros (c' & -> & _)%list_elem_of_fmap.
Qed.

Lemma join_caracteristicas_elem db r kc c :
  caracteristicas db !! kc = Some c →
  CaracteristicaProductoHardware.producto_hardware c = r.1 →
  (r, Some c) ∈ join_caracteristicas db r.
Proof.
  intros Hc Hr. unfold join_caracteristicas.
  assert (Hin : c ∈ filter (λ c, CaracteristicaProductoHardware.producto_hardware c = r.1)
                      (map_to_list (caracteristicas db)).*2).
  { apply list_elem_of_filter. split; [done|].
    apply list_elem_of_fmap. exists (kc, c). split; [done|].
    by apply elem_of_map_to_list. }
  destruct (filter _ _) as [|c0 cs].
  - by apply elem_of_nil in Hin.
  - apply list_elem_of_fmap. by exists c.
Qed.

Lemma search_filter_NoDup db s qs : NoDup (search_filter db s qs).
Proof. apply NoDup_remove_dups. Qed.

Lemma search_filter_subseteq db s qs r : r ∈ search_filter db s qs → r ∈ qs.
Proof.
  unfold search_filter. rewrite elem_of_remove_dups.
  intros (jr & -> & Hjr)%list_elem_of_fmap.
  apply list_elem_of_filter in Hjr as [_ Hjr].
  apply list_elem_of_bind in Hjr as (r' & Hjr & Hr').
  apply join_caracteristicas_fst in Hjr. by rewrite Hjr.
Qed.

(** A row with a characteristic whose attribute or value contains the
    text passes the search. *)
Lemma search_filter_caracteristica db s qs r kc c :
  r ∈ qs →
  caracteristicas db !! kc = Some c →
  CaracteristicaProductoHardware.producto_hardware c = r.1 →
  icontains (CaracteristicaProductoHardware.attr c) s
  || icontains (CaracteristicaProductoHardware.valor c) s = true →
  r ∈ search_filter db s qs.
Proof.
  intros Hr Hc Hpk Hmatch. unfold search_filter. rewrite elem_of_remove_dups.
  apply list_elem_of_fmap. exists (r, Some c). split; [done|].
  apply list_elem_of_filter. split.
  - unfold search_Q. simpl. rewrite Hmatch. apply orb_true_r.
  - apply list_elem_of_bind. exists r. split; [|done].
    by eapply join_caracteristicas_elem.
Qed.

(** An optional filter keeps a duplicate-free list duplicate-free, adds
    no row, and keeps the rows that satisfy it. *)
Lemma optional_filter_spec {A} (P : A → Prop) `{∀ x, Decision (P x)} (b : bool) (l : list A) :
  let l' := if b then filter P l else l in
  (NoDup l → NoDup l')
  ∧ (∀ x, x ∈ l' → x ∈ l)
  ∧ (∀ x, x ∈ l → (b = true → P x) → x ∈ l').
Proof.
  destruct b; simpl; split_and!; try done.
  - apply NoDup_filter.
  - intros x Hx. by apply list_elem_of_filter in Hx as [_ Hx].
  - intros x Hx HP. apply list_elem_of_filter. auto.
Qed.

Lemma listing_with_optional_filter db r (P : producto_row → Prop)
    `{∀ x, Decision (P x)} (b : bool) qs :
  listing_with db r qs → (b = true → P r) →
  listing_with db r (if b then filter P qs else qs).
Proof.
  intros (Hnd & Hsub & Hin) HP.
  destruct (optional_filter_spec P b qs) as (Hnd' & Hsub' & Hin').
  split_and!; [by apply Hnd' | | by apply Hin'].
  intros x Hx. by apply Hsub, Hsub'.
Qed.

Lemma listing_with_search_filter db r s qs kc c :
  listing_with db r qs →
  caracteristicas db !! kc = Some c →
  CaracteristicaProductoHardware.producto_hardware c = r.1 →
  icontains (CaracteristicaProductoHardware.attr c) s
  || icontains (CaracteristicaProductoHardware.valor c) s = true →
  listing_with db r (search_filter db s qs).
Proof.
  intros (Hnd & Hsub & Hin) Hc Hr Hmatch. split_and!.
  - apply search_filter_NoDup.
  - intros x Hx. by apply Hsub, (search_filter_subseteq db s).
  - by eapply search_filter_caracteristica.
Qed.

Lemma listing_with_sorted db r qs :
  listing_with db r qs → listing_with db r (merge_sort producto_ordering qs).
Proof.
  intros (Hnd & Hsub & Hin). split_and!.
  - by rewrite merge_sort_Permutation.
  - intros x. rewrite merge_sort_Permutation. apply Hsub.
  - by rewrite merge_sort_Permutation.
Qed.

Lemma listing_with_once db k p qs :
  productos db !! k = Some p →
  listing_with db (k, p) qs →
  filter (λ r, r.1 = k) qs = [(k, p)].
Proof.
  intros Hp (Hnd & Hsub & Hin). apply filter_key_singleton; [done..|].
  intros p' Hp'. apply Hsub, elem_of_map_to_list in Hp'. congruence.
Qed.

Lemma listing_with_activos db k p :
  productos db !! k = Some p →
  ProductoHardware.activo p = true →
  listing_with db (k, p)
    (filter (λ r, ProductoHardware.activo r.2 = true) (map_to_list (productos db))).
Proof.
  intros Hp Hact. split_and!.
  - apply NoDup_filter, NoDup_map_to_list.
  - intros x Hx. by apply list_elem_of_filter in Hx as [_ Hx].
  - apply list_elem_of_filter. split; [done|]. by apply elem_of_map_to_list.
Qed.

(** Whatever the request, the listing shows rows of the product table
    that are on sale. *)
Lemma get_queryset_activos int_of_str db GET rows r :
  ProductoHardwareListView.get_queryset int_of_str db GET = Ok rows →
  r ∈ rows →
  productos db !! r.1 = Some r.2 ∧ ProductoHardware.activo r.2 = true.
Proof.
  unfold ProductoHardwareListView.get_queryset.
  pose (S := λ qs : list producto_row,
          ∀ x, x ∈ qs → productos db !! x.1 = Some x.2 ∧ ProductoHardware.activo x.2 = true).
  assert (Sfilter : ∀ (P : producto_row → Prop) (Hdec : ∀ x, Decision (P x)) qs,
            S qs → S (filter P qs)).
  { intros P Hdec qs HS x Hx. apply HS. by apply list_elem_of_filter in Hx as [_ Hx]. }
  assert (S0 : S (filter (λ r, ProductoHardware.activo r.2 = true)
                         (map_to_list (productos db)))).
  { intros [k p] Hx. apply list_elem_of_filter in Hx as [Hact Hx].
    by apply elem_of_map_to_list in Hx. }
  assert (S1 : S (if str_truthy (ProductoHardwareListView.GET_get GET "tipo")
                  then filter (λ r : producto_row,
                                 ProductoHardware.tipo r.2
                                 = ProductoHardwareListView.GET_get GET "tipo")
                              (filter (λ r, ProductoHardware.activo r.2 = true)
                                      (map_to_list (productos db)))
                  else filter (λ r, ProductoHardware.activo r.2 = true)
                              (map_to_list (productos db)))).
  { destruct (str_truthy _); auto. }
  set (q1 := if str_truthy (ProductoHardwareListView.GET_get GET "tipo") then _ else _) in *.
  clearbody q1. clear S0.
  intros Hq Hr. revert Hq.
  destruct (str_truthy (ProductoHardwareListView.GET_get GET "categoria"));
    [destruct (ProductoHardwareListView.to_pk int_of_str
                 (ProductoHardwareListView.GET_get GET "categoria")) as [kcat|]|];
    cbn [mbind result_bind]; try done;
    (destruct (str_truthy (ProductoHardwareListView.GET_get GET "empresa"));
     [destruct (ProductoHardwareListView.to_pk int_of_str
                  (ProductoHardwareListView.GET_get GET "empresa")) as [kemp|]|]);
    cbn [mbind result_bind]; try done;
    intros [= Hq]; subst rows; rewrite merge_sort_Permutation in Hr;
    (destruct (str_truthy (ProductoHardwareListView.GET_get GET "search"));
     [apply search_filter_subseteq in Hr|]);
    (eapply (λ qs (HS : S qs), HS r); [|exact Hr]);
    repeat apply Sfilter; exact S1.
Qed.

End listing_facts.

(** C8, as the listing does it.  The listing starts from the products on
    sale.  A product on sale that passes the type, category and supplier
    filters of the request, as far as the request gives them, and that
    has a characteristic whose attribute or value contains the search
    text, whatever the case of its letters, is in the listing, and it is
    there once, however many of its characteristics match.  Whether the
    name contains the text does not matter. *)
Theorem busqueda_por_caracteristica (int_of_str : string → option Z) (db : DB)
    (GET : gmap string string) (k : Z) (p : ProductoHardware.t)
    (kc : Z) (c : CaracteristicaProductoHardware.t) :
  productos db !! k = Some p →
  ProductoHardware.activo p = true →
  (str_truthy (ProductoHardwareListView.GET_get GET "tipo") = true →
   ProductoHardware.tipo p = ProductoHardwareListView.GET_get GET "tipo") →
  (str_truthy (ProductoHardwareListView.GET_get GET "categoria") = true →
   ∃ id, int_of_str (ProductoHardwareListView.GET_get GET "categoria") = Some id
         ∧ ProductoHardware.categoria p = Some id) →
  (str_truthy (ProductoHardwareListView.GET_get GET "empresa") = true →
   ∃ id, int_of_str (ProductoHardwareListView.GET_get GET "empresa") = Some id
         ∧ ProductoHardware.empresa_proveedora p = Some id) →
  caracteristicas db !! kc = Some c →
  CaracteristicaProductoHardware.producto_hardware c = k →
  icontains (CaracteristicaProductoHardware.attr c) (ProductoHardwareListView.GET_get GET "search")
  || icontains (CaracteristicaProductoHardware.valor c) (ProductoHardwareListView.GET_get GET "search")
  = true →
  ∃ rows,
    ProductoHardwareListView.get_queryset int_of_str db GET = Ok rows
    ∧ filter (λ r, r.1 = k) rows = [(k, p)].
Proof.
  intros Hp Hact Htipo Hcat Hemp Hc Hck Hmatch.
  unfold ProductoHardwareListView.get_queryset.
  pose proof (listing_with_activos db k p Hp Hact) as I0.
  pose proof (listing_with_optional_filter db (k, p)
                (λ r, ProductoHardware.tipo r.2 = ProductoHardwareListView.GET_get GET "tipo")
                _ _ I0 Htipo) as I1.
  set (q1 := if str_truthy (ProductoHardwareListView.GET_get GET "tipo") then _ else _) in *.
  clearbody q1. clear I0.
  assert (∃ q2,
    (if str_truthy (ProductoHardwareListView.GET_get GET "categoria")
     then ProductoHardwareListView.to_pk int_of_str
            (ProductoHardwareListView.GET_get GET "categoria")
          ≫= λ k0, Ok (filter (λ r : producto_row, ProductoHardware.categoria r.2 = Some k0) q1)
     else Ok q1) = Ok q2 ∧ listing_with db (k, p) q2) as (q2 & -> & I2).
  { destruct (str_truthy (ProductoHardwareListView.GET_get GET "categoria")) eqn:E;
      [|by eexists].
    destruct (Hcat eq_refl) as (id & Hid & Hcatp).
    unfold ProductoHardwareListView.to_pk. rewrite Hid. eexists. split; [reflexivity|].
    by apply (listing_with_optional_filter db (k, p) _ true). }
  cbn [mbind result_bind].
  assert (∃ q3,
    (if str_truthy (ProductoHardwareListView.GET_get GET "empresa")
     then ProductoHardwareListView.to_pk int_of_str
            (ProductoHardwareListView.GET_get GET "empresa")
          ≫= λ k0, Ok (filter (λ r : producto_row,
                                 ProductoHardware.empresa_proveedora r.2 = Some k0) q2)
     else Ok q2) = Ok q3 ∧ listing_with db (k, p) q3) as (q3 & -> & I3).
  { destruct (str_truthy (ProductoHardwareListView.GET_get GET "empresa")) eqn:E;
      [|by eexists].
    destruct (Hemp eq_refl) as (id & Hid & Hempp).
    unfold ProductoHardwareListView.to_pk. rewrite Hid. eexists. split; [reflexivity|].
    by apply (listing_with_optional_filter db (k, p) _ true). }
  cbn [mbind result_bind].
  eexists. split; [reflexivity|].
  apply (listing_with_once db); [done|]. apply listing_with_sorted.
  destruct (str_truthy (ProductoHardwareListView.GET_get GET "search")); [|done].
  by eapply listing_with_search_filter.
Qed.

Lemma busqueda_por_caracteristica_witness :
  ∃ rows,
    ProductoHardwareListView.get_queryset (λ _, None) db_ejemplo (<["search" := "8gb"]> ∅)
    = Ok rows
    ∧ filter (λ r, r.1 = 1) rows = [(1, producto_thinkpad)].
Proof.
  apply (busqueda_por_caracteristica (λ _, None) db_ejemplo (<["search" := "8gb"]> ∅)
           1 producto_thinkpad 2 (CaracteristicaProductoHardware.mk "Cache" "SSD 8gb" 1));
    try reflexivity; discriminate.
Defined.

(** The listing leaves out a product withdrawn from sale, also when one
    of its characteristics contains the search text and its name does
    not: product 3 of the sample data, searched by '8gb'. *)
Lemma producto_retirado_no_listado :
  productos db_ejemplo !! 3 = Some producto_retirado
  ∧ icontains (ProductoHardware.nombre producto_retirado) "8gb" = false
  ∧ (∃ c, caracteristicas db_ejemplo !! 3 = Some c
          ∧ CaracteristicaProductoHardware.producto_hardware c = 3
          ∧ icontains (CaracteristicaProductoHardware.valor c) "8gb" = true)
  ∧ ∀ int_of_str,
      ProductoHardwareListView.get_queryset int_of_str db_ejemplo (<["search" := "8gb"]> ∅)
      = Ok [(1, producto_thinkpad)]
      ∧ filter (λ r : producto_row, r.1 = 3) [(1, producto_thinkpad)] = [].
Proof.
  split_and!; try reflexivity.
  - eexists. split_and!; reflexivity.
  - intros int_of_str. split; by vm_compute.
Qed.

(** * Further properties *)

(** ** The product listing, in full *)

Section listing_more.




Lemma optional_filter_elem {A} (P : A → Prop) `{∀ x, Decision (P x)} (b : bool) (l : list A) x :
  x ∈ (if b then filter P l else l) ↔ x ∈ l ∧ (b = true → P x).
Proof.
  destruct b.
  - rewrite list_elem_of_filter. split; [intros [HP Hx]; auto | intros [Hx HP]; auto].
  - split; [intros Hx; split; [done|discriminate] | by intros [Hx _]].
Qed.

Lemma producto_ordering_total : Total producto_ordering.
Proof.
  intros a b. unfold producto_ordering.
  rewrite (String.compare_antisym (ProductoHardware.tipo a.2)).
  destruct (String.compare (ProductoHardware.tipo b.2) (ProductoHardware.tipo a.2)); simpl; auto.
  destruct (String.leb_total (ProductoHardware.nombre a.2) (ProductoHardware.nombre b.2))
    as [->| ->]; auto.
Qed.

(** The listing when the keys of the request, if given, read as
    numbers: every stage is a filter that is skipped for an empty
    parameter. *)
Lemma get_queryset_eq (int_of_str : string → option Z) (db : DB)
    (GET : gmap string string) (kcat kemp : Z) :
  (str_truthy (ProductoHardwareListView.GET_get GET "categoria") = true →
   int_of_str (ProductoHardwareListView.GET_get GET "categoria") = Some kcat) →
  (str_truthy (ProductoHardwareListView.GET_get GET "empresa") = true →
   int_of_str (ProductoHardwareListView.GET_get GET "empresa") = Some kemp) →
  ProductoHardwareListView.get_queryset int_of_str db GET
  = Ok (merge_sort producto_ordering
          (let q0 := filter (λ r, ProductoHardware.activo r.2 = true)
                            (map_to_list (productos db)) in
           let q1 := if str_truthy (ProductoHardwareListView.GET_get GET "tipo")
                     then filter (λ r : producto_row,
                                    ProductoHardware.tipo r.2
                                    = ProductoHardwareListView.GET_get GET "tipo") q0
                     else q0 in
           let q2 := if str_truthy (ProductoHardwareListView.GET_get GET "categoria")
                     then filter (λ r : producto_row,
                                    ProductoHardware.categoria r.2 = Some kcat) q1
                     else q1 in
           let q3 := if str_truthy (ProductoHardwareListView.GET_get GET "empresa")
                     then filter (λ r : producto_row,
                                    ProductoHardware.empresa_proveedora r.2 = Some kemp) q2
                     else q2 in
           if str_truthy (ProductoHardwareListView.GET_get GET "search")
           then search_filter db (ProductoHardwareListView.GET_get GET "search") q3
           else q3)).
Proof.
  intros Hcat Hemp. unfold ProductoHardwareListView.get_queryset, ProductoHardwareListView.to_pk.
  destruct (str_truthy (ProductoHardwareListView.GET_get GET "categoria"));
    [rewrite (Hcat eq_refl)|];
    (destruct (str_truthy (ProductoHardwareListView.GET_get GET "empresa"));
     [rewrite (Hemp eq_refl)|]);
    reflexivity.
Qed.

(** A key that does not read as a number stops the listing. *)
Lemma get_queryset_ValueError (int_of_str : string → option Z) (db : DB)
    (GET : gmap string string) :
  (str_truthy (ProductoHardwareListView.GET_get GET "categoria") = true
   ∧ int_of_str (ProductoHardwareListView.GET_get GET "categoria") = None)
  ∨ (str_truthy (ProductoHardwareListView.GET_get GET "empresa") = true
     ∧ int_of_str (ProductoHardwareListView.GET_get GET "empresa") = None) →
  ProductoHardwareListView.get_queryset int_of_str db GET = Raise ValueError.
Proof.
  unfold ProductoHardwareListView.get_queryset, ProductoHardwareListView.to_pk.
  intros [[Hc Hn]|[Hc Hn]]; rewrite ?Hc, ?Hn; [reflexivity|].
  destruct (str_truthy (ProductoHardwareListView.GET_get GET "categoria"));
    [destruct (int_of_str (ProductoHardwareListView.GET_get GET "categoria"))|];
    reflexivity.
Qed.

Lemma get_queryset_cases (int_of_str : string → option Z) (db : DB)
    (GET : gmap string string) :
  ((str_truthy (ProductoHardwareListView.GET_get GET "categoria") = true
    ∧ int_of_str (ProductoHardwareListView.GET_get GET "categoria") = None)
   ∨ (str_truthy (ProductoHardwareListView.GET_get GET "empresa") = true
      ∧ int_of_str (ProductoHardwareListView.GET_get GET "empresa") = None))
  ∨ ∃ kcat kemp,
      (str_truthy (ProductoHardwareListView.GET_get GET "categoria") = true →
       int_of_str (ProductoHardwareListView.GET_get GET "categoria") = Some kcat)
      ∧ (str_truthy (ProductoHardwareListView.GET_get GET "empresa") = true →
         int_of_str (ProductoHardwareListView.GET_get GET "empresa") = Some kemp).
Proof.
  destruct (str_truthy (ProductoHardwareListView.GET_get GET "categoria")) eqn:Ec;
    destruct (int_of_str (ProductoHardwareListView.GET_get GET "categoria")) as [kcat|] eqn:Ic;
    destruct (str_truthy (ProductoHardwareListView.GET_get GET "empresa")) eqn:Ee;
    destruct (int_of_str (ProductoHardwareListView.GET_get GET "empresa")) as [kemp|] eqn:Ie;
    try (left; by auto);
    right;
    first [ by exists kcat, kemp | by exists kcat, 0 | by exists 0, kemp | by exists 0, 0 ].
Qed.

End listing_more.





(** X3. The product listing comes ordered by type and then name, and no
    product is in it twice. *)
Theorem get_queryset_sorted_nodup (int_of_str : string → option Z) (db : DB)
    (GET : gmap string string) (rows : list producto_row) :
  ProductoHardwareListView.get_queryset int_of_str db GET = Ok rows →
  Sorted producto_ordering rows ∧ NoDup rows.*1.
Proof.
  intros Hq. split.
  - destruct (get_queryset_cases int_of_str db GET) as [Hbad|(kcat & kemp & Hc & He)].
    { by rewrite (get_queryset_ValueError _ _ _ Hbad) in Hq. }
    rewrite (get_queryset_eq _ _ _ kcat kemp Hc He) in Hq. injection Hq as <-.
    apply Sorted_merge_sort, producto_ordering_total.
  - assert (Hin : ∀ r, r ∈ rows → productos db !! r.1 = Some r.2).
    { intros r Hr. by destruct (get_queryset_activos _ _ _ _ r Hq Hr). }
    apply NoDup_fmap_2_strong.
    + intros [k1 p1] [k2 p2] H1%Hin H2%Hin Hk. simpl in *. subst. congruence.
    + destruct (get_queryset_cases int_of_str db GET) as [Hbad|(kcat & kemp & Hc & He)].
      { by rewrite (get_queryset_ValueError _ _ _ Hbad) in Hq. }
      rewrite (get_queryset_eq _ _ _ kcat kemp Hc He) in Hq. injection Hq as <-.
      rewrite merge_sort_Permutation. cbv zeta.
      destruct (str_truthy (ProductoHardwareListView.GET_get GET "search"));
        [apply search_filter_NoDup|].
      repeat match goal with
             | |- NoDup (if ?b then _ else _) => destruct b
             | |- NoDup (filter _ _) => apply NoDup_filter
             end; apply NoDup_map_to_list.
Qed.

Lemma get_queryset_sorted_nodup_witness :
  Sorted producto_ordering [(1, producto_thinkpad); (2, producto_nodo)]
  ∧ NoDup [(1, producto_thinkpad); (2, producto_nodo)].*1.
Proof.
  apply (get_queryset_sorted_nodup (λ _, None) db_ejemplo ∅).
  by vm_compute.
Defined.

(** ** Saving an order line, in full *)

Section save_more.

Lemma opt_dec_truthy_Some p : coef p ≠ 0 → opt_dec_truthy (Some p) = true.
Proof.
  intros Hp. unfold opt_dec_truthy, dec_truthy.
  by destruct (Z.eqb_spec (coef p) 0).
Qed.



(** The failures of saving a line. *)
Lemma ItemProductoPedido_save_Raise db self e :
  ItemProductoPedido_save db self = Raise e →
  (e = DoesNotExist
   ∧ opt_dec_truthy (ItemProductoPedido.precio_unitario (fields self)) = false
   ∧ productos db !! ItemProductoPedido.producto (fields self) = None)
  ∨ e = InvalidOperation ∨ e = OverflowError ∨ e = IntegrityError.
Proof.
  unfold ItemProductoPedido_save.
  destruct (opt_dec_truthy (ItemProductoPedido.precio_unitario (fields self))) eqn:Ht;
    cbn [negb].
  - cbn [mbind result_bind].
    destruct (Model_save _ _ _ _ _) as [r|e'] eqn:Hs; cbn [mbind result_bind]; [done|].
    intros [= <-]. right.
    apply Model_save_Raise in Hs as [Hs|[->| ->]]; [|auto..].
    unfold ItemProductoPedido_prep in Hs.
    destruct (ItemProductoPedido.precio_unitario (fields self)) as [p|]; [|done].
    destruct (format_number 10 2 p) eqn:Hq; [done|].
    apply format_number_Raise in Hq. cbn in Hs. injection Hs as <-. auto.
  - unfold related.
    destruct (productos db !! ItemProductoPedido.producto (fields self)) as [prod|] eqn:Hp;
      cbn [mbind result_bind].
    + destruct (Model_save _ _ _ _ _) as [r|e'] eqn:Hs; cbn [mbind result_bind]; [done|].
      intros [= <-]. right.
      apply Model_save_Raise in Hs as [Hs|[->| ->]]; [|auto..].
      unfold ItemProductoPedido_prep in Hs. cbn in Hs.
      destruct (format_number 10 2 (ProductoHardware.precio prod)) eqn:Hq; [done|].
      apply format_number_Raise in Hq. cbn in Hs. injection Hs as <-. auto.
    + intros [= <-]. by left.
Qed.

Lemma ItemServicioPedido_save_Raise db self e :
  ItemServicioPedido_save db self = Raise e →
  (e = DoesNotExist
   ∧ opt_dec_truthy (ItemServicioPedido.precio_unitario (fields self)) = false
   ∧ servicios db !! ItemServicioPedido.servicio (fields self) = None)
  ∨ e = InvalidOperation ∨ e = OverflowError ∨ e = IntegrityError.
Proof.
  unfold ItemServicioPedido_save.
  destruct (opt_dec_truthy (ItemServicioPedido.precio_unitario (fields self))) eqn:Ht;
    cbn [negb].
  - cbn [mbind result_bind].
    destruct (Model_save _ _ _ _ _) as [r|e'] eqn:Hs; cbn [mbind result_bind]; [done|].
    intros [= <-]. right.
    apply Model_save_Raise in Hs as [Hs|[->| ->]]; [|auto..].
    unfold ItemServicioPedido_prep in Hs.
    destruct (ItemServicioPedido.precio_unitario (fields self)) as [p|]; [|done].
    destruct (format_number 10 2 p) eqn:Hq; [done|].
    apply format_number_Raise in Hq. cbn in Hs. injection Hs as <-. auto.
  - unfold related.
    destruct (servicios db !! ItemServicioPedido.servicio (fields self)) as [serv|] eqn:Hp;
      cbn [mbind result_bind].
    + destruct (Model_save _ _ _ _ _) as [r|e'] eqn:Hs; cbn [mbind result_bind]; [done|].
      intros [= <-]. right.
      apply Model_save_Raise in Hs as [Hs|[->| ->]]; [|auto..].
      unfold ItemServicioPedido_prep in Hs. cbn in Hs.
      destruct (format_number 10 2 (ServicioInformatico.precio serv)) eqn:Hq; [done|].
      apply format_number_Raise in Hq. cbn in Hs. injection Hs as <-. auto.
    + intros [= <-]. by left.
Qed.

Lemma ItemProductoPedido_save_DoesNotExist db self :
  opt_dec_truthy (ItemProductoPedido.precio_unitario (fields self)) = false →
  productos db !! ItemProductoPedido.producto (fields self) = None →
  ItemProductoPedido_save db self = Raise DoesNotExist.
Proof. intros Ht Hp. unfold ItemProductoPedido_save, related. by rewrite Ht, Hp. Qed.

Lemma ItemServicioPedido_save_DoesNotExist db self :
  opt_dec_truthy (ItemServicioPedido.precio_unitario (fields self)) = false →
  servicios db !! ItemServicioPedido.servicio (fields self) = None →
  ItemServicioPedido_save db self = Raise DoesNotExist.
Proof. intros Ht Hp. unfold ItemServicioPedido_save, related. by rewrite Ht, Hp. Qed.

(** A line with a price of its own: what a successful save does, and
    when it succeeds. *)
Lemma ItemProductoPedido_save_truthy_inv db db' self self' p :
  ItemProductoPedido.precio_unitario (fields self) = Some p →
  coef p ≠ 0 →
  ItemProductoPedido_save db self = Ok (db', self') →
  ∃ k q,
    self' = mkInstance (Some k) (fields self)
    ∧ format_number 10 2 p = Ok q
    ∧ items_productos db' !! k
      = Some (ItemProductoPedido.set_precio_unitario (fields self) q)
    ∧ (stored_decimal p → q = p)
    ∧ is_Some (productos db !! ItemProductoPedido.producto (fields self)).
Proof.
  intros Hp Hnz Hs.
  apply ItemProductoPedido_save_Ok in Hs as (p' & q & Hp' & Hq & _ & Hc & -> & ->).
  rewrite Hp, opt_dec_truthy_Some in Hp' by done. injection Hp' as <-.
  exists (save_key (items_productos db) self), q. split_and!.
  - f_equal. destruct (fields self); simpl in *; by subst.
  - done.
  - simpl. by rewrite lookup_insert_eq.
  - intros Hst. rewrite (format_number_stored _ Hst) in Hq. by injection Hq.
  - by apply bool_decide_eq_true in Hc as (_ & _ & _ & _ & ?).
Qed.

Lemma ItemServicioPedido_save_truthy_inv db db' self self' p :
  ItemServicioPedido.precio_unitario (fields self) = Some p →
  coef p ≠ 0 →
  ItemServicioPedido_save db self = Ok (db', self') →
  ∃ k q,
    self' = mkInstance (Some k) (fields self)
    ∧ format_number 10 2 p = Ok q
    ∧ items_servicios db' !! k
      = Some (ItemServicioPedido.set_precio_unitario (fields self) q)
    ∧ (stored_decimal p → q = p)
    ∧ is_Some (servicios db !! ItemServicioPedido.servicio (fields self)).
Proof.
  intros Hp Hnz Hs.
  apply ItemServicioPedido_save_Ok in Hs as (p' & q & Hp' & Hq & _ & Hc & -> & ->).
  rewrite Hp, opt_dec_truthy_Some in Hp' by done. injection Hp' as <-.
  exists (save_key (items_servicios db) self), q. split_and!.
  - f_equal. destruct (fields self); simpl in *; by subst.
  - done.
  - simpl. by rewrite lookup_insert_eq.
  - intros Hst. rewrite (format_number_stored _ Hst) in Hq. by injection Hq.
  - by apply bool_decide_eq_true in Hc as (_ & _ & _ & _ & ?).
Qed.

Lemma ItemProductoPedido_save_truthy db self p :
  ItemProductoPedido.precio_unitario (fields self) = Some p →
  coef p ≠ 0 →
  stored_decimal p →
  forallb int64 (save_key (items_productos db) self :: ItemProductoPedido_ints (fields self))
  = true →
  ItemProductoPedido_check db (save_key (items_productos db) self) (fields self) = true →
  ItemProductoPedido_save db self
  = Ok (set_items_productos db
          (<[save_key (items_productos db) self := fields self]> (items_productos db)),
        mkInstance (Some (save_key (items_productos db) self)) (fields self)).
Proof.
  intros Hp Hnz Hst Hi Hc. apply ItemProductoPedido_save_Ok. exists p, p.
  rewrite Hp, opt_dec_truthy_Some by done.
  assert (Hrow : ItemProductoPedido.set_precio_unitario (fields self) p = fields self)
    by (destruct (fields self); simpl in *; by subst).
  rewrite Hrow. split_and!; [done | by apply format_number_stored | done..].
Qed.

Lemma ItemServicioPedido_save_truthy db self p :
  ItemServicioPedido.precio_unitario (fields self) = Some p →
  coef p ≠ 0 →
  stored_decimal p →
  forallb int64 (save_key (items_servicios db) self :: ItemServicioPedido_ints (fields self))
  = true →
  ItemServicioPedido_check db (save_key (items_servicios db) self) (fields self) = true →
  ItemServicioPedido_save db self
  = Ok (set_items_servicios db
          (<[save_key (items_servicios db) self := fields self]> (items_servicios db)),
        mkInstance (Some (save_key (items_servicios db) self)) (fields self)).
Proof.
  intros Hp Hnz Hst Hi Hc. apply ItemServicioPedido_save_Ok. exists p, p.
  rewrite Hp, opt_dec_truthy_Some by done.
  assert (Hrow : ItemServicioPedido.set_precio_unitario (fields self) p = fields self)
    by (destruct (fields self); simpl in *; by subst).
  rewrite Hrow. split_and!; [done | by apply format_number_stored | done..].
Qed.

(** A pair that another row of the table holds is not stored again. *)
Lemma ItemProductoPedido_save_duplicate db self k row :
  items_productos db !! k = Some row →
  pk self ≠ Some k →
  ItemProductoPedido.pedido row = ItemProductoPedido.pedido (fields self) →
  ItemProductoPedido.producto row = ItemProductoPedido.producto (fields self) →
  ∀ db' self', ItemProductoPedido_save db self ≠ Ok (db', self').
Proof.
  intros Hrow Hpk Hped Hprod db' self' Hs.
  apply ItemProductoPedido_save_Ok in Hs as (p & q & _ & _ & _ & Hc & _).
  apply bool_decide_eq_true in Hc as (_ & _ & Hu & _).
  destruct (Hu k row Hrow) as [->|Hne].
  - apply Hpk. unfold save_key in Hrow |- *.
    destruct (pk self) as [k0|]; [done|]. by rewrite next_pk_fresh in Hrow.
  - apply Hne. by split.
Qed.

Lemma ItemServicioPedido_save_duplicate db self k row :
  items_servicios db !! k = Some row →
  pk self ≠ Some k →
  ItemServicioPedido.pedido row = ItemServicioPedido.pedido (fields self) →
  ItemServicioPedido.servicio row = ItemServicioPedido.servicio (fields self) →
  ∀ db' self', ItemServicioPedido_save db self ≠ Ok (db', self').
Proof.
  intros Hrow Hpk Hped Hserv db' self' Hs.
  apply ItemServicioPedido_save_Ok in Hs as (p & q & _ & _ & _ & Hc & _).
  apply bool_decide_eq_true in Hc as (_ & _ & Hu & _).
  destruct (Hu k row Hrow) as [->|Hne].
  - apply Hpk. unfold save_key in Hrow |- *.
    destruct (pk self) as [k0|]; [done|]. by rewrite next_pk_fresh in Hrow.
  - apply Hne. by split.
Qed.

End save_more.

(** X4. A line saved with a unit price other than zero keeps it: the
    instance leaves with the fields it had, whatever the price of the
    product (or service), and the row is stored with the price as the
    column takes it, rounded to two decimals and so unchanged when it is
    a column value.  The product must be in its table all the same.  The
    save goes through when the price is a column value, the numbers fit
    and the row passes the constraints of its table. *)
Theorem save_keeps_explicit_price :
  (∀ (db db' : DB) (self self' : instance ItemProductoPedido.t) (p : Decimal),
     ItemProductoPedido.precio_unitario (fields self) = Some p →
     coef p ≠ 0 →
     ItemProductoPedido_save db self = Ok (db', self') →
     ∃ k q,
       self' = mkInstance (Some k) (fields self)
       ∧ format_number 10 2 p = Ok q
       ∧ items_productos db' !! k
         = Some (ItemProductoPedido.set_precio_unitario (fields self) q)
       ∧ (stored_decimal p → q = p)
       ∧ is_Some (productos db !! ItemProductoPedido.producto (fields self)))
  ∧ (∀ (db : DB) (self : instance ItemProductoPedido.t) (p : Decimal),
       ItemProductoPedido.precio_unitario (fields self) = Some p →
       coef p ≠ 0 →
       stored_decimal p →
       forallb int64 (save_key (items_productos db) self
                      :: ItemProductoPedido_ints (fields self)) = true →
       ItemProductoPedido_check db (save_key (items_productos db) self) (fields self) = true →
       ItemProductoPedido_save db self
       = Ok (set_items_productos db
               (<[save_key (items_productos db) self := fields self]> (items_productos db)),
             mkInstance (Some (save_key (items_productos db) self)) (fields self)))
  ∧ (∀ (db db' : DB) (self self' : instance ItemServicioPedido.t) (p : Decimal),
       ItemServicioPedido.precio_unitario (fields self) = Some p →
       coef p ≠ 0 →
       ItemServicioPedido_save db self = Ok (db', self') →
       ∃ k q,
         self' = mkInstance (Some k) (fields self)
         ∧ format_number 10 2 p = Ok q
         ∧ items_servicios db' !! k
           = Some (ItemServicioPedido.set_precio_unitario (fields self) q)
         ∧ (stored_decimal p → q = p)
         ∧ is_Some (servicios db !! ItemServicioPedido.servicio (fields self)))
  ∧ (∀ (db : DB) (self : instance ItemServicioPedido.t) (p : Decimal),
       ItemServicioPedido.precio_unitario (fields self) = Some p →
       coef p ≠ 0 →
       stored_decimal p →
       forallb int64 (save_key (items_servicios db) self
                      :: ItemServicioPedido_ints (fields self)) = true →
       ItemServicioPedido_check db (save_key (items_servicios db) self) (fields self) = true →
       ItemServicioPedido_save db self
       = Ok (set_items_servicios db
               (<[save_key (items_servicios db) self := fields self]> (items_servicios db)),
             mkInstance (Some (save_key (items_servicios db) self)) (fields self))).
Proof.
  split_and!.
  - apply ItemProductoPedido_save_truthy_inv.
  - apply ItemProductoPedido_save_truthy.
  - apply ItemServicioPedido_save_truthy_inv.
  - apply ItemServicioPedido_save_truthy.
Qed.

Lemma save_keeps_explicit_price_witness :
  ItemProductoPedido_save db_ejemplo
    (mkInstance None (ItemProductoPedido.mk 3 1 2 (Some (mkDecimal 1250 (-2)))))
  = Ok (set_items_productos db_ejemplo
          (<[4 := ItemProductoPedido.mk 3 1 2 (Some (mkDecimal 1250 (-2)))]>
             (items_productos db_ejemplo)),
        mkInstance (Some 4) (ItemProductoPedido.mk 3 1 2 (Some (mkDecimal 1250 (-2)))))
  ∧ ItemServicioPedido_save db_ejemplo
      (mkInstance None (ItemServicioPedido.mk 3 1 2 (Some (mkDecimal 1250 (-2)))))
    = Ok (set_items_servicios db_ejemplo
            (<[3 := ItemServicioPedido.mk 3 1 2 (Some (mkDecimal 1250 (-2)))]>
               (items_servicios db_ejemplo)),
          mkInstance (Some 3) (ItemServicioPedido.mk 3 1 2 (Some (mkDecimal 1250 (-2))))).
Proof.
  destruct save_keeps_explicit_price as (_ & Hp & _ & Hs). split.
  - apply (Hp db_ejemplo
             (mkInstance None (ItemProductoPedido.mk 3 1 2 (Some (mkDecimal 1250 (-2)))))
             (mkDecimal 1250 (-2)));
      [reflexivity | discriminate | by vm_compute | reflexivity | by vm_compute].
  - apply (Hs db_ejemplo
             (mkInstance None (ItemServicioPedido.mk 3 1 2 (Some (mkDecimal 1250 (-2)))))
             (mkDecimal 1250 (-2)));
      [reflexivity | discriminate | by vm_compute | reflexivity | by vm_compute].
Defined.

(** X5. Saving a line whose product (or service) key is within 64 bits
    fails with [DoesNotExist] exactly when its unit price is unset or
    zero and the product (or service) it points to is missing.  The
    other failures are those of the write: [InvalidOperation] for a
    price beyond the ten digits of the column, [OverflowError] for a
    number beyond 64 bits, [IntegrityError] for a row the table
    refuses.  A line for an order and a product that another row of the
    table holds is never stored. *)
Theorem save_error_iff :
  (∀ (db : DB) (self : instance ItemProductoPedido.t),
     int64 (ItemProductoPedido.producto (fields self)) = true →
     (ItemProductoPedido_save db self = Raise DoesNotExist
      ↔ opt_dec_truthy (ItemProductoPedido.precio_unitario (fields self)) = false
        ∧ productos db !! ItemProductoPedido.producto (fields self) = None)
     ∧ ∀ e, ItemProductoPedido_save db self = Raise e →
            e = DoesNotExist ∨ e = InvalidOperation ∨ e = OverflowError
            ∨ e = IntegrityError)
  ∧ (∀ (db : DB) (self : instance ItemProductoPedido.t) (k : Z) (row : ItemProductoPedido.t),
       items_productos db !! k = Some row →
       pk self ≠ Some k →
       ItemProductoPedido.pedido row = ItemProductoPedido.pedido (fields self) →
       ItemProductoPedido.producto row = ItemProductoPedido.producto (fields self) →
       ∀ db' self', ItemProductoPedido_save db self ≠ Ok (db', self'))
  ∧ (∀ (db : DB) (self : instance ItemServicioPedido.t),
       int64 (ItemServicioPedido.servicio (fields self)) = true →
       (ItemServicioPedido_save db self = Raise DoesNotExist
        ↔ opt_dec_truthy (ItemServicioPedido.precio_unitario (fields self)) = false
          ∧ servicios db !! ItemServicioPedido.servicio (fields self) = None)
       ∧ ∀ e, ItemServicioPedido_save db self = Raise e →
              e = DoesNotExist ∨ e = InvalidOperation ∨ e = OverflowError
              ∨ e = IntegrityError)
  ∧ (∀ (db : DB) (self : instance ItemServicioPedido.t) (k : Z) (row : ItemServicioPedido.t),
       items_servicios db !! k = Some row →
       pk self ≠ Some k →
       ItemServicioPedido.pedido row = ItemServicioPedido.pedido (fields self) →
       ItemServicioPedido.servicio row = ItemServicioPedido.servicio (fields self) →
       ∀ db' self', ItemServicioPedido_save db self ≠ Ok (db', self')).
Proof.
  split_and!.
  - intros db self _. split; [split|].
    + intros Hs. by destruct (ItemProductoPedido_save_Raise _ _ _ Hs)
        as [(_ & ? & ?)|[?|[?|?]]].
    + intros [Ht Hp]. by apply ItemProductoPedido_save_DoesNotExist.
    + intros e Hs. destruct (ItemProductoPedido_save_Raise _ _ _ Hs)
        as [(? & _)|[?|[?|?]]]; auto.
  - apply ItemProductoPedido_save_duplicate.
  - intros db self _. split; [split|].
    + intros Hs. by destruct (ItemServicioPedido_save_Raise _ _ _ Hs)
        as [(_ & ? & ?)|[?|[?|?]]].
    + intros [Ht Hp]. by apply ItemServicioPedido_save_DoesNotExist.
    + intros e Hs. destruct (ItemServicioPedido_save_Raise _ _ _ Hs)
        as [(? & _)|[?|[?|?]]]; auto.
  - apply ItemServicioPedido_save_duplicate.
Qed.

Lemma save_error_iff_witness :
  ItemProductoPedido_save db_ejemplo (mkInstance None (ItemProductoPedido.mk 1 99 2 None))
  = Raise DoesNotExist
  ∧ (∀ db' self',
       ItemProductoPedido_save db_ejemplo (mkInstance None (ItemProductoPedido.mk 1 1 2 None))
       ≠ Ok (db', self')).
Proof.
  destruct save_error_iff as (H & Hd & _). split.
  - destruct (H db_ejemplo (mkInstance None (ItemProductoPedido.mk 1 99 2 None)))
      as [[_ Hr] _]; [reflexivity|].
    apply Hr. split; reflexivity.
  - apply (Hd db_ejemplo (mkInstance None (ItemProductoPedido.mk 1 1 2 None)) 1
             (ItemProductoPedido.mk 1 1 3 (Some (mkDecimal 1999 (-2)))));
      [reflexivity | discriminate | reflexivity | reflexivity].
Defined.



(** X7. Saving is idempotent once the stored unit price is not zero:
    saving the instance that a save returned, against the database that
    save produced, changes nothing. *)
Theorem save_idempotent :
  (∀ (db db1 : DB) (self self1 : instance ItemProductoPedido.t),
     ItemProductoPedido_save db self = Ok (db1, self1) →
     opt_dec_truthy (ItemProductoPedido.precio_unitario (fields self1)) = true →
     ItemProductoPedido_save db1 self1 = Ok (db1, self1))
  ∧ (∀ (db db1 : DB) (self self1 : instance ItemServicioPedido.t),
       ItemServicioPedido_save db self = Ok (db1, self1) →
       opt_dec_truthy (ItemServicioPedido.precio_unitario (fields self1)) = true →
       ItemServicioPedido_save db1 self1 = Ok (db1, self1)).
Proof.
  split.
  - intros db db1 self self1 Hsave Ht.
    apply ItemProductoPedido_save_Ok in Hsave as (p & q & Hp & Hq & Hi & Hc & -> & ->).
    apply ItemProductoPedido_save_Ok. exists p, q.
    destruct self as [pk0 [pd pr n pu]]. simpl in *. rewrite Ht.
    apply bool_decide_eq_true in Hc as (Hc1 & Hc2 & Hc3 & Hc4 & Hc5).
    split_and!; [done | done | done | | |done].
    + apply bool_decide_eq_true. simpl. split_and!; [done | done | | done | done].
      apply map_Forall_insert_2; [by left | done].
    + unfold set_items_productos. simpl. by rewrite insert_insert_eq.
  - intros db db1 self self1 Hsave Ht.
    apply ItemServicioPedido_save_Ok in Hsave as (p & q & Hp & Hq & Hi & Hc & -> & ->).
    apply ItemServicioPedido_save_Ok. exists p, q.
    destruct self as [pk0 [pd pr n pu]]. simpl in *. rewrite Ht.
    apply bool_decide_eq_true in Hc as (Hc1 & Hc2 & Hc3 & Hc4 & Hc5).
    split_and!; [done | done | done | | |done].
    + apply bool_decide_eq_true. simpl. split_and!; [done | done | | done | done].
      apply map_Forall_insert_2; [by left | done].
    + unfold set_items_servicios. simpl. by rewrite insert_insert_eq.
Qed.

Lemma save_idempotent_witness :
  ∃ db1 self1,
    ItemProductoPedido_save db_ejemplo (mkInstance None (ItemProductoPedido.mk 3 1 4 None))
    = Ok (db1, self1)
    ∧ ItemProductoPedido_save db1 self1 = Ok (db1, self1).
Proof.
  destruct save_idempotent as [Hp _].
  eexists _, _. split; [reflexivity|].
  apply (Hp db_ejemplo _ (mkInstance None (ItemProductoPedido.mk 3 1 4 None))); reflexivity.
Defined.

(** ** Adding a line to an order *)

Section total_more.

Lemma Zsum_Permutation l1 l2 : l1 ≡ₚ l2 → Zsum l1 = Zsum l2.
Proof.
  induction 1 as [|x l1 l2 _ IH|x y l|l1 l2 l3 _ IH1 _ IH2];
    rewrite ?Zsum_cons; [done| lia | lia | congruence].
Qed.

Lemma traverse_subtotal_productos_eq l :
  Forall stored_item_producto l →
  traverse ItemProductoPedido.subtotal l
  = Ok (centavos <$> ((λ it, line_centavos (ItemProductoPedido.cantidad it)
                                (ItemProductoPedido.precio_unitario it)) <$> l))
  ∧ Forall (λ c, Z.abs c ≤ line_bound)
      ((λ it, line_centavos (ItemProductoPedido.cantidad it)
                (ItemProductoPedido.precio_unitario it)) <$> l).
Proof.
  induction 1 as [|it l [Hp Hn] _ [Hcs Hb]]; [by split|].
  rewrite !fmap_cons.
  destruct it as [pd pr n [p|]]; simpl in Hp, Hn; [|done].
  pose proof (stored_within_prec n p Hn Hp) as Hprec.
  split.
  - cbn [traverse]. rewrite Hcs.
    unfold ItemProductoPedido.subtotal, line_centavos. simpl.
    rewrite int_mul_dec_exact by done.
    destruct Hp as [He _]. by rewrite He.
  - constructor; [|done]. unfold line_centavos. simpl.
    destruct Hp as [_ Hp], Hn as [Hn0 Hn].
    rewrite Z.abs_mul, (Z.abs_eq n) by done. unfold line_bound. nia.
Qed.

Lemma traverse_subtotal_servicios_eq l :
  Forall stored_item_servicio l →
  traverse ItemServicioPedido.subtotal l
  = Ok (centavos <$> ((λ it, line_centavos (ItemServicioPedido.cantidad it)
                                (ItemServicioPedido.precio_unitario it)) <$> l))
  ∧ Forall (λ c, Z.abs c ≤ line_bound)
      ((λ it, line_centavos (ItemServicioPedido.cantidad it)
                (ItemServicioPedido.precio_unitario it)) <$> l).
Proof.
  induction 1 as [|it l [Hp Hn] _ [Hcs Hb]]; [by split|].
  rewrite !fmap_cons.
  destruct it as [pd pr n [p|]]; simpl in Hp, Hn; [|done].
  pose proof (stored_within_prec n p Hn Hp) as Hprec.
  split.
  - cbn [traverse]. rewrite Hcs.
    unfold ItemServicioPedido.subtotal, line_centavos. simpl.
    rewrite int_mul_dec_exact by done.
    destruct Hp as [He _]. by rewrite He.
  - constructor; [|done]. unfold line_centavos. simpl.
    destruct Hp as [_ Hp], Hn as [Hn0 Hn].
    rewrite Z.abs_mul, (Z.abs_eq n) by done. unfold line_bound. nia.
Qed.

(** The total of an order of column values, in hundredths. *)
Lemma total_pedido_centavos db pedido_pk :
  Forall stored_item_producto (Pedido_items_productos db pedido_pk) →
  Forall stored_item_servicio (Pedido_items_servicios db pedido_pk) →
  Z.of_nat (length (Pedido_items_productos db pedido_pk))
  + Z.of_nat (length (Pedido_items_servicios db pedido_pk)) ≤ 10 ^ 8 →
  ∃ total,
    Pedido_total_pedido db pedido_pk = Ok total
    ∧ (num_value total
       == dec_value
            (centavos
               (Zsum ((λ it, line_centavos (ItemProductoPedido.cantidad it)
                               (ItemProductoPedido.precio_unitario it))
                      <$> Pedido_items_productos db pedido_pk)
                + Zsum ((λ it, line_centavos (ItemServicioPedido.cantidad it)
                                 (ItemServicioPedido.precio_unitario it))
                        <$> Pedido_items_servicios db pedido_pk))))%Q.
Proof.
  intros Hps Hss Hlen. unfold Pedido_total_pedido.
  destruct (traverse_subtotal_productos_eq _ Hps) as [Hcp Hbp].
  destruct (traverse_subtotal_servicios_eq _ Hss) as [Hcs Hbs].
  rewrite Hcp, Hcs. cbn [mbind result_bind].
  pose proof (Zsum_abs_bound _ Hbp) as Hp.
  pose proof (Zsum_abs_bound _ Hbs) as Hs.
  rewrite length_fmap in Hp. rewrite length_fmap in Hs.
  set (cp := (λ it, line_centavos (ItemProductoPedido.cantidad it)
                      (ItemProductoPedido.precio_unitario it))
             <$> Pedido_items_productos db pedido_pk) in *.
  set (cs := (λ it, line_centavos (ItemServicioPedido.cantidad it)
                      (ItemServicioPedido.precio_unitario it))
             <$> Pedido_items_servicios db pedido_pk) in *.
  pose proof (Zsum_abs_le cp). pose proof (Zsum_abs_le cs).
  pose proof (Zsum_abs_nonneg cp). pose proof (Zsum_abs_nonneg cs).
  assert (Hsum : Zsum (Z.abs <$> cp) + Zsum (Z.abs <$> cs) < 10 ^ prec).
  { assert (10 ^ 8 * line_bound < 10 ^ prec) by (by vm_compute).
    unfold line_bound in *.
    change (10 ^ 8) with 100000000 in *. lia. }
  rewrite !py_sum_centavos by lia.
  eexists. split; [reflexivity|].
  destruct cp as [|c1 cp'] eqn:Ecp, cs as [|c2 cs'] eqn:Ecs; cbn [num_add num_value].
  - reflexivity.
  - destruct (dec_add_zero_centavos (Zsum (c2 :: cs'))) as [-> _]; [lia|].
    change (Zsum []) with 0. by rewrite Z.add_0_l.
  - destruct (dec_add_zero_centavos (Zsum (c1 :: cp'))) as [_ ->]; [lia|].
    change (Zsum []) with 0. by rewrite Z.add_0_r.
  - rewrite dec_add_centavos by lia. reflexivity.
Qed.

(** The lines of an order after a line is inserted in the table. *)
Lemma Pedido_items_productos_insert db db' k row :
  items_productos db !! k = None →
  items_productos db' = <[k := row]> (items_productos db) →
  Pedido_items_productos db' (ItemProductoPedido.pedido row)
  ≡ₚ row :: Pedido_items_productos db (ItemProductoPedido.pedido row).
Proof.
  intros Hk Hdb'. unfold Pedido_items_productos. rewrite Hdb'.
  rewrite map_to_list_insert by done. rewrite fmap_cons. simpl.
  by rewrite filter_cons_True by done.
Qed.

End total_more.

(** X8. Saving a new product line without a unit price goes through
    and raises the total of its order by the quantity times the price of
    the product, when the order is in its table and has no line for the
    product yet, the keys fit in 64 bits, that price and the quantity
    are column values, the lines already in the order are column values
    too, and the order stays within 10^8 lines. *)
Theorem total_pedido_after_save (db : DB) (self : instance ItemProductoPedido.t)
    (prod : ProductoHardware.t) (total : number) :
  pk self = None →
  ItemProductoPedido.precio_unitario (fields self) = None →
  productos db !! ItemProductoPedido.producto (fields self) = Some prod →
  stored_decimal (ProductoHardware.precio prod) →
  stored_cantidad (ItemProductoPedido.cantidad (fields self)) →
  forallb int64 (save_key (items_productos db) self :: ItemProductoPedido_ints (fields self))
  = true →
  ItemProductoPedido_unique (items_productos db) (save_key (items_productos db) self)
    (fields self) →
  is_Some (pedidos db !! ItemProductoPedido.pedido (fields self)) →
  Forall stored_item_producto
    (Pedido_items_productos db (ItemProductoPedido.pedido (fields self))) →
  Forall stored_item_servicio
    (Pedido_items_servicios db (ItemProductoPedido.pedido (fields self))) →
  Z.of_nat (length (Pedido_items_productos db (ItemProductoPedido.pedido (fields self))))
  + Z.of_nat (length (Pedido_items_servicios db (ItemProductoPedido.pedido (fields self))))
  + 1 ≤ 10 ^ 8 →
  Pedido_total_pedido db (ItemProductoPedido.pedido (fields self)) = Ok total →
  ∃ db' self' total',
    ItemProductoPedido_save db self = Ok (db', self')
    ∧ Pedido_total_pedido db' (ItemProductoPedido.pedido (fields self)) = Ok total'
    ∧ (num_value total'
       == num_value total
          + inject_Z (ItemProductoPedido.cantidad (fields self))
            * dec_value (ProductoHardware.precio prod))%Q.
Proof.
  intros Hpk Hnone Hprod Hsp Hsn Hi Hu Hped Hps Hss Hlen Htotal.
  assert (Hsave := ItemProductoPedido_save_falsy db self prod).
  rewrite Hnone in Hsave.
  specialize (Hsave eq_refl Hprod Hsp Hi (proj1 Hsn) Hu Hped).
  set (A := ItemProductoPedido.pedido (fields self)) in *.
  set (row := ItemProductoPedido.set_precio_unitario (fields self)
                (ProductoHardware.precio prod)) in *.
  unfold save_key in Hsave. rewrite Hpk in Hsave.
  set (db' := set_items_productos db
                (<[next_pk (items_productos db) := row]> (items_productos db))) in *.
  assert (Hperm : Pedido_items_productos db' A ≡ₚ row :: Pedido_items_productos db A).
  { apply (Pedido_items_productos_insert db db' (next_pk (items_productos db)) row);
      [apply next_pk_fresh | done]. }
  assert (Hrow : stored_item_producto row) by done.
  destruct (total_pedido_centavos db' A) as (total' & Htotal' & Hv').
  { rewrite Hperm. by constructor. }
  { done. }
  { rewrite Hperm. simpl length. rewrite Nat2Z.inj_succ.
    change (Pedido_items_servicios db' A) with (Pedido_items_servicios db A). lia. }
  destruct (total_pedido_centavos db A Hps Hss) as (total0 & Htotal0 & Hv0); [lia|].
  rewrite Htotal in Htotal0. injection Htotal0 as <-.
  exists db', (mkInstance (Some (next_pk (items_productos db))) row), total'.
  split_and!; [done..|].
  rewrite Hv', Hv0.
  rewrite (Zsum_Permutation _ _ (fmap_Permutation _ _ _ Hperm)).
  rewrite fmap_cons, Zsum_cons.
  change (Pedido_items_servicios db' A) with (Pedido_items_servicios db A).
  unfold centavos. rewrite <- Z.add_assoc, dec_value_plus.
  rewrite Qplus_comm. apply Qplus_comp; [reflexivity|].
  unfold line_centavos, row. simpl.
  destruct Hsp as [He _]. rewrite <- He.
  destruct (ProductoHardware.precio prod) as [c e]. apply dec_value_mul.
Qed.

Lemma total_pedido_after_save_witness :
  ∃ db' self' total',
    ItemProductoPedido_save db_ejemplo (mkInstance None (ItemProductoPedido.mk 1 3 2 None))
    = Ok (db', self')
    ∧ Pedido_total_pedido db' 1 = Ok total'
    ∧ (num_value total'
       == num_value (PDec (mkDecimal 16997 (-2)))
          + inject_Z 2 * dec_value (mkDecimal 30000 (-2)))%Q.
Proof.
  apply (total_pedido_after_save db_ejemplo
           (mkInstance None (ItemProductoPedido.mk 1 3 2 None)) producto_retirado
           (PDec (mkDecimal 16997 (-2)))).
  - reflexivity.
  - reflexivity.
  - reflexivity.
  - apply (bool_decide_unpack _). by vm_compute.
  - apply (bool_decide_unpack _). by vm_compute.
  - reflexivity.
  - apply (bool_decide_unpack _). by vm_compute.
  - by eexists.
  - apply (bool_decide_unpack _). by vm_compute.
  - apply (bool_decide_unpack _). by vm_compute.
  - vm_compute. discriminate.
  - by vm_compute.
Defined.

(** ** The other checks of the forms *)

Section clean_more.

Lemma dec_lt_int_zero d : dec_lt_int d 0 = (coef d <? 0).
Proof.
  unfold dec_lt_int. destruct (Z.leb_spec 0 (expo d)) as [He|He]; [|done].
  assert (0 < 10 ^ expo d) by (apply Z.pow_pos_nonneg; lia).
  destruct (Z.ltb_spec (coef d * 10 ^ expo d) 0), (Z.ltb_spec (coef d) 0); try done; nia.
Qed.

End clean_more.

(** X9. The budget check of the client form refuses a Decimal budget
    exactly when it is negative and hands every other budget back, zero
    included; a budget missing from [cleaned_data] passes as [None]. *)
Theorem clean_presupuesto_spec (cd : gmap string value) (errs : gmap string (list string))
    (d : Decimal) :
  ClienteForm.clean_presupuesto (mkForm (<["presupuesto" := VDec d]> cd) errs)
  = (if coef d <? 0
     then Raise (ValidationError (VEMessage "El presupuesto no puede ser negativo."))
     else Ok (VDec d))
  ∧ ClienteForm.clean_presupuesto (mkForm (delete "presupuesto" cd) errs) = Ok VNone.
Proof.
  split.
  - unfold ClienteForm.clean_presupuesto, cleaned_get. simpl.
    rewrite lookup_insert_eq. simpl. rewrite dec_lt_int_zero. unfold dec_truthy.
    destruct (Z.eqb_spec (coef d) 0) as [->|Hne]; [done|]. simpl.
    by destruct (coef d <? 0).
  - unfold ClienteForm.clean_presupuesto, cleaned_get. simpl.
    by rewrite lookup_delete_eq.
Qed.

(** X10. The duration check of the service form and the quantity check
    of the two line forms refuse an int exactly when it is negative:
    zero passes each of them, the tests being guarded by the truth
    value of the number. *)
Theorem clean_duracion_cantidad_spec (cd : gmap string value)
    (errs : gmap string (list string)) (z : Z) :
  ServicioInformaticoForm.clean_duracion (mkForm (<["duracion" := VInt z]> cd) errs)
  = (if z <? 0
     then Raise (ValidationError (VEMessage "La duración debe ser mayor a cero."))
     else Ok (VInt z))
  ∧ ItemProductoPedidoForm.clean_cantidad (mkForm (<["cantidad" := VInt z]> cd) errs)
    = (if z <? 0
       then Raise (ValidationError (VEMessage "La cantidad debe ser al menos 1."))
       else Ok (VInt z))
  ∧ ItemServicioPedidoForm.clean_cantidad (mkForm (<["cantidad" := VInt z]> cd) errs)
    = (if z <? 0
       then Raise (ValidationError (VEMessage "La cantidad debe ser al menos 1."))
       else Ok (VInt z)).
Proof.
  split_and!.
  - unfold ServicioInformaticoForm.clean_duracion, cleaned_get. simpl.
    rewrite lookup_insert_eq. simpl.
    destruct (Z.eqb_spec z 0) as [->|Hne]; [done|]. simpl.
    destruct (Z.leb_spec z 0), (Z.ltb_spec z 0); (done || lia).
  - unfold ItemProductoPedidoForm.clean_cantidad, cleaned_get. simpl.
    rewrite lookup_insert_eq. simpl.
    destruct (Z.eqb_spec z 0) as [->|Hne]; [done|]. simpl.
    destruct (Z.ltb_spec z 1), (Z.ltb_spec z 0); (done || lia).
  - unfold ItemServicioPedidoForm.clean_cantidad, cleaned_get. simpl.
    rewrite lookup_insert_eq. simpl.
    destruct (Z.eqb_spec z 0) as [->|Hne]; [done|]. simpl.
    destruct (Z.ltb_spec z 1), (Z.ltb_spec z 0); (done || lia).
Qed.

(** X11. The price check of the two forms refuses a Decimal price
    exactly when it is negative and hands every other price back
    unchanged. *)
Theorem clean_precio_spec (cd : gmap string value) (errs : gmap string (list string))
    (d : Decimal) :
  ProductoHardwareForm.clean_precio (mkForm (<["precio" := VDec d]> cd) errs)
  = (if coef d <? 0
     then Raise (ValidationError (VEMessage "El precio debe ser mayor a cero."))
     else Ok (VDec d))
  ∧ ServicioInformaticoForm.clean_precio (mkForm (<["precio" := VDec d]> cd) errs)
    = (if coef d <? 0
       then Raise (ValidationError (VEMessage "El precio debe ser mayor a cero."))
       else Ok (VDec d)).
Proof.
  split.
  - unfold ProductoHardwareForm.clean_precio, cleaned_get. simpl.
    rewrite lookup_insert_eq. simpl. unfold dec_truthy, dec_le_zero.
    destruct (Z.eqb_spec (coef d) 0) as [->|Hne]; [done|]. simpl.
    destruct (Z.leb_spec (coef d) 0), (Z.ltb_spec (coef d) 0); (done || lia).
  - unfold ServicioInformaticoForm.clean_precio, cleaned_get. simpl.
    rewrite lookup_insert_eq. simpl. unfold dec_truthy, dec_le_zero.
    destruct (Z.eqb_spec (coef d) 0) as [->|Hne]; [done|]. simpl.
    destruct (Z.leb_spec (coef d) 0), (Z.ltb_spec (coef d) 0); (done || lia).
Qed.

(** X12. The [clean] of the product form touches one entry: every entry
    of [cleaned_data] and of [errors] other than [tipo_personalizado] is
    as before.  That entry has one of three fates: with type ['otros']
    and no custom type it leaves [cleaned_data] and gains the message;
    with another type, or none, and a custom type it becomes the empty
    string; otherwise nothing changes. *)
Theorem clean_form_outcome (self : form) :
  (∀ key, key ≠ "tipo_personalizado" →
     cleaned_data (ProductoHardwareForm.clean self) !! key = cleaned_data self !! key
     ∧ errors (ProductoHardwareForm.clean self) !! key = errors self !! key)
  ∧ (let tipo := cleaned_get (cleaned_data self) "tipo" in
     let tp := cleaned_get (cleaned_data self) "tipo_personalizado" in
     if bool_decide (tipo = VStr "otros")
     then if truthy tp
          then ProductoHardwareForm.clean self = self
          else cleaned_data (ProductoHardwareForm.clean self) !! "tipo_personalizado" = None
               ∧ errors (ProductoHardwareForm.clean self) !! "tipo_personalizado"
                 = Some (default [] (errors self !! "tipo_personalizado")
                         ++ [ProductoHardware.msg_tipo_personalizado])
     else if truthy tp
          then cleaned_data (ProductoHardwareForm.clean self) !! "tipo_personalizado"
               = Some (VStr EmptyString)
               ∧ errors (ProductoHardwareForm.clean self) = errors self
          else ProductoHardwareForm.clean self = self).
Proof.
  unfold ProductoHardwareForm.clean. cbv zeta.
  destruct (bool_decide (cleaned_get (cleaned_data self) "tipo" = VStr "otros"));
    destruct (truthy (cleaned_get (cleaned_data self) "tipo_personalizado")); simpl.
  - split; [done|]. by destruct self.
  - split.
    + intros key Hne. by rewrite lookup_delete_ne, lookup_insert_ne.
    + by rewrite lookup_delete_eq, lookup_insert_eq.
  - split.
    + intros key Hne. by rewrite lookup_insert_ne.
    + by rewrite lookup_insert_eq.
  - split; [done|]. by destruct self.
Qed.

Lemma clean_form_outcome_witness :
  cleaned_data
    (ProductoHardwareForm.clean
       (mkForm (<["tipo" := VStr "laptop"]> (<["tipo_personalizado" := VStr "x"]> ∅)) ∅))
  !! "tipo"
  = Some (VStr "laptop").
Proof.
  destruct (clean_form_outcome
              (mkForm (<["tipo" := VStr "laptop"]> (<["tipo_personalizado" := VStr "x"]> ∅)) ∅))
    as [H _].
  destruct (H "tipo") as [Hcd _]; [discriminate|].
  rewrite Hcd. reflexivity.
Defined.

(** ** The listings of clients, suppliers and services *)

Section listings_more.

(** Rows drawn from a table, none twice, carry no key twice. *)
Lemma NoDup_fst_of_table {A} (m : gmap Z A) (l : list (Z * A)) :
  NoDup l → (∀ r, r ∈ l → r ∈ map_to_list m) → NoDup l.*1.
Proof.
  intros Hnd Hsub. apply NoDup_fmap_2_strong; [|done].
  intros [k1 x1] [k2 x2] H1%Hsub%elem_of_map_to_list H2%Hsub%elem_of_map_to_list Hk.
  simpl in *. subst. congruence.
Qed.





End listings_more.







(** ** The dashboard *)

Section dashboard_more.

Lemma date_cmp_Lt_gt a b : date_cmp a b = Lt ↔ date_gt b a = true.
Proof.
  unfold date_gt. rewrite (date_cmp_antisym a b).
  destruct (date_cmp a b); simpl; split; congruence.
Qed.

#[local] Instance populares_ordering_total {A} : Total (@DashboardView.populares_ordering A).
Proof. intros a b. unfold DashboardView.populares_ordering. lia. Qed.

#[local] Instance populares_ordering_trans {A} : Transitive (@DashboardView.populares_ordering A).
Proof. intros a b c. unfold DashboardView.populares_ordering. lia. Qed.


End dashboard_more.

(** X16. The number of clients with an expired budget that the dashboard
    shows is the number of clients for which [presupuesto_vencido] is
    true on the same day. *)
Theorem dashboard_clientes_presupuesto_vencido (store : Database) (hoy : date) :
  DashboardView.clientes_presupuesto_vencido (DashboardView.get store hoy)
  = DashboardView.count
      (filter (λ r, Cliente.presupuesto_vencido hoy r.2 = true)
              (map_to_list (clientes store))).
Proof.
  unfold DashboardView.get. simpl. f_equal.
  apply list_filter_iff. intros [k c]. simpl. apply date_cmp_Lt_gt.
Qed.



(** ** Changing the state of an order *)

(** X18. Changing the state of an order whose key is within 64 bits.
    When the order is missing the answer is 404: nothing is written and
    no message is left.  Otherwise the view writes the order's row only
    for a state of the choice list, changing its state and nothing else,
    and leaves the table as it was for any other text or no text; it
    leaves the message of the case, and then it fails with
    [NoReverseMatch], after the write, since no route of [urls.py] is
    named 'pedido_detail'.  If every stored state was of the choice list
    before, it is so after. *)
Theorem PedidoEstadoUpdateView_post_spec (tabla : gmap Z Pedido.t)
    (POST : gmap string string) (pk : Z) :
  int64 pk = true →
  ((PedidoEstadoUpdateView.post tabla POST pk).2 = Http404 ↔ tabla !! pk = None)
  ∧ (tabla !! pk = None → PedidoEstadoUpdateView.post tabla POST pk = (tabla, None, Http404))
  ∧ (∀ p, tabla !! pk = Some p →
       ∃ tabla' msg,
         PedidoEstadoUpdateView.post tabla POST pk
         = (tabla', Some msg, Raised NoReverseMatch)
         ∧ (∀ k', k' ≠ pk → tabla' !! k' = tabla !! k')
         ∧ (∃ p', tabla' !! pk = Some p'
              ∧ Pedido.cliente p' = Pedido.cliente p
              ∧ Pedido.fecha_pedido p' = Pedido.fecha_pedido p
              ∧ Pedido.observaciones p' = Pedido.observaciones p
              ∧ ((∃ label, (Pedido.estado p', label) ∈ Pedido.ESTADO_PEDIDO_CHOICES
                           ∧ POST !! "estado" = Some (Pedido.estado p')
                           ∧ msg = MsgSuccess ("Estado del pedido actualizado a "
                                               +:+ label +:+ "."))
                 ∨ (tabla' = tabla ∧ msg = MsgError "Estado inválido."
                    ∧ ∀ estado label, POST !! "estado" = Some estado →
                        (estado, label) ∉ Pedido.ESTADO_PEDIDO_CHOICES)))
         ∧ ((∀ k' p, tabla !! k' = Some p →
               ∃ label, (Pedido.estado p, label) ∈ Pedido.ESTADO_PEDIDO_CHOICES) →
            ∀ k' p, tabla' !! k' = Some p →
              ∃ label, (Pedido.estado p, label) ∈ Pedido.ESTADO_PEDIDO_CHOICES)).
Proof.
  intros _.
  assert (Hchoice : ∀ estado,
    is_Some (ProductoHardware.dict_of_choices Pedido.ESTADO_PEDIDO_CHOICES !! estado)
    → ∃ label, (estado, label) ∈ Pedido.ESTADO_PEDIDO_CHOICES
               ∧ default estado
                   (ProductoHardware.dict_of_choices Pedido.ESTADO_PEDIDO_CHOICES !! estado)
                 = label).
  { intros estado. unfold Pedido.ESTADO_PEDIDO_CHOICES.
    intros [label Hl]. exists label. rewrite Hl. split; [|done].
    revert Hl. unfold ProductoHardware.dict_of_choices. simpl.
    rewrite !lookup_insert. repeat case_decide; subst;
      try (intros [= <-]; set_solver); try by rewrite lookup_empty. }
  assert (Hchoice' : ∀ estado label,
    (estado, label) ∈ Pedido.ESTADO_PEDIDO_CHOICES →
    is_Some (ProductoHardware.dict_of_choices Pedido.ESTADO_PEDIDO_CHOICES !! estado)).
  { intros estado label Hin. unfold Pedido.ESTADO_PEDIDO_CHOICES in Hin.
    repeat (apply elem_of_cons in Hin as [[= -> ->]|Hin]; [eexists; by vm_compute|]).
    by apply elem_of_nil in Hin. }
  assert (Hredirect : redirect "pedido_detail" pk = Raise NoReverseMatch) by done.
  unfold PedidoEstadoUpdateView.post. rewrite Hredirect.
  destruct (tabla !! pk) as [p|] eqn:Hp; [|split_and!; done].
  split_and!.
  - split; [|done]. destruct (POST !! "estado"); [case_bool_decide|]; done.
  - done.
  - intros p0 [= <-].
    destruct (POST !! "estado") as [estado|] eqn:Hestado.
    + case_bool_decide as Hvalid.
      * apply Hchoice in Hvalid as (label & Hin & Hlabel).
        eexists _, _. split_and!; [done| | |].
        -- intros k' Hne. by rewrite lookup_insert_ne.
        -- eexists. rewrite lookup_insert_eq. split_and!; [done..|].
           left. exists label. split_and!; [done..|].
           unfold Pedido.get_estado_display. simpl. by rewrite Hlabel.
        -- intros Hinv k' p' Hp'.
           destruct (decide (k' = pk)) as [->|Hne].
           ++ rewrite lookup_insert_eq in Hp'. injection Hp' as <-. eauto.
           ++ rewrite lookup_insert_ne in Hp' by done. eauto.
      * eexists _, _. split_and!; [done..| |done].
        exists p. split_and!; [done..|]. right. split_and!; [done..|].
        intros estado' label [= ->] Hin. by apply Hvalid, (Hchoice' _ label).
    + eexists _, _. split_and!; [done..| |done].
      exists p. split_and!; [done..|]. right. split_and!; [done..|].
      by intros estado' label.
Qed.

Lemma PedidoEstadoUpdateView_post_spec_witness :
  ∃ tabla' msg,
    PedidoEstadoUpdateView.post (pedidos store_ejemplo) (<["estado" := "completado"]> ∅) 1
    = (tabla', Some msg, Raised NoReverseMatch)
    ∧ ∀ k', k' ≠ 1 → tabla' !! k' = pedidos store_ejemplo !! k'.
Proof.
  destruct (PedidoEstadoUpdateView_post_spec (pedidos store_ejemplo)
              (<["estado" := "completado"]> ∅) 1) as (_ & _ & H); [reflexivity|].
  destruct (H (Pedido.mk 1 (mkDatetime (mkDate 2024 1 5) 0) "pendiente" EmptyString))
    as (tabla' & msg & Hpost & Hframe & _); [reflexivity|].
  by exists tabla', msg.
Defined.

(** ** The listing of orders *)

Section pedidos_more.

Lemma datetime_cmp_antisym a b : datetime_cmp b a = CompOpp (datetime_cmp a b).
Proof.
  unfold datetime_cmp.
  rewrite (date_cmp_antisym (dt_date a) (dt_date b)).
  rewrite (Z.compare_antisym (dt_micro a) (dt_micro b)).
  by destruct (date_cmp (dt_date a) (dt_date b)).
Qed.

Lemma pedido_ordering_total : Total pedido_ordering.
Proof.
  intros a b. unfold pedido_ordering.
  rewrite (datetime_cmp_antisym (Pedido.fecha_pedido b.2) (Pedido.fecha_pedido a.2)).
  destruct (datetime_cmp (Pedido.fecha_pedido b.2) (Pedido.fecha_pedido a.2)); simpl; auto.
Qed.

Lemma date_ge_true a b : PedidoListView.date_ge a b = true ↔ date_cmp a b ≠ Lt.
Proof. unfold PedidoListView.date_ge. destruct (date_cmp a b); split; congruence. Qed.

Lemma date_le_true a b : PedidoListView.date_le a b = true ↔ date_cmp a b ≠ Gt.
Proof. unfold PedidoListView.date_le. destruct (date_cmp a b); split; congruence. Qed.

(** The order listing when the client key and the two days, if given,
    can be read. *)
Lemma PedidoListView_get_queryset_eq (int_of_str : string → option Z)
    (to_date : string → result date) (tabla : gmap Z Pedido.t) (GET : gmap string string)
    (kcli : Z) (desde hasta : date) :
  (str_truthy (ProductoHardwareListView.GET_get GET "cliente") = true →
   int_of_str (ProductoHardwareListView.GET_get GET "cliente") = Some kcli) →
  (str_truthy (ProductoHardwareListView.GET_get GET "fecha_desde") = true →
   to_date (ProductoHardwareListView.GET_get GET "fecha_desde") = Ok desde) →
  (str_truthy (ProductoHardwareListView.GET_get GET "fecha_hasta") = true →
   to_date (ProductoHardwareListView.GET_get GET "fecha_hasta") = Ok hasta) →
  PedidoListView.get_queryset int_of_str to_date tabla GET
  = Ok (merge_sort pedido_ordering
          (let q0 := map_to_list tabla in
           let q1 := if str_truthy (ProductoHardwareListView.GET_get GET "estado")
                     then filter (λ r : Z * Pedido.t,
                                    Pedido.estado r.2
                                    = ProductoHardwareListView.GET_get GET "estado") q0
                     else q0 in
           let q2 := if str_truthy (ProductoHardwareListView.GET_get GET "cliente")
                     then filter (λ r : Z * Pedido.t, Pedido.cliente r.2 = kcli) q1
                     else q1 in
           let q3 := if str_truthy (ProductoHardwareListView.GET_get GET "fecha_desde")
                     then filter (λ r : Z * Pedido.t,
                                    PedidoListView.date_ge
                                      (dt_date (Pedido.fecha_pedido r.2)) desde = true) q2
                     else q2 in
           if str_truthy (ProductoHardwareListView.GET_get GET "fecha_hasta")
           then filter (λ r : Z * Pedido.t,
                          PedidoListView.date_le
                            (dt_date (Pedido.fecha_pedido r.2)) hasta = true) q3
           else q3)).
Proof.
  intros Hc Hd Hh.
  unfold PedidoListView.get_queryset, ProductoHardwareListView.to_pk.
  destruct (str_truthy (ProductoHardwareListView.GET_get GET "cliente"));
    [rewrite (Hc eq_refl)|];
    (destruct (str_truthy (ProductoHardwareListView.GET_get GET "fecha_desde"));
     [rewrite (Hd eq_refl)|]);
    (destruct (str_truthy (ProductoHardwareListView.GET_get GET "fecha_hasta"));
     [rewrite (Hh eq_refl)|]);
    reflexivity.
Qed.

(** A listing that returns rows could read every parameter given. *)
Lemma PedidoListView_get_queryset_Ok (int_of_str : string → option Z)
    (to_date : string → result date) (tabla : gmap Z Pedido.t) (GET : gmap string string)
    (rows : list (Z * Pedido.t)) :
  PedidoListView.get_queryset int_of_str to_date tabla GET = Ok rows →
  ∃ kcli desde hasta,
    (str_truthy (ProductoHardwareListView.GET_get GET "cliente") = true →
     int_of_str (ProductoHardwareListView.GET_get GET "cliente") = Some kcli)
    ∧ (str_truthy (ProductoHardwareListView.GET_get GET "fecha_desde") = true →
       to_date (ProductoHardwareListView.GET_get GET "fecha_desde") = Ok desde)
    ∧ (str_truthy (ProductoHardwareListView.GET_get GET "fecha_hasta") = true →
       to_date (ProductoHardwareListView.GET_get GET "fecha_hasta") = Ok hasta).
Proof.
  unfold PedidoListView.get_queryset, ProductoHardwareListView.to_pk.
  destruct (str_truthy (ProductoHardwareListView.GET_get GET "cliente")) eqn:Ec;
    [destruct (int_of_str (ProductoHardwareListView.GET_get GET "cliente")) as [kcli|]|];
    cbn [mbind result_bind]; try done;
    (destruct (str_truthy (ProductoHardwareListView.GET_get GET "fecha_desde")) eqn:Ed;
     [destruct (to_date (ProductoHardwareListView.GET_get GET "fecha_desde")) as [desde|]|]);
    cbn [mbind result_bind]; try done;
    (destruct (str_truthy (ProductoHardwareListView.GET_get GET "fecha_hasta")) eqn:Eh;
     [destruct (to_date (ProductoHardwareListView.GET_get GET "fecha_hasta")) as [hasta|]|]);
    cbn [mbind result_bind]; try done;
    intros _;
    first [ exists kcli | exists 0 ];
    first [ exists desde | exists (mkDate 1 1 1) ];
    first [ exists hasta | exists (mkDate 1 1 1) ];
    by split_and!.
Qed.

End pedidos_more.

(** X19. The rows of the order listing are exactly the orders that pass
    each filter the request gives: state equal to the state parameter,
    client equal to the key given, day of the order not before the first
    day and not after the last day, both days included.  The listing is
    ordered from the latest order to the earliest and has no order
    twice. *)
Theorem PedidoListView_get_queryset_spec (int_of_str : string → option Z)
    (to_date : string → result date) (tabla : gmap Z Pedido.t) (GET : gmap string string)
    (rows : list (Z * Pedido.t)) :
  PedidoListView.get_queryset int_of_str to_date tabla GET = Ok rows →
  (∀ k p, (k, p) ∈ rows ↔
     tabla !! k = Some p
     ∧ (str_truthy (ProductoHardwareListView.GET_get GET "estado") = true →
        Pedido.estado p = ProductoHardwareListView.GET_get GET "estado")
     ∧ (str_truthy (ProductoHardwareListView.GET_get GET "cliente") = true →
        int_of_str (ProductoHardwareListView.GET_get GET "cliente") = Some (Pedido.cliente p))
     ∧ (str_truthy (ProductoHardwareListView.GET_get GET "fecha_desde") = true →
        ∃ d, to_date (ProductoHardwareListView.GET_get GET "fecha_desde") = Ok d
             ∧ date_cmp (dt_date (Pedido.fecha_pedido p)) d ≠ Lt)
     ∧ (str_truthy (ProductoHardwareListView.GET_get GET "fecha_hasta") = true →
        ∃ d, to_date (ProductoHardwareListView.GET_get GET "fecha_hasta") = Ok d
             ∧ date_cmp (dt_date (Pedido.fecha_pedido p)) d ≠ Gt))
  ∧ Sorted pedido_ordering rows
  ∧ NoDup rows.*1.
Proof.
  intros Hq.
  destruct (PedidoListView_get_queryset_Ok _ _ _ _ _ Hq) as (kcli & desde & hasta & Hc & Hd & Hh).
  rewrite (PedidoListView_get_queryset_eq _ _ _ _ kcli desde hasta Hc Hd Hh) in Hq.
  injection Hq as <-. cbv zeta. split_and!.
  - intros k p.
    rewrite merge_sort_Permutation, !optional_filter_elem, elem_of_map_to_list. simpl.
    rewrite date_ge_true, date_le_true. split.
    + intros [[[[Hp He] Hcl] Hde] Hha]. split_and!; auto.
      * intros E. rewrite (Hc E). f_equal. symmetry. auto.
      * intros E. exists desde. auto.
      * intros E. exists hasta. auto.
    + intros (Hp & He & Hcl & Hde & Hha). split_and!; auto.
      * intros E. specialize (Hcl E). rewrite (Hc E) in Hcl. congruence.
      * intros E. destruct (Hde E) as (d & Hd' & Hcmp). rewrite (Hd E) in Hd'. congruence.
      * intros E. destruct (Hha E) as (d & Hd' & Hcmp). rewrite (Hh E) in Hd'. congruence.
  - apply Sorted_merge_sort, pedido_ordering_total.
  - apply (NoDup_fst_of_table tabla).
    + rewrite merge_sort_Permutation.
      repeat match goal with
             | |- NoDup (if ?b then _ else _) => destruct b
             | |- NoDup (filter _ _) => apply NoDup_filter
             end; apply NoDup_map_to_list.
    + intros r. rewrite merge_sort_Permutation, !optional_filter_elem. tauto.
Qed.

Lemma PedidoListView_get_queryset_spec_witness :
  Sorted pedido_ordering
    [(2, Pedido.mk 1 (mkDatetime (mkDate 2024 1 7) 0) "otros" EmptyString);
     (1, Pedido.mk 1 (mkDatetime (mkDate 2024 1 5) 0) "pendiente" EmptyString)].
Proof.
  destruct (PedidoListView_get_queryset_spec (λ _, None) (λ _, Ok (mkDate 2024 1 5))
              (pedidos store_ejemplo) (<["fecha_desde" := "2024-01-05"]> ∅)
              [(2, Pedido.mk 1 (mkDatetime (mkDate 2024 1 7) 0) "otros" EmptyString);
               (1, Pedido.mk 1 (mkDatetime (mkDate 2024 1 5) 0) "pendiente" EmptyString)])
    as (_ & H & _); [by vm_compute | exact H].
Defined.

(** ** The JSON views *)

Section api_more.


Lemma length_append (a b : string) :
  String.length (a +:+ b) = (String.length a + String.length b)%nat.
Proof. induction a as [|c a IH]; simpl; [done|]. by rewrite IH. Qed.

Lemma append_nil_r (a : string) : a +:+ EmptyString = a.
Proof.
  induction a as [|c a IH]; [done|].
  change (String c (a +:+ EmptyString) = String c a). by f_equal.
Qed.

Lemma length_zeros (n : nat) : String.length (zeros n) = n.
Proof. induction n as [|n IH]; simpl; [done|]. by rewrite IH. Qed.

Lemma length_substring (n m : nat) (s : string) :
  (n + m ≤ String.length s)%nat → String.length (substring n m s) = m.
Proof.
  revert n m. induction s as [|c s IH]; intros [|n] [|m]; simpl; intros Hle; try done; try lia.
  - rewrite IH; [done | lia].
  - apply IH. lia.
  - apply IH. lia.
Qed.


(** The text of a Decimal with two decimals: plain notation, a point and
    two digits after it. *)
Lemma str_of_decimal_two_places (d : Decimal) :
  expo d = -2 →
  ∃ intpart fracpart,
    str_of_decimal d
    = (if coef d <? 0 then "-" else EmptyString) +:+ intpart +:+ "." +:+ fracpart
    ∧ String.length fracpart = 2%nat.
Proof.
  intros He. unfold str_of_decimal. rewrite He. cbv zeta.
  set (int_ := NilZero.string_of_uint (N.to_uint (Z.abs_N (coef d)))).
  replace ((-2 <=? 0) && (-6 <? -2 + Z.of_nat (String.length int_)))
    with true by (symmetry; apply andb_true_iff; split; [done | apply Z.ltb_lt; lia]).
  rewrite Z.eqb_refl.
  destruct (Z.leb_spec (-2 + Z.of_nat (String.length int_)) 0) as [Hle|Hgt].
  - eexists "0", (zeros (Z.to_nat (- (-2 + Z.of_nat (String.length int_)))) +:+ int_).
    split.
    + by rewrite append_nil_r.
    + rewrite length_append, length_zeros. lia.
  - destruct (Z.leb_spec (Z.of_nat (String.length int_))
                (-2 + Z.of_nat (String.length int_))) as [Hle'|Hgt']; [lia|].
    eexists (substring 0 (Z.to_nat (-2 + Z.of_nat (String.length int_))) int_),
      (substring (Z.to_nat (-2 + Z.of_nat (String.length int_)))
         (Z.to_nat (Z.of_nat (String.length int_)
                    - (-2 + Z.of_nat (String.length int_)))) int_).
    split.
    + by rewrite append_nil_r.
    + rewrite length_substring; lia.
Qed.

End api_more.





(** X22. The two price views answer only GET and never with an
    exception.  They answer 404 exactly when the product or service is
    missing or withdrawn; otherwise they send the text of its price,
    which for a price with two decimals is in plain notation with two
    digits after the point. *)
Theorem api_get_precio_spec (db : DB) (k : Z) :
  (∀ method, method ≠ "GET" →
     api_get_precio_producto db method k = None
     ∧ api_get_precio_servicio db method k = None)
  ∧ (∀ e, api_get_precio_producto db "GET" k ≠ Some (Raised e)
          ∧ api_get_precio_servicio db "GET" k ≠ Some (Raised e))
  ∧ (api_get_precio_producto db "GET" k = Some Http404
     ↔ ∀ p, productos db !! k = Some p → ProductoHardware.activo p = false)
  ∧ (api_get_precio_servicio db "GET" k = Some Http404
     ↔ ∀ s, servicios db !! k = Some s → ServicioInformatico.activo s = false)
  ∧ (∀ p, productos db !! k = Some p → ProductoHardware.activo p = true →
       api_get_precio_producto db "GET" k
       = Some (Response (str_of_decimal (ProductoHardware.precio p)))
       ∧ (stored_decimal (ProductoHardware.precio p) →
          ∃ intpart fracpart,
            str_of_decimal (ProductoHardware.precio p)
            = (if coef (ProductoHardware.precio p) <? 0 then "-" else EmptyString)
              +:+ intpart +:+ "." +:+ fracpart
            ∧ String.length fracpart = 2%nat))
  ∧ (∀ s, servicios db !! k = Some s → ServicioInformatico.activo s = true →
       api_get_precio_servicio db "GET" k
       = Some (Response (str_of_decimal (ServicioInformatico.precio s)))
       ∧ (stored_decimal (ServicioInformatico.precio s) →
          ∃ intpart fracpart,
            str_of_decimal (ServicioInformatico.precio s)
            = (if coef (ServicioInformatico.precio s) <? 0 then "-" else EmptyString)
              +:+ intpart +:+ "." +:+ fracpart
            ∧ String.length fracpart = 2%nat)).
Proof.
  unfold api_get_precio_producto, api_get_precio_servicio. simpl String.eqb. cbv iota.
  split_and!.
  - intros method Hne. by destruct (String.eqb_spec method "GET").
  - intros e. split.
    + destruct (productos db !! k) as [p|]; [destruct (ProductoHardware.activo p)|]; done.
    + destruct (servicios db !! k) as [s|]; [destruct (ServicioInformatico.activo s)|]; done.
  - destruct (productos db !! k) as [p|]; [destruct (ProductoHardware.activo p) eqn:Ea|].
    + split; [done|]. intros H. specialize (H p eq_refl). congruence.
    + split; [|done]. intros _ p' [= <-]. done.
    + split; [|done]. by intros _ p'.
  - destruct (servicios db !! k) as [s|]; [destruct (ServicioInformatico.activo s) eqn:Ea|].
    + split; [done|]. intros H. specialize (H s eq_refl). congruence.
    + split; [|done]. intros _ s' [= <-]. done.
    + split; [|done]. by intros _ s'.
  - intros p -> ->. split; [done|]. intros [He _]. by apply str_of_decimal_two_places.
  - intros s -> ->. split; [done|]. intros [He _]. by apply str_of_decimal_two_places.
Qed.

Lemma api_get_precio_spec_witness :
  api_get_precio_producto db_ejemplo "GET" 1 = Some (Response "19.99").
Proof.
  destruct (api_get_precio_spec db_ejemplo 1) as (_ & _ & _ & _ & H & _).
  destruct (H producto_thinkpad) as [Heq _]; [reflexivity | reflexivity | exact Heq].
Defined.

(** ** The page of a client *)

Section cliente_more.

Lemma traverse_ext {A B} (f g : A → result B) (l : list A) :
  (∀ x, f x = g x) → traverse f l = traverse g l.
Proof. intros Hfg. induction l as [|x l IH]; [done|]. cbn [traverse]. by rewrite Hfg, IH. Qed.

Lemma traverse_Ok {A B} (f : A → result B) (l : list A) (ys : list B) :
  traverse f l = Ok ys → Forall2 (λ x y, f x = Ok y) l ys.
Proof.
  revert ys. induction l as [|x l IH]; intros ys; cbn [traverse].
  - intros [= <-]. constructor.
  - destruct (f x) as [y|e] eqn:Hx; cbn [mbind result_bind]; [|done].
    destruct (traverse f l) as [ys'|e]; cbn [mbind result_bind]; [|done].
    intros [= <-]. constructor; auto.
Qed.

Lemma traverse_Raise {A B} (f : A → result B) (l : list A) (e : exception) :
  traverse f l = Raise e → ∃ x, x ∈ l ∧ f x = Raise e.
Proof.
  induction l as [|x l IH]; cbn [traverse]; [done|].
  destruct (f x) as [y|e'] eqn:Hx; cbn [mbind result_bind].
  - destruct (traverse f l) as [ys'|e']; cbn [mbind result_bind]; [done|].
    intros [= ->]. destruct IH as (x' & Hin & Hx'); [done|].
    exists x'. split; [by right | done].
  - intros [= ->]. exists x. split; [by left | done].
Qed.

(** The term an order adds to the sum: reading [total_pedido] twice
    gives what reading it once gives. *)
Lemma gastado_term (db : DB) (k : Z) :
  (t ← Pedido_total_pedido db k;
   if num_truthy t then t' ← Pedido_total_pedido db k; Ok [t'] else Ok [])
  = (t ← Pedido_total_pedido db k; Ok (if num_truthy t then [t] else [])).
Proof.
  destruct (Pedido_total_pedido db k) as [t|e]; cbn [mbind result_bind]; [|done].
  by destruct (num_truthy t).
Qed.

Lemma gastado_terms_Ok (db : DB) (rs : list (Z * Pedido.t)) (terms : list (list number)) :
  traverse (λ r : Z * Pedido.t,
              t ← Pedido_total_pedido db r.1; Ok (if num_truthy t then [t] else [])) rs
  = Ok terms →
  ∃ totals,
    Forall2 (λ r t, Pedido_total_pedido db r.1 = Ok t) rs totals
    ∧ concat terms = filter (λ t, num_truthy t = true) totals.
Proof.
  revert terms. induction rs as [|r rs IH]; intros terms; cbn [traverse].
  - intros [= <-]. exists []. split; [constructor | done].
  - destruct (Pedido_total_pedido db r.1) as [t|e] eqn:Ht; cbn [mbind result_bind]; [|done].
    destruct (traverse _ rs) as [terms'|e]; cbn [mbind result_bind]; [|done].
    intros [= <-]. destruct (IH terms' eq_refl) as (totals & Hall & Hcat).
    exists (t :: totals). split; [by constructor|].
    cbn [concat]. rewrite Hcat, filter_cons.
    destruct (num_truthy t); by case_decide.
Qed.

Lemma Zsum_nonneg (l : list Z) : Forall (λ z, 0 ≤ z) l → 0 ≤ Zsum l.
Proof. induction 1 as [|z l Hz _ IH]; [done|]. rewrite Zsum_cons. lia. Qed.

Lemma pedido_lines_nonneg (db : DB) (k : Z) : 0 ≤ pedido_lines db k.
Proof. unfold pedido_lines. lia. Qed.

Lemma Zsum_filter_nonzero (cs : list Z) : Zsum (filter (λ c, c ≠ 0) cs) = Zsum cs.
Proof.
  induction cs as [|c cs IH]; [done|].
  rewrite filter_cons. case_decide; rewrite ?Zsum_cons, IH; lia.
Qed.

Lemma Zsum_abs_filter_le (P : Z → Prop) `{∀ c, Decision (P c)} (cs : list Z) :
  Zsum (Z.abs <$> filter P cs) ≤ Zsum (Z.abs <$> cs).
Proof.
  induction cs as [|c cs IH]; [done|].
  rewrite filter_cons. case_decide; rewrite ?fmap_cons, ?Zsum_cons; lia.
Qed.

(** The total of an order of column values: zero is the int [0] or a
    zero Decimal, anything else the Decimal of the value of its lines. *)
Lemma total_pedido_shape (db : DB) (k : Z) :
  stored_pedido db k →
  pedido_lines db k ≤ 10 ^ 8 →
  ∃ total,
    Pedido_total_pedido db k = Ok total
    ∧ num_truthy total = negb (pedido_centavos db k =? 0)
    ∧ (num_truthy total = true → total = PDec (centavos (pedido_centavos db k)))
    ∧ Z.abs (pedido_centavos db k) ≤ pedido_lines db k * line_bound.
Proof.
  intros [Hps Hss] Hlen. unfold Pedido_total_pedido, pedido_centavos, pedido_lines in *.
  destruct (traverse_subtotal_productos_eq _ Hps) as [Hcp Hbp].
  destruct (traverse_subtotal_servicios_eq _ Hss) as [Hcs Hbs].
  rewrite Hcp, Hcs. cbn [mbind result_bind].
  pose proof (Zsum_abs_bound _ Hbp) as Hp.
  pose proof (Zsum_abs_bound _ Hbs) as Hs.
  rewrite length_fmap in Hp. rewrite length_fmap in Hs.
  set (cp := (λ it, line_centavos (ItemProductoPedido.cantidad it)
                      (ItemProductoPedido.precio_unitario it))
             <$> Pedido_items_productos db k) in *.
  set (cs := (λ it, line_centavos (ItemServicioPedido.cantidad it)
                      (ItemServicioPedido.precio_unitario it))
             <$> Pedido_items_servicios db k) in *.
  pose proof (Zsum_abs_le cp). pose proof (Zsum_abs_le cs).
  pose proof (Zsum_abs_nonneg cp). pose proof (Zsum_abs_nonneg cs).
  assert (Hsum : Zsum (Z.abs <$> cp) + Zsum (Z.abs <$> cs) < 10 ^ prec).
  { assert (10 ^ 8 * line_bound < 10 ^ prec) by (by vm_compute).
    unfold line_bound in *.
    change (10 ^ 8) with 100000000 in *. lia. }
  rewrite !py_sum_centavos by lia.
  eexists. split; [reflexivity|].
  assert (Hbound : Z.abs (Zsum cp + Zsum cs)
                   ≤ (Z.of_nat (length (Pedido_items_productos db k))
                      + Z.of_nat (length (Pedido_items_servicios db k))) * line_bound).
  { unfold line_bound in *. lia. }
  split_and!; [| |done].
  - destruct cp as [|c1 cp'] eqn:Ecp, cs as [|c2 cs'] eqn:Ecs; cbn [num_add num_truthy].
    + done.
    + destruct (dec_add_zero_centavos (Zsum (c2 :: cs'))) as [-> _]; [lia|].
      change (Zsum []) with 0. by rewrite Z.add_0_l.
    + destruct (dec_add_zero_centavos (Zsum (c1 :: cp'))) as [_ ->]; [lia|].
      change (Zsum []) with 0. by rewrite Z.add_0_r.
    + rewrite dec_add_centavos by lia. done.
  - destruct cp as [|c1 cp'] eqn:Ecp, cs as [|c2 cs'] eqn:Ecs; cbn [num_add num_truthy].
    + done.
    + destruct (dec_add_zero_centavos (Zsum (c2 :: cs'))) as [-> _]; [lia|].
      change (Zsum []) with 0. by rewrite Z.add_0_l.
    + destruct (dec_add_zero_centavos (Zsum (c1 :: cp'))) as [_ ->]; [lia|].
      change (Zsum []) with 0. by rewrite Z.add_0_r.
    + rewrite dec_add_centavos by lia. done.
Qed.

(** The terms of the sum over orders of column values. *)
Lemma gastado_terms_stored (db : DB) (rs : list (Z * Pedido.t)) :
  Forall (λ r, stored_pedido db r.1) rs →
  Zsum ((λ r, pedido_lines db r.1) <$> rs) ≤ 10 ^ 8 →
  ∃ terms,
    traverse (λ r : Z * Pedido.t,
                t ← Pedido_total_pedido db r.1; Ok (if num_truthy t then [t] else [])) rs
    = Ok terms
    ∧ concat terms
      = PDec <$> (centavos <$> filter (λ c, c ≠ 0) ((λ r, pedido_centavos db r.1) <$> rs))
    ∧ Zsum (Z.abs <$> ((λ r, pedido_centavos db r.1) <$> rs))
      ≤ Zsum ((λ r, pedido_lines db r.1) <$> rs) * line_bound.
Proof.
  induction 1 as [|r rs Hr Hrs IH]; intros Hlen.
  - exists []. by split_and!.
  - rewrite fmap_cons, Zsum_cons in Hlen.
    pose proof (pedido_lines_nonneg db r.1) as Hr0.
    assert (Hrs0 : 0 ≤ Zsum ((λ r, pedido_lines db r.1) <$> rs)).
    { apply Zsum_nonneg, Forall_fmap, Forall_forall. intros x _. apply pedido_lines_nonneg. }
    destruct IH as (terms & Hterms & Hcat & Hbound); [lia|].
    destruct (total_pedido_shape db r.1 Hr) as (total & Htotal & Htruthy & Hshape & Hb); [lia|].
    cbn [traverse]. rewrite Htotal. cbn [mbind result_bind]. rewrite Hterms.
    cbn [mbind result_bind]. eexists. split; [reflexivity|].
    rewrite !fmap_cons, !Zsum_cons. split.
    + cbn [concat]. rewrite Hcat, filter_cons.
      destruct (Z.eqb_spec (pedido_centavos db r.1) 0) as [Hz|Hnz].
      * rewrite Htruthy. simpl. by case_decide.
      * specialize (Hshape Htruthy). rewrite Htruthy. simpl.
        case_decide; [|done]. by rewrite !fmap_cons, Hshape.
    + unfold line_bound in *. lia.
Qed.

End cliente_more.

(** X23. The page of a client answers 404 exactly when the client is
    missing, and fails only with the exception that [total_pedido] of
    one of the client's orders raises.  Otherwise its orders are
    exactly the orders of that client, from the latest to the earliest,
    none twice, and [total_pedidos] is their number; [total_gastado] is
    the sum of the totals that are not zero; the rest of the budget is
    the budget less that sum, and the budget itself when the sum is
    zero.  A client without orders has spent the int [0]. *)
Theorem ClienteDetailView_get_context_data_spec (store : Database) (pk : Z) :
  (ClienteDetailView.get_context_data store pk = Http404 ↔ clientes store !! pk = None)
  ∧ (∀ e, ClienteDetailView.get_context_data store pk = Raised e →
       ∃ k p, pedidos store !! k = Some p ∧ Pedido.cliente p = pk
              ∧ Pedido_total_pedido (base store) k = Raise e)
  ∧ (∀ ctx, ClienteDetailView.get_context_data store pk = Response ctx →
       (∀ k p, (k, p) ∈ ClienteDetailView.ctx_pedidos ctx ↔
               pedidos store !! k = Some p ∧ Pedido.cliente p = pk)
       ∧ Sorted pedido_ordering (ClienteDetailView.ctx_pedidos ctx)
       ∧ NoDup (ClienteDetailView.ctx_pedidos ctx).*1
       ∧ ClienteDetailView.ctx_total_pedidos ctx
         = Z.of_nat (length (ClienteDetailView.ctx_pedidos ctx))
       ∧ (∃ totals,
            Forall2 (λ r t, Pedido_total_pedido (base store) r.1 = Ok t)
              (ClienteDetailView.ctx_pedidos ctx) totals
            ∧ ClienteDetailView.ctx_total_gastado ctx
              = py_sum (filter (λ t, num_truthy t = true) totals))
       ∧ (∃ cliente,
            clientes store !! pk = Some cliente
            ∧ ClienteDetailView.ctx_presupuesto_restante ctx
              = (if num_truthy (ClienteDetailView.ctx_total_gastado ctx)
                 then dec_sub_num (Cliente.presupuesto cliente)
                        (ClienteDetailView.ctx_total_gastado ctx)
                 else Cliente.presupuesto cliente)
            ∧ (ClienteDetailView.ctx_pedidos ctx = [] →
               ClienteDetailView.ctx_total_gastado ctx = PInt 0
               ∧ ClienteDetailView.ctx_presupuesto_restante ctx
                 = Cliente.presupuesto cliente))).
Proof.
  unfold ClienteDetailView.get_context_data.
  destruct (clientes store !! pk) as [cliente|] eqn:Hc; [|by split_and!].
  cbv zeta.
  rewrite (traverse_ext _ _ _ (λ r : Z * Pedido.t, gastado_term (base store) r.1)).
  set (rs := merge_sort pedido_ordering
               (filter (λ r : Z * Pedido.t, Pedido.cliente r.2 = pk)
                       (map_to_list (pedidos store)))).
  assert (Hrows : ∀ k p, (k, p) ∈ rs ↔ pedidos store !! k = Some p ∧ Pedido.cliente p = pk).
  { intros k p. subst rs.
    rewrite merge_sort_Permutation, list_elem_of_filter, elem_of_map_to_list. simpl. tauto. }
  destruct (traverse _ rs) as [terms|e'] eqn:Ht.
  - split_and!; [done..|].
    intros ctx [= <-]. simpl.
    destruct (gastado_terms_Ok _ _ _ Ht) as (totals & Hall & Hcat).
    split_and!; [done| | |done| |].
    + apply Sorted_merge_sort, pedido_ordering_total.
    + apply (NoDup_fst_of_table (pedidos store)).
      * subst rs. rewrite merge_sort_Permutation. apply NoDup_filter, NoDup_map_to_list.
      * intros [k p] Hin. apply Hrows in Hin as [Hp _]. by apply elem_of_map_to_list.
    + exists totals. by rewrite Hcat.
    + exists cliente. split_and!; [done..|].
      intros Hnil. rewrite Hnil in Ht. injection Ht as <-. done.
  - split_and!; [done| |done].
    intros e [= <-]. apply traverse_Raise in Ht as ([k p] & Hin & Hr).
    apply Hrows in Hin as [Hp Hcl]. exists k, p. split_and!; [done..|].
    cbn [fst] in Hr.
    destruct (Pedido_total_pedido (base store) k) as [t|e0];
      cbn [mbind result_bind] in Hr; [done | congruence].
Qed.

Lemma ClienteDetailView_get_context_data_spec_witness :
  ∃ ctx, ClienteDetailView.get_context_data store_ejemplo 1 = Response ctx
         ∧ ClienteDetailView.ctx_total_pedidos ctx
           = Z.of_nat (length (ClienteDetailView.ctx_pedidos ctx)).
Proof.
  destruct (ClienteDetailView_get_context_data_spec store_ejemplo 1) as (_ & _ & H).
  eexists. split; [reflexivity|].
  eapply H. reflexivity.
Defined.

(** X24. For a client whose budget is a column value and whose orders
    hold column values in at most 10^8 lines in all, the page shows as
    [total_gastado] a number whose value is the value of all the lines
    of the client's orders, and as the rest of the budget the budget
    less that value, to the hundredth. *)
Theorem presupuesto_restante_value (store : Database) (pk : Z) (cliente : Cliente.t) :
  clientes store !! pk = Some cliente →
  stored_presupuesto (Cliente.presupuesto cliente) →
  Forall (λ r, stored_pedido (base store) r.1) (pedidos_de store pk) →
  Zsum ((λ r, pedido_lines (base store) r.1) <$> pedidos_de store pk) ≤ 10 ^ 8 →
  ∃ ctx,
    ClienteDetailView.get_context_data store pk = Response ctx
    ∧ (num_value (ClienteDetailView.ctx_total_gastado ctx)
       == dec_value
            (centavos (Zsum ((λ r, pedido_centavos (base store) r.1)
                             <$> pedidos_de store pk))))%Q
    ∧ ClienteDetailView.ctx_presupuesto_restante ctx
      = centavos (coef (Cliente.presupuesto cliente)
                  - Zsum ((λ r, pedido_centavos (base store) r.1) <$> pedidos_de store pk)).
Proof.
  intros Hc [He Hpres] Hst Hlen. unfold ClienteDetailView.get_context_data.
  rewrite Hc. cbv zeta.
  rewrite (traverse_ext _ _ _ (λ r : Z * Pedido.t, gastado_term (base store) r.1)).
  fold (pedidos_de store pk).
  pose proof (merge_sort_Permutation pedido_ordering (pedidos_de store pk)) as Hperm.
  set (rs := merge_sort pedido_ordering (pedidos_de store pk)) in *.
  destruct (gastado_terms_stored (base store) rs) as (terms & Ht & Hcat & Hbound).
  { by rewrite Hperm. }
  { by rewrite (Zsum_Permutation _ _ (fmap_Permutation _ _ _ Hperm)). }
  rewrite Ht. eexists. split; [reflexivity|].
  cbn [ClienteDetailView.ctx_total_gastado ClienteDetailView.ctx_presupuesto_restante].
  rewrite Hcat.
  rewrite (Zsum_Permutation _ _ (fmap_Permutation (λ r, pedido_lines (base store) r.1)
                                   _ _ Hperm)) in Hbound.
  rewrite <- (Zsum_Permutation _ _ (fmap_Permutation (λ r, pedido_centavos (base store) r.1)
                                      _ _ Hperm)).
  set (cs := (λ r, pedido_centavos (base store) r.1) <$> rs) in *.
  pose proof (Zsum_abs_filter_le (λ c, c ≠ 0) cs) as Hfil.
  pose proof (Zsum_abs_le (filter (λ c, c ≠ 0) cs)) as Habs.
  pose proof (Zsum_filter_nonzero cs) as Hsame.
  assert (Hnum : 10 ^ 12 + 10 ^ 8 * line_bound < 10 ^ prec) by (by vm_compute).
  assert (Hsmall : Z.abs (coef (Cliente.presupuesto cliente))
                   + Zsum (Z.abs <$> filter (λ c, c ≠ 0) cs) < 10 ^ prec).
  { unfold line_bound in *. change (10 ^ 8) with 100000000 in *.
    change (10 ^ 12) with 1000000000000 in *. lia. }
  pose proof (Zsum_abs_nonneg (filter (λ c, c ≠ 0) cs)) as Hnn.
  rewrite py_sum_centavos by lia.
  rewrite <- Hsame.
  destruct (Cliente.presupuesto cliente) as [cp ep]. simpl in He, Hsmall |- *. subst ep.
  destruct (filter (λ c, c ≠ 0) cs) as [|c1 cs1].
  - cbn [num_truthy num_value]. change (Zsum []) with 0. split; [done|].
    unfold centavos. by rewrite Z.sub_0_r.
  - set (S := Zsum (c1 :: cs1)) in *. clearbody S.
    cbn [num_truthy num_value dec_sub_num]. split; [done|].
    unfold dec_truthy, centavos. cbn [coef].
    destruct (Z.eqb_spec S 0) as [->|Hnz]; cbn [negb].
    + by rewrite Z.sub_0_r.
    + unfold dec_sub, dec_neg. cbn [coef expo].
      rewrite dec_add_same_expo by lia. f_equal; lia.
Qed.

Lemma presupuesto_restante_value_witness :
  ∃ ctx,
    ClienteDetailView.get_context_data store_ejemplo 1 = Response ctx
    ∧ (num_value (ClienteDetailView.ctx_total_gastado ctx)
       == dec_value
            (centavos (Zsum ((λ r, pedido_centavos (base store_ejemplo) r.1)
                             <$> pedidos_de store_ejemplo 1))))%Q
    ∧ ClienteDetailView.ctx_presupuesto_restante ctx
      = centavos (coef (Cliente.presupuesto cliente_ejemplo)
                  - Zsum ((λ r, pedido_centavos (base store_ejemplo) r.1)
                          <$> pedidos_de store_ejemplo 1)).
Proof.
  apply (presupuesto_restante_value store_ejemplo 1 cliente_ejemplo).
  - reflexivity.
  - split; [reflexivity | by vm_compute].
  - apply (bool_decide_unpack _). by vm_compute.
  - vm_compute. discriminate.
Defined.
